(** * Frame Analysis client (src/app.py): a shallow embedding

    The Streamlit script [app.py] is embedded as a program in a small
    monad that threads the session state, the script's global names, the
    replies of the analysis service and the trace of everything the script
    shows or sends.  Python values decoded from JSON are kept dynamically
    typed, with the interpreter's errors written out. *)

From Stdlib Require Import ZArith List String Ascii Bool Lia QArith Qround.
From Stdlib Require Import Sorted.
Import ListNotations.
Local Open Scope string_scope.
Local Open Scope Z_scope.

(** ** Text *)

Module Text.

(** [str.lower] on the ASCII letters.  Bytes above 127 are left as they
    are: the script only lowers a string to look for the ASCII keywords
    [high], [medium] and [low] in it, and no character outside ASCII lowers
    to a letter sequence that completes one of them. *)
Definition lower_ascii (c : ascii) : ascii :=
  let n := nat_of_ascii c in
  if ((65 <=? n) && (n <=? 90))%nat then ascii_of_nat (n + 32) else c.

Fixpoint lower (s : string) : string :=
  match s with
  | EmptyString => EmptyString
  | String c s' => String (lower_ascii c) (lower s')
  end.

(** [needle in hay] on strings. *)
Fixpoint contains (needle hay : string) : bool :=
  prefix needle hay ||
  match hay with
  | EmptyString => false
  | String _ hay' => contains needle hay'
  end.

(** [s.replace(old, new)] for a non-empty [old]: left to right, without
    overlap.  [skip] counts the bytes of a match still to be dropped. *)
Fixpoint replace_from (skip : nat) (old new s : string) : string :=
  match s with
  | EmptyString => EmptyString
  | String c s' =>
      match skip with
      | S k => replace_from k old new s'
      | O =>
          if prefix old s
          then new ++ replace_from (String.length old - 1) old new s'
          else String c (replace_from O old new s')
      end
  end.

Definition replace (old new s : string) : string := replace_from O old new s.

(** A byte that continues a UTF-8 character (10xxxxxx). *)
Definition continuation (c : ascii) : bool :=
  let n := nat_of_ascii c in ((128 <=? n) && (n <? 192))%nat.

(** [s[:n]]: the first [n] characters of a UTF-8 string. *)
Fixpoint take_chars (n : nat) (s : string) : string :=
  match s with
  | EmptyString => EmptyString
  | String c s' =>
      if continuation c then String c (take_chars n s')
      else match n with
           | O => EmptyString
           | S k => String c (take_chars k s')
           end
  end.

(** The characters of a UTF-8 string, one string each. *)
Fixpoint chars_from (cur : string) (s : string) : list string :=
  match s with
  | EmptyString => match cur with EmptyString => [] | _ => [cur] end
  | String c s' =>
      if continuation c then chars_from (cur ++ String c EmptyString) s'
      else match cur with
           | EmptyString => chars_from (String c EmptyString) s'
           | _ => cur :: chars_from (String c EmptyString) s'
           end
  end.

Definition chars (s : string) : list string := chars_from EmptyString s.

(** [sep.join(parts)]. *)
Fixpoint join (sep : string) (parts : list string) : string :=
  match parts with
  | [] => EmptyString
  | [p] => p
  | p :: rest => p ++ sep ++ join sep rest
  end.

Definition digit (n : Z) : string :=
  String (ascii_of_nat (48 + Z.to_nat n)) EmptyString.

Fixpoint digits (fuel : nat) (n : Z) (acc : string) : string :=
  match fuel with
  | O => acc
  | S k =>
      let acc' := digit (n mod 10) ++ acc in
      if n <? 10 then acc' else digits k (n / 10) acc'
  end.

(** [str(n)] for an integer. *)
Definition of_Z (n : Z) : string :=
  let m := Z.abs n in
  let body := digits (S (Z.to_nat (Z.log2 m))) m EmptyString in
  if n <? 0 then "-" ++ body else body.

End Text.

Definition dq : string := String (ascii_of_nat 34) EmptyString.
Definition nl : string := String (ascii_of_nat 10) EmptyString.

(** ** Binary64 arithmetic

    A float is kept as the rational it denotes.  [round64] rounds a
    rational to the nearest binary64 value, ties to even, in the normal
    range; every quotient and product the script computes lies in it. *)

Module Float.

(** Nearest integer to [n / d], ties to even, for [0 < d]. *)
Definition nearest_even (n d : Z) : Z :=
  let q := n / d in
  let r := n mod d in
  match 2 * r ?= d with
  | Lt => q
  | Gt => q + 1
  | Eq => if Z.even q then q else q + 1
  end.

Definition scaled (n d e : Z) : Z * Z :=
  if 0 <=? e then (n, d * 2 ^ e) else (n * 2 ^ (- e), d).

(** The binary64 value nearest to [n / d], for [0 < n] and [0 < d]. *)
Definition round_pos (n d : Z) : Q :=
  let l := Z.log2 n - Z.log2 d in
  let '(n0, d0) := scaled n d l in
  let l := if d0 <=? n0 then l else l - 1 in
  let e := l - 52 in
  let '(n1, d1) := scaled n d e in
  let m := nearest_even n1 d1 in
  if 0 <=? e then inject_Z (m * 2 ^ e)
  else Qmake m (Z.to_pos (2 ^ (- e))).

Definition round64 (q : Q) : Q :=
  match Qnum q with
  | Z0 => 0%Q
  | Zpos n => round_pos (Zpos n) (Zpos (Qden q))
  | Zneg n => Qopp (round_pos (Zpos n) (Zpos (Qden q)))
  end.

(** [a / b] on two ints (true division) and on floats. *)
Definition div (a b : Q) : Q := round64 (a / b)%Q.
Definition mul (a b : Q) : Q := round64 (a * b)%Q.

(** [int(x)]: truncation toward zero. *)
Definition to_int (x : Q) : Z :=
  if Qle_bool 0 x then Qfloor x else Qceiling x.

(** Whether [float(z)] exists for the int [z]: the conversion rounds to
    the nearest binary64 value, ties to even, and raises [OverflowError]
    when that is beyond the largest one, [2^1024 - 2^971]. *)
Definition fits (z : Z) : bool := Z.abs z <? 2 ^ 1024 - 2 ^ 970.

End Float.

(** ** Python values and the interpreter's errors *)

(** A value decoded from JSON (or built by the script).  A dict keeps its
    items in insertion order, as Python's does. *)
#[warnings="-register-all"]
Inductive value : Type :=
| PNone
| PBool (b : bool)
| PInt (z : Z)
| PFloat (x : Q)
| PStr (s : string)
| PList (l : list value)
| PDict (d : list (string * value)).

Inductive exn : Type :=
| NameError (name : string)
| AttributeError (type_name attr : string)
| KeyError (key : string)
| TypeError (msg : string)
| ValueError (msg : string)
| OverflowError (msg : string)
| RequestException (msg : string)
| JSONDecodeError (msg : string)
| UnidentifiedImageError.      (* PIL, raised inside st.image *)

Inductive res (A : Type) : Type :=
| Ok (a : A)
| Err (e : exn).
Arguments Ok {A} a.
Arguments Err {A} e.

Definition res_bind {A B} (r : res A) (k : A -> res B) : res B :=
  match r with
  | Ok a => k a
  | Err e => Err e
  end.

(** What the host interpreter prints, where printing depends on binary64
    digits or on Unicode tables: the embedding takes these three functions
    as given. *)
Class Interp : Type := {
  (** [str(v)] of a float, a list or a dict *)
  host_str : value -> string;
  (** [format(v, '.Nf')] of a bool, an int or a float *)
  host_fixed : nat -> value -> string;
  (** [s.title()] *)
  host_title : string -> string
}.

Definition type_name (v : value) : string :=
  match v with
  | PNone => "NoneType"
  | PBool _ => "bool"
  | PInt _ => "int"
  | PFloat _ => "float"
  | PStr _ => "str"
  | PList _ => "list"
  | PDict _ => "dict"
  end.

(** [str(e)].  The text of [UnidentifiedImageError] goes on with the
    [repr] of the byte stream, which holds an address; the script has no
    handler around [st.image], so it never formats it. *)
Definition str_exn (e : exn) : string :=
  match e with
  | NameError n => "name '" ++ n ++ "' is not defined"
  | AttributeError t a => "'" ++ t ++ "' object has no attribute '" ++ a ++ "'"
  | KeyError k => "'" ++ k ++ "'"
  | TypeError m => m
  | ValueError m => m
  | OverflowError m => m
  | RequestException m => m
  | JSONDecodeError m => m
  | UnidentifiedImageError => "cannot identify image file"
  end.

Fixpoint lookup {A} (k : string) (d : list (string * A)) : option A :=
  match d with
  | [] => None
  | (k', v) :: d' => if String.eqb k k' then Some v else lookup k d'
  end.

(** Truth value of [v] in a condition. *)
Definition truthy (v : value) : bool :=
  match v with
  | PNone => false
  | PBool b => b
  | PInt z => negb (z =? 0)
  | PFloat x => negb (Qeq_bool x 0)
  | PStr s => negb (String.eqb s "")
  | PList l => match l with [] => false | _ => true end
  | PDict d => match d with [] => false | _ => true end
  end.

(** [v == 's'] for a string literal ['s']. *)
Definition py_eq_str (v : value) (s : string) : bool :=
  match v with
  | PStr s' => String.eqb s' s
  | _ => false
  end.

(** [v.get(k, default)] *)
Definition py_get (v : value) (k : string) (default : value) : res value :=
  match v with
  | PDict d => Ok (match lookup k d with Some x => x | None => default end)
  | _ => Err (AttributeError (type_name v) "get")
  end.

(** [v[k]] for a string key *)
Definition py_index (v : value) (k : string) : res value :=
  match v with
  | PDict d =>
      match lookup k d with
      | Some x => Ok x
      | None => Err (KeyError k)
      end
  | PList _ => Err (TypeError "list indices must be integers or slices, not str")
  | PStr _ => Err (TypeError "string indices must be integers, not 'str'")
  | _ => Err (TypeError ("'" ++ type_name v ++ "' object is not subscriptable"))
  end.

(** ['k' in v] *)
Definition py_in (k : string) (v : value) : res bool :=
  match v with
  | PDict d => Ok (match lookup k d with Some _ => true | None => false end)
  | PStr s => Ok (Text.contains k s)
  | PList l => Ok (existsb (fun x => py_eq_str x k) l)
  | _ => Err (TypeError ("argument of type '" ++ type_name v ++ "' is not iterable"))
  end.

(** [v[:n]] *)
Definition py_slice_to (n : nat) (v : value) : res value :=
  match v with
  | PStr s => Ok (PStr (Text.take_chars n s))
  | PList l => Ok (PList (firstn n l))
  | PDict _ => Err (TypeError "unhashable type: 'slice'")
  | _ => Err (TypeError ("'" ++ type_name v ++ "' object is not subscriptable"))
  end.

(** [len(v)] *)
Definition py_len (v : value) : res Z :=
  match v with
  | PStr s => Ok (Z.of_nat (List.length (Text.chars s)))
  | PList l => Ok (Z.of_nat (List.length l))
  | PDict d => Ok (Z.of_nat (List.length d))
  | _ => Err (TypeError ("object of type '" ++ type_name v ++ "' has no len()"))
  end.

(** The elements [for x in v] runs through. *)
Definition py_iter (v : value) : res (list value) :=
  match v with
  | PList l => Ok l
  | PStr s => Ok (map PStr (Text.chars s))
  | PDict d => Ok (map (fun kv => PStr (fst kv)) d)
  | _ => Err (TypeError ("'" ++ type_name v ++ "' object is not iterable"))
  end.

(** [v.items()] *)
Definition py_items (v : value) : res (list (string * value)) :=
  match v with
  | PDict d => Ok d
  | _ => Err (AttributeError (type_name v) "items")
  end.

(** [v.replace(old, new)] *)
Definition py_replace (old new : string) (v : value) : res value :=
  match v with
  | PStr s => Ok (PStr (Text.replace old new s))
  | _ => Err (AttributeError (type_name v) "replace")
  end.

Section Printing.
Context {I : Interp}.

(** [str(v)], which is also what an f-string puts for [{v}]. *)
Definition py_str (v : value) : string :=
  match v with
  | PNone => "None"
  | PBool true => "True"
  | PBool false => "False"
  | PInt z => Text.of_Z z
  | PStr s => s
  | _ => host_str v
  end.

(** [f"{v:.Nf}"] *)
Definition format_fixed (digits : nat) (v : value) : res string :=
  match v with
  | PInt z =>
      if Float.fits z then Ok (host_fixed digits v)
      else Err (OverflowError "int too large to convert to float")
  | PBool _ | PFloat _ => Ok (host_fixed digits v)
  | PStr _ => Err (ValueError "Unknown format code 'f' for object of type 'str'")
  | _ => Err (TypeError ("unsupported format string passed to "
                         ++ type_name v ++ ".__format__"))
  end.

End Printing.

(** ** The analysis service as the script sees it *)

Inductive verb : Type := GET | POST.

(** One call of [requests.get] or [requests.post].  [timeout] is [None]
    when the call passes no [timeout=] argument. *)
Record request : Type := {
  method : verb;
  url : string;
  timeout : option Z;
  files : list (string * string);
  data : list (string * string)
}.

(** A response object: [status_code], what [.json()] decodes (nothing when
    the body is not JSON), the text of the [JSONDecodeError] that
    [.json()] raises then, which says where decoding stopped, and the raw
    [.content]. *)
Record response : Type := {
  status_code : Z;
  json_body : option value;
  json_error : string;
  content : string
}.

(** What a call comes back with: a response, or an exception of the
    [requests] library (connection failure, timeout). *)
Inductive reply : Type :=
| Responds (r : response)
| Fails (msg : string).

(** ** What the script shows *)

Inductive level : Type := Success | Info | Warning | Error.

(** An uploaded file.  The uploader goes by the extension of [name] only;
    [is_image] says whether the bytes are an image the toolkit can decode,
    which the embedding does not decide from [getvalue]. *)
Record file : Type := {
  name : string;
  size : Z;
  getvalue : string;
  is_image : bool
}.

Inductive payload : Type :=
| JsonDump (v : value)     (* json.dumps(v, indent=2, default=str) *)
| Bytes (b : string).

(** One entry of the trace: a call sent, or a call of the widget toolkit
    that went through, with what it was given.  A toolkit call that
    raises on its argument ([st.image], [st.metric]) leaves no entry. *)
Inductive event : Type :=
| Request (r : request)
| Slept (seconds : Z)                       (* time.sleep *)
| Notice (l : level) (text : string)        (* st.success/info/warning/error *)
| ProgressBar (percent : Z)                 (* st.progress, progress_bar.progress *)
| Placeholder                               (* st.empty *)
| StatusText (l : level) (text : string)    (* status_text.success/info *)
| Spinner (text : string)
| Header (text : string)
| Subheader (text : string)
| Markdown (text : string)
| Written (text : string)                   (* st.write *)
| Caption (text : string)
| Divider
| Columns (n : Z)
| Metric (column : Z) (label : string) (v : value)
| Expander (label : string)
| Button (label : string)
| ShowVideo (f : file)
| ShowImage (column : Z) (f : file)
| DownloadButton (label : string) (body : payload) (file_name mime : string).

(** ** State of one run of the script *)

Record session_state : Type := {
  job_id : value;
  results : value;
  analysis_complete : bool
}.

(** [globals] holds the functions the run has defined so far, [service]
    the reply to each HTTP call in the order the calls are made, [calls]
    how many were made, [trace] what was shown and sent, oldest first. *)
Record world : Type := {
  session : session_state;
  globals : list string;
  service : nat -> reply;
  calls : nat;
  trace : list event
}.

(** How a block of the script ends: it runs through, raises, or stops the
    run with [st.rerun()], which no [except Exception] catches. *)
Inductive flow (A : Type) : Type :=
| Done (a : A)
| Raised (e : exn)
| Rerun.
Arguments Done {A} a.
Arguments Raised {A} e.
Arguments Rerun {A}.

Definition M (A : Type) : Type := world -> flow A * world.

Definition ret {A} (a : A) : M A := fun w => (Done a, w).

Definition bind {A B} (m : M A) (k : A -> M B) : M B :=
  fun w =>
    match m w with
    | (Done a, w') => k a w'
    | (Raised e, w') => (Raised e, w')
    | (Rerun, w') => (Rerun, w')
    end.

Notation "x <- c1 ;; c2" := (bind c1 (fun x => c2))
  (at level 61, c1 at next level, right associativity).
Notation "c1 ;; c2" := (bind c1 (fun _ => c2))
  (at level 61, right associativity).

Definition raise {A} (e : exn) : M A := fun w => (Raised e, w).

Definition lift {A} (r : res A) : M A :=
  match r with
  | Ok a => ret a
  | Err e => raise e
  end.

(** [try: body  except Exception as e: handler(e)] *)
Definition try_except {A} (body : M A) (handler : exn -> M A) : M A :=
  fun w =>
    match body w with
    | (Raised e, w') => handler e w'
    | other => other
    end.

(** The world after [evs] were shown, after one more call, with another
    session state. *)
Definition shown (evs : list event) (w : world) : world :=
  {| session := session w; globals := globals w; service := service w;
     calls := calls w; trace := trace w ++ evs |}.

Definition called (w : world) : world :=
  {| session := session w; globals := globals w; service := service w;
     calls := S (calls w); trace := trace w |}.

Definition with_session (s : session_state) (w : world) : world :=
  {| session := s; globals := globals w; service := service w;
     calls := calls w; trace := trace w |}.

Definition emit (e : event) : M unit := fun w => (Done tt, shown [e] w).

Definition get_session : M session_state := fun w => (Done (session w), w).

Definition set_session (s : session_state) : M unit :=
  fun w => (Done tt, with_session s w).

(** [def name(...)] at top level. *)
Definition define (name : string) : M unit :=
  fun w => (Done tt, {| session := session w; globals := name :: globals w;
                        service := service w; calls := calls w;
                        trace := trace w |}).

(** The call is recorded, then the service's next reply decides. *)
Definition send (r : request) : M response :=
  fun w =>
    let w' := called (shown [Request r] w) in
    match service w (calls w) with
    | Responds resp => (Done resp, w')
    | Fails msg => (Raised (RequestException msg), w')
    end.

Definition requests_get (u : string) (t : option Z) : M response :=
  send {| method := GET; url := u; timeout := t; files := []; data := [] |}.

Definition requests_post (u : string) (fs ds : list (string * string))
    (t : option Z) : M response :=
  send {| method := POST; url := u; timeout := t; files := fs; data := ds |}.

(** [response.json()] *)
Definition json (r : response) : M value :=
  match json_body r with
  | Some v => ret v
  | None => raise (JSONDecodeError (json_error r))
  end.

Definition sleep (seconds : Z) : M unit := emit (Slept seconds).

(** [st.rerun()] *)
Definition rerun {A} : M A := fun w => (Rerun, w).

(** A [for] loop whose body may [break]. *)
Inductive control : Type := Next | Break.

Fixpoint for_each {A} (xs : list A) (body : A -> M control) : M unit :=
  match xs with
  | [] => ret tt
  | x :: xs' =>
      c <- body x ;;
      match c with
      | Next => for_each xs' body
      | Break => ret tt
      end
  end.

(** [range(n)] *)
Definition range (n : Z) : list Z := map Z.of_nat (seq 0 (Z.to_nat n)).

(** [enumerate(xs)] *)
Definition enumerate {A} (xs : list A) : list (Z * A) :=
  combine (range (Z.of_nat (List.length xs))) xs.

Notation "x <~ c1 ;; c2" := (res_bind c1 (fun x => c2))
  (at level 61, c1 at next level, right associativity).

(** A list comprehension [[f(x) for x in xs]] whose [f] may raise. *)
Fixpoint res_map {A B} (f : A -> res B) (xs : list A) : res (list B) :=
  match xs with
  | [] => Ok []
  | x :: xs' => y <~ f x ;; ys <~ res_map f xs' ;; Ok (y :: ys)
  end.

(** A list comprehension [[x for x in xs if p(x)]] whose [p] may raise. *)
Fixpoint res_filter {A} (p : A -> res bool) (xs : list A) : res (list A) :=
  match xs with
  | [] => Ok []
  | x :: xs' =>
      b <~ p x ;; ys <~ res_filter p xs' ;; Ok (if b then x :: ys else ys)
  end.

(** ** The script *)

Inductive media : Type := Video | ImageSequence.

(** What the user has set and pressed when the run starts, and the
    [API_URL] secret. *)
Record inputs : Type := {
  API_BASE_URL : string;
  media_type : media;
  analysis_mode : string;
  sampling_mode : string;
  sequence_type : string;
  uploaded_file : option file;
  uploaded_files : list file;
  analyze_video_pressed : bool;
  analyze_images_pressed : bool;
  severity_filter : list string;
  download_pdf_pressed : bool
}.

Definition max_attempts : Z := 150.

(** [min(a, b)] on numbers: [b] only when it is strictly smaller. *)
Definition py_min (a b : Q) : Q := if Qle_bool a b then a else b.

(** [min((attempt / max_attempts) * 100, 95)] (app.py:216 and 308) *)
Definition progress (attempt : Z) : Q :=
  py_min (Float.mul (Float.div (inject_Z attempt) (inject_Z max_attempts))
                    (inject_Z 100))
         (inject_Z 95).

Section Script.
Context {I : Interp}.
Variable ui : inputs.

(** [st.image(img_file, ...)] (app.py:246): the toolkit opens the bytes
    with PIL, which raises on bytes it cannot identify as an image. *)
Definition st_image (column : Z) (img_file : file) : M unit :=
  if is_image img_file then emit (ShowImage column img_file)
  else raise UnidentifiedImageError.

(** [st.metric(label, value)] (app.py:339, 506, 508): the toolkit takes
    [None], a number or a string for [value] and raises on anything
    else. *)
Definition st_metric (column : Z) (label : string) (v : value) : M unit :=
  match v with
  | PList _ | PDict _ =>
      raise (TypeError
               ("'" ++ py_str v ++ "' is of type <class '" ++ type_name v
                ++ "'>, which is not an accepted type."
                ++ " value only accepts: int, float, str, or None."
                ++ " Please convert the value to an accepted type."))
  | _ => emit (Metric column label v)
  end.

Definition set_job_id (j : value) : M unit :=
  s <- get_session ;;
  set_session {| job_id := j; results := results s;
                 analysis_complete := analysis_complete s |}.

Definition set_results (r : value) : M unit :=
  s <- get_session ;;
  set_session {| job_id := job_id s; results := r;
                 analysis_complete := analysis_complete s |}.

Definition set_analysis_complete (b : bool) : M unit :=
  s <- get_session ;;
  set_session {| job_id := job_id s; results := results s;
                 analysis_complete := b |}.

(** [f"{API_BASE_URL}/api/job/{st.session_state.job_id}"] and the like *)
Definition job_endpoint (path : string) : M string :=
  s <- get_session ;;
  ret (API_BASE_URL ui ++ path ++ py_str (job_id s)).

(** Sidebar, API status (app.py:126-135) *)
Definition api_status : M unit :=
  emit (Subheader "🔌 API Status") ;;
  try_except
    (response <- requests_get (API_BASE_URL ui ++ "/api/health") (Some 5) ;;
     if status_code response =? 200
     then emit (Notice Success "✅ API Online")
     else emit (Notice Error "❌ API Error"))
    (fun _ => emit (Notice Error "❌ API Offline")).

Definition sidebar : M unit :=
  emit (Header "⚙️ Configuration") ;;
  emit Divider ;;
  api_status.

(** [st.session_state.job_id = result['job_id']] and the message that
    follows (app.py:176-178, 272-274) *)
Definition analysis_started (result : value) : M unit :=
  j <- lift (py_index result "job_id") ;;
  set_job_id j ;;
  j' <- lift (py_index result "job_id") ;;
  short <- lift (py_slice_to 8 j') ;;
  emit (Notice Success ("✅ Analysis started! Job ID: " ++ py_str short ++ "...")).

(** The status is still neither [completed] nor [failed]
    (app.py:215-219, 308-311) *)
Definition still_processing (attempt : Z) : M control :=
  emit (ProgressBar (Float.to_int (progress attempt))) ;;
  emit (StatusText Info
          ("⏳ Processing... (" ++ Text.of_Z (attempt * 2) ++ "s elapsed)")) ;;
  sleep 2 ;;
  ret Next.

(** [status == 'failed'] (app.py:210-212, 303-305) *)
Definition analysis_failed (status_data : value) : M control :=
  err <- lift (py_get status_data "error" (PStr "Unknown error")) ;;
  emit (Notice Error ("❌ Analysis failed: " ++ py_str err)) ;;
  ret Break.

(** [status == 'completed'] (app.py:194-208, 289-301); [t] is the timeout
    the result fetch passes. *)
Definition analysis_completed (t : option Z) : M control :=
  emit (ProgressBar 100) ;;
  emit (StatusText Success "✅ Analysis complete!") ;;
  u <- job_endpoint "/api/result/" ;;
  results_response <- requests_get u t ;;
  (if status_code results_response =? 200
   then r <- json results_response ;;
        set_results r ;;
        set_analysis_complete true ;;
        rerun
   else ret tt) ;;
  ret Break.

(** The branches on a status response with code 200
    (app.py:192-219, 287-311) *)
Definition on_status (t : option Z) (attempt : Z)
    (status_response : response) : M control :=
  status_data <- json status_response ;;
  st <- lift (py_index status_data "status") ;;
  if py_eq_str st "completed" then analysis_completed t
  else
    st' <- lift (py_index status_data "status") ;;
    if py_eq_str st' "failed" then analysis_failed status_data
    else still_processing attempt.

(** One attempt of the video loop (app.py:186-223) *)
Definition video_attempt (attempt : Z) : M control :=
  u <- job_endpoint "/api/job/" ;;
  status_response <- requests_get u (Some 5) ;;
  if status_code status_response =? 200
  then on_status (Some 5) attempt status_response
  else emit (Notice Error "Failed to check status") ;; ret Break.

(** One attempt of the image loop (app.py:282-311): no [timeout=], and no
    [else] for a status code other than 200. *)
Definition image_attempt (attempt : Z) : M control :=
  u <- job_endpoint "/api/job/" ;;
  status_response <- requests_get u None ;;
  if status_code status_response =? 200
  then on_status None attempt status_response
  else ret Next.

(** Poll for results (app.py:180-223 and 276-311) *)
Definition poll (attempt_body : Z -> M control) : M unit :=
  emit (ProgressBar 0) ;;
  emit Placeholder ;;
  for_each (range max_attempts) attempt_body.

Definition video_poll : M unit := poll video_attempt.
Definition image_poll : M unit := poll image_attempt.

(** The [Analyze Video] button was pressed (app.py:159-228) *)
Definition analyze_video (f : file) : M unit :=
  emit (Spinner "Uploading and analyzing...") ;;
  try_except
    (response <- requests_post (API_BASE_URL ui ++ "/api/analyze/video")
                   [("video", getvalue f)]
                   [("mode", analysis_mode ui);
                    ("sampling_mode", sampling_mode ui)]
                   (Some 60) ;;
     if status_code response =? 200
     then result <- json response ;;
          analysis_started result ;;
          video_poll
     else emit (Notice Error
                  ("Upload failed: " ++ Text.of_Z (status_code response))))
    (fun e => emit (Notice Error ("Error: " ++ str_exn e))).

(** The video side of the upload tab (app.py:143-228) *)
Definition video_upload : M unit :=
  match uploaded_file ui with
  | None => ret tt
  | Some f =>
      emit (ShowVideo f) ;;
      emit (Columns 2) ;;
      emit (Notice Info
              ("📹 **" ++ name f ++ "** - "
               ++ host_fixed 2
                    (PFloat (Float.div
                               (Float.div (inject_Z (size f)) (inject_Z 1024))
                               (inject_Z 1024)))
               ++ " MB")) ;;
      emit (Button "🚀 Analyze Video") ;;
      if analyze_video_pressed ui then analyze_video f else ret tt
  end.

(** The [Analyze Images] button was pressed (app.py:255-316) *)
Definition analyze_images : M unit :=
  emit (Spinner "Uploading and analyzing...") ;;
  try_except
    (response <- requests_post (API_BASE_URL ui ++ "/api/analyze/images")
                   (map (fun img => ("images", getvalue img))
                        (uploaded_files ui))
                   [("sequence_type", sequence_type ui);
                    ("mode", analysis_mode ui)]
                   (Some 60) ;;
     if status_code response =? 200
     then result <- json response ;;
          analysis_started result ;;
          image_poll
     else emit (Notice Error
                  ("Upload failed: " ++ Text.of_Z (status_code response))))
    (fun e => emit (Notice Error ("Error: " ++ str_exn e))).

(** The image side of the upload tab (app.py:231-316) *)
Definition image_upload : M unit :=
  let n := Z.of_nat (List.length (uploaded_files ui)) in
  match uploaded_files ui with
  | [] => ret tt
  | _ :: _ =>
      emit (Notice Info ("📸 " ++ Text.of_Z n ++ " images uploaded")) ;;
      emit (Columns (Z.min n 5)) ;;
      for_each (enumerate (firstn 5 (uploaded_files ui)))
        (fun '(idx, img_file) => st_image idx img_file ;; ret Next) ;;
      (if n >? 5
       then emit (Caption ("... and " ++ Text.of_Z (n - 5) ++ " more images"))
       else ret tt) ;;
      if n <? 2
      then emit (Notice Warning
                   "⚠️ Please upload at least 2 images for sequence analysis")
      else
        emit (Button "🚀 Analyze Images") ;;
        if analyze_images_pressed ui then analyze_images else ret tt
  end.

(** [with tab1:] (app.py:140-316) *)
Definition upload_tab : M unit :=
  emit (Header "Upload Media") ;;
  match media_type ui with
  | Video => video_upload
  | ImageSequence => image_upload
  end.

(** ['keyword' in str(finding.get('severity', '')).lower()]
    (app.py:356, 377-379, 403-405) *)
Definition severity_has (keyword : string) (finding : value) : res bool :=
  sev <~ py_get finding "severity" (PStr "") ;;
  Ok (Text.contains keyword (Text.lower (py_str sev))).

(** [[f for f in findings if 'keyword' in ...]] *)
Definition select (keyword : string) (findings : list value)
    : res (list value) :=
  res_filter (severity_has keyword) findings.

(** One turn of the timeline loop (app.py:354-372): the entry appended to
    [timeline_data]. *)
Definition timeline_entry (finding : value) : res value :=
  is_high <~ severity_has "high" finding ;;
  is_medium <~ (if is_high then Ok false else severity_has "medium" finding) ;;
  let color := if is_high then "#dc2626"
               else if is_medium then "#ea580c" else "#f59e0b" in
  location <~ py_get finding "location" (PDict []) ;;
  start <~ py_get location "start" (PInt 0) ;;
  end_ <~ py_get location "end" (PInt 0) ;;
  ty <~ py_get finding "type" (PStr "Unknown") ;;
  Ok (PDict [("start", start); ("end", end_); ("color", PStr color);
             ("type", ty)]).

(** [severity_counts] (app.py:376-380), as (High, Medium, Low). *)
Definition severity_counts (findings : list value) : res (Z * Z * Z) :=
  high <~ select "high" findings ;;
  medium <~ select "medium" findings ;;
  low <~ select "low" findings ;;
  Ok (Z.of_nat (List.length high), Z.of_nat (List.length medium),
      Z.of_nat (List.length low)).

(** [loc_str] (app.py:479-488) *)
Definition format_location (location : value) : res string :=
  has_start <~ py_in "start" location ;;
  has_end <~ (if has_start then py_in "end" location else Ok false) ;;
  if has_start && has_end then
    start <~ py_index location "start" ;;
    start_text <~ format_fixed 2 start ;;
    end_ <~ py_index location "end" ;;
    end_text <~ format_fixed 2 end_ ;;
    Ok (start_text ++ "s - " ++ end_text ++ "s")
  else
    has_frames <~ py_in "frames" location ;;
    if has_frames then
      frames <~ py_index location "frames" ;;
      first5 <~ py_slice_to 5 frames ;;
      shown <~ py_iter first5 ;;
      let loc_str := "Frames: " ++ Text.join ", " (map py_str shown) in
      n <~ py_len frames ;;
      Ok (if n >? 5
          then loc_str ++ "... (" ++ Text.of_Z n ++ " total)"
          else loc_str)
    else Ok "N/A".

(** The finding card (app.py:491-496) *)
Definition finding_card (severity finding_type loc_str explanation : string)
    : string :=
  nl ++ "    <div class=" ++ dq ++ "finding-" ++ severity ++ dq ++ ">"
  ++ nl ++ "        <strong>" ++ finding_type ++ "</strong> - " ++ loc_str
  ++ "<br>"
  ++ nl ++ "        <small>" ++ explanation ++ "</small>"
  ++ nl ++ "    </div>"
  ++ nl ++ "    ".

(** One metric in the expander (app.py:502-508) *)
Definition show_metric (entry : Z * (string * value)) : M control :=
  let '(idx, (key, v)) := entry in
  let formatted_key := host_title (Text.replace "_" " " key) in
  st_metric (idx mod 3) formatted_key
    (match v with
     | PFloat _ => PStr (host_fixed 4 v)
     | _ => v
     end) ;;
  ret Next.

(** The body of [display_finding(finding, severity)] (app.py:472-508) *)
Definition display_finding (finding : value) (severity : string) : M unit :=
  ty <- lift (py_get finding "type" (PStr "Unknown")) ;;
  ty1 <- lift (py_replace "FindingType." "" ty) ;;
  finding_type <- lift (py_replace "_" " " ty1) ;;
  location <- lift (py_get finding "location" (PDict [])) ;;
  explanation <- lift (py_get finding "explanation" (PStr "")) ;;
  metrics <- lift (py_get finding "metrics" (PDict [])) ;;
  loc_str <- lift (format_location location) ;;
  emit (Markdown (finding_card severity (py_str finding_type) loc_str
                    (py_str explanation))) ;;
  if truthy metrics then
    emit (Expander "📊 View Metrics") ;;
    emit (Columns 3) ;;
    items <- lift (py_items metrics) ;;
    for_each (enumerate items) show_metric
  else ret tt.

(** A call of a function by its global name: the name must be bound when
    the call is evaluated. *)
Definition call (fname : string) (body : M unit) : M unit :=
  fun w =>
    if existsb (String.eqb fname) (globals w) then body w
    else (Raised (NameError fname), w).

(** One severity group of the findings list (app.py:408-411, 414-417,
    420-423) *)
Definition show_group (label title severity : string)
    (group : list value) : M unit :=
  if existsb (String.eqb label) (severity_filter ui)
     && match group with [] => false | _ => true end
  then
    emit (Subheader title) ;;
    for_each group
      (fun finding =>
         call "display_finding" (display_finding finding severity) ;;
         ret Next)
  else ret tt.

(** Findings list (app.py:392-423) *)
Definition findings_list (findings : value) (fs : list value) : M unit :=
  n <- lift (py_len findings) ;;
  emit (Header ("🔍 Findings (" ++ Text.of_Z n ++ ")")) ;;
  high_findings <- lift (select "high" fs) ;;
  medium_findings <- lift (select "medium" fs) ;;
  low_findings <- lift (select "low" fs) ;;
  show_group "High" "🔴 High Severity Findings" "high" high_findings ;;
  show_group "Medium" "🟠 Medium Severity Findings" "medium" medium_findings ;;
  show_group "Low" "🟡 Low Severity Findings" "low" low_findings.

(** [f"frame-analysis-{st.session_state.job_id[:8]}.json"] and the like *)
Definition export_name (stem ext : string) : M string :=
  s <- get_session ;;
  short <- lift (py_slice_to 8 (job_id s)) ;;
  ret (stem ++ py_str short ++ ext).

(** Export options (app.py:427-463) *)
Definition export_results (results : value) : M unit :=
  emit (Header "💾 Export Results") ;;
  emit (Columns 2) ;;
  json_name <- export_name "frame-analysis-" ".json" ;;
  emit (DownloadButton "📄 Download JSON" (JsonDump results) json_name
          "application/json") ;;
  emit (Button "📑 Download PDF") ;;
  if download_pdf_pressed ui then
    try_except
      (u <- job_endpoint "/api/export/pdf/" ;;
       pdf_response <- requests_get u (Some 30) ;;
       if status_code pdf_response =? 200 then
         pdf_name <- export_name "frame-analysis-report-" ".pdf" ;;
         emit (DownloadButton "💾 Save PDF Report"
                 (Bytes (content pdf_response)) pdf_name "application/pdf")
       else emit (Notice Error "PDF generation failed"))
      (fun e => emit (Notice Error ("Error downloading PDF: " ++ str_exn e)))
  else ret tt.

Definition warning_banner : string :=
  nl ++ "        <div class=" ++ dq ++ "warning-banner" ++ dq ++ ">"
  ++ nl ++ "            <strong>⚠️ Important Notice</strong><br>"
  ++ nl ++ "            Findings represent anomaly signals, not proof of manipulation. "
  ++ nl ++ "            Platform recompression may affect results."
  ++ nl ++ "        </div>"
  ++ nl ++ "        ".

(** Media information (app.py:331-342) *)
Definition media_information (results : value) : M unit :=
  emit (Header "📊 Media Information") ;;
  media_info <- lift (py_get results "media_info" (PDict [])) ;;
  emit (Columns 4) ;;
  items <- lift (py_items media_info) ;;
  for_each (enumerate items)
    (fun '(idx, (key, v)) =>
       st_metric (idx mod 4) (host_title (Text.replace "_" " " key)) v ;;
       ret Next).

(** Timeline overview (app.py:349-390).  The three counts are ints, which
    [st.metric] takes. *)
Definition timeline_overview (fs : list value) : M unit :=
  emit (Header "📈 Timeline Overview") ;;
  _ <- lift (res_map timeline_entry fs) ;;
  emit (Written "**Anomaly Distribution:**") ;;
  counts <- lift (severity_counts fs) ;;
  let '(high, medium, low) := counts in
  emit (Columns 3) ;;
  emit (Metric 0 "🔴 High Severity" (PInt high)) ;;
  emit (Metric 1 "🟠 Medium Severity" (PInt medium)) ;;
  emit (Metric 2 "🟡 Low Severity" (PInt low)) ;;
  emit Divider.

(** The results tab when there is a result (app.py:320-466).  The
    timeline header is up before the loop starts to iterate [findings]
    (app.py:350-354): when they cannot be iterated the header is the last
    thing shown. *)
Definition results_body (results : value) : M unit :=
  emit (Markdown warning_banner) ;;
  media_information results ;;
  emit Divider ;;
  findings <- lift (py_get results "findings" (PList [])) ;;
  if truthy findings then
    match py_iter findings with
    | Ok fs =>
        timeline_overview fs ;;
        findings_list findings fs ;;
        emit Divider ;;
        export_results results
    | Err e => emit (Header "📈 Timeline Overview") ;; raise e
    end
  else
    emit (Notice Success
            "✅ No anomalies detected - media appears consistent").

(** [with tab2:] (app.py:318-469) *)
Definition results_tab : M unit :=
  s <- get_session ;;
  if truthy (results s) then results_body (results s)
  else
    emit (Notice Info
            "👆 Upload and analyze media in the 'Upload & Analyze' tab to see results here").

(** The page down to the end of the upload tab (app.py:83-316).  Page
    configuration and the static style sheet (app.py:17-73) do not depend
    on the run and are left out. *)
Definition page_top : M unit :=
  emit (Markdown ("<div class=" ++ dq ++ "main-header" ++ dq
                  ++ ">🎬 Frame Analysis System</div>")) ;;
  emit (Markdown ("<div class=" ++ dq ++ "sub-header" ++ dq
                  ++ ">Detect temporal anomalies in videos and image sequences</div>")) ;;
  sidebar ;;
  upload_tab.

(** The whole script, top to bottom; [display_finding] is bound by the
    [def] of app.py:472, after both tabs. *)
Definition script : M unit :=
  page_top ;;
  results_tab ;;
  define "display_finding" ;;
  emit Divider ;;
  emit (Caption "🎬 Frame Analysis System | Powered by Advanced Computer Vision").

End Script.

(** Session state as a new browser session gets it (app.py:76-81) *)
Definition fresh_session : session_state :=
  {| job_id := PNone; results := PNone; analysis_complete := false |}.

(** A run starts with no function of the script defined and nothing shown;
    the session state is the one the previous run left, if any. *)
Definition start (stored : option session_state) (svc : nat -> reply)
    : world :=
  {| session := match stored with Some s => s | None => fresh_session end;
     globals := [];
     service := svc;
     calls := 0;
     trace := [] |}.

Definition run_script {I : Interp} (ui : inputs)
    (stored : option session_state) (svc : nat -> reply)
    : flow unit * world :=
  script ui (start stored svc).

(** ** A printing host for running the script on concrete inputs

    Numbers are printed from their exact value with correct rounding, as
    CPython does; [title] and the quoting of strings inside containers
    cover ASCII text. *)

Module Host.

Fixpoint zeros (n : nat) : string :=
  match n with O => EmptyString | S k => "0" ++ zeros k end.

(** The number a formatted value denotes: an int is converted to a float
    first. *)
Definition number (v : value) : Q :=
  match v with
  | PBool true => 1%Q
  | PInt z => Float.round64 (inject_Z z)
  | PFloat x => x
  | _ => 0%Q
  end.

(** [format(x, '.Nf')] *)
Definition fixed (n : nat) (v : value) : string :=
  let x := number v in
  let unit := 10 ^ Z.of_nat n in
  let m := Float.nearest_even (Z.abs (Qnum x) * unit) (Zpos (Qden x)) in
  let frac := Text.of_Z (m mod unit) in
  (if Qnum x <? 0 then "-" else "")
  ++ Text.of_Z (m / unit)
  ++ match n with
     | O => ""
     | _ => "." ++ zeros (n - String.length frac) ++ frac
     end.

Definition is_upper (c : ascii) : bool :=
  let n := nat_of_ascii c in ((65 <=? n) && (n <=? 90))%nat.
Definition is_lower (c : ascii) : bool :=
  let n := nat_of_ascii c in ((97 <=? n) && (n <=? 122))%nat.

Fixpoint title_from (inside : bool) (s : string) : string :=
  match s with
  | EmptyString => EmptyString
  | String c s' =>
      let c' :=
        if inside then Text.lower_ascii c
        else if is_lower c then ascii_of_nat (nat_of_ascii c - 32) else c in
      String c' (title_from (is_upper c || is_lower c) s')
  end.

(** [s.title()] *)
Definition title (s : string) : string := title_from false s.

(** Largest [e] with [10^e <= n/d], searched downward from an upper
    estimate. *)
Fixpoint log10_down (fuel : nat) (n d e : Z) : Z :=
  match fuel with
  | O => e
  | S k =>
      let fits := if 0 <=? e then d * 10 ^ e <=? n else d <=? n * 10 ^ (- e) in
      if fits then e else log10_down k n d (e - 1)
  end.

Definition log10_floor (n d : Z) : Z :=
  log10_down 8 n d ((Z.log2 n - Z.log2 d + 1) * 30103 / 100000 + 1).

(** The [p]-digit decimals next to [n/d], nearest first, as
    (digits, exponent of the last digit). *)
Definition candidates (n d e10 : Z) (p : Z) : list (Z * Z) :=
  let ulp := e10 - p + 1 in
  let '(n1, d1) := if 0 <=? ulp then (n, d * 10 ^ ulp) else (n * 10 ^ (- ulp), d) in
  let m := Float.nearest_even n1 d1 in
  let lo := n1 / d1 in
  [(m, ulp); (if m =? lo then lo + 1 else lo, ulp)].

Definition denotes (c : Z * Z) : Q :=
  let '(m, ulp) := c in
  if 0 <=? ulp then inject_Z (m * 10 ^ ulp) else Qmake m (Z.to_pos (10 ^ (- ulp))).

Fixpoint shortest (fuel : nat) (x : Q) (n d e10 p : Z) : Z * Z :=
  match fuel with
  | O => (0, 0)
  | S k =>
      match filter (fun c => Qeq_bool (Float.round64 (denotes c)) x)
                   (candidates n d e10 p) with
      | c :: _ => c
      | [] => shortest k x n d e10 (p + 1)
      end
  end.

Fixpoint strip_zeros (fuel : nat) (m ulp : Z) : Z * Z :=
  match fuel with
  | O => (m, ulp)
  | S k => if (m mod 10 =? 0) && negb (m =? 0)
           then strip_zeros k (m / 10) (ulp + 1) else (m, ulp)
  end.

(** [repr(x)] of a positive float *)
Definition repr_pos (x : Q) : string :=
  let n := Qnum x in
  let d := Zpos (Qden x) in
  let '(m0, u0) := shortest 17 x n d (log10_floor n d) 1 in
  let '(m, ulp) := strip_zeros 17 m0 u0 in
  let ds := Text.of_Z m in
  let len := Z.of_nat (String.length ds) in
  let decpt := ulp + len in
  if (-4 <? decpt) && (decpt <=? 16) then
    if decpt <=? 0 then "0." ++ zeros (Z.to_nat (- decpt)) ++ ds
    else if len <=? decpt then ds ++ zeros (Z.to_nat (decpt - len)) ++ ".0"
    else substring 0 (Z.to_nat decpt) ds ++ "."
         ++ substring (Z.to_nat decpt) (Z.to_nat (len - decpt)) ds
  else
    let e := decpt - 1 in
    let ex := Text.of_Z (Z.abs e) in
    substring 0 1 ds
    ++ (if 1 <? len then "." ++ substring 1 (Z.to_nat (len - 1)) ds else "")
    ++ "e" ++ (if e <? 0 then "-" else "+")
    ++ zeros (2 - String.length ex) ++ ex.

Definition repr_float (x : Q) : string :=
  match Qnum x with
  | Z0 => "0.0"
  | Zpos _ => repr_pos x
  | Zneg _ => "-" ++ repr_pos (Qopp x)
  end.

Definition escape (quote : ascii) (c : ascii) : string :=
  let n := nat_of_ascii c in
  if Ascii.eqb c quote || (n =? 92)%nat then String (ascii_of_nat 92) (String c EmptyString)
  else if (n =? 10)%nat then String (ascii_of_nat 92) "n"
  else if (n =? 13)%nat then String (ascii_of_nat 92) "r"
  else if (n =? 9)%nat then String (ascii_of_nat 92) "t"
  else String c EmptyString.

(** [repr(s)] of a string *)
Definition repr_str (s : string) : string :=
  let single := String (ascii_of_nat 39) EmptyString in
  let quote :=
    if Text.contains single s && negb (Text.contains dq s)
    then ascii_of_nat 34 else ascii_of_nat 39 in
  String quote (concat "" (map (escape quote) (list_ascii_of_string s)))
  ++ String quote EmptyString.

(** [repr(v)] *)
Fixpoint repr (v : value) : string :=
  match v with
  | PNone => "None"
  | PBool true => "True"
  | PBool false => "False"
  | PInt z => Text.of_Z z
  | PFloat x => repr_float x
  | PStr s => repr_str s
  | PList l => "[" ++ Text.join ", " (map repr l) ++ "]"
  | PDict d =>
      "{" ++ Text.join ", "
               (map (fun kv => let '(k, x) := kv in repr_str k ++ ": " ++ repr x) d)
      ++ "}"
  end.

End Host.

(** The host the examples run on. *)
#[export] Instance cpython : Interp :=
  {| host_str := Host.repr; host_fixed := Host.fixed; host_title := Host.title |}.

(** * Vocabulary of the properties *)

(** ** Reading the trace *)

(** What a block adds to the trace when it runs from [w]. *)
Definition emitted {A} (m : M A) (w : world) : list event :=
  skipn (List.length (trace w)) (trace (snd (m w))).

(** The world after [n] more calls and [evs] more events. *)
Definition after (n : nat) (evs : list event) (w : world) : world :=
  {| session := session w; globals := globals w; service := service w;
     calls := calls w + n; trace := trace w ++ evs |}.

Definition requests_in (evs : list event) : list request :=
  flat_map (fun e => match e with Request r => [r] | _ => [] end) evs.

Definition progress_shown (evs : list event) : list Z :=
  flat_map (fun e => match e with ProgressBar p => [p] | _ => [] end) evs.

(** The texts of the [st.success], [st.info], [st.warning] or [st.error]
    calls of one level. *)
Definition notices (l : level) (evs : list event) : list string :=
  flat_map (fun e => match e with
                     | Notice l' text =>
                         match l, l' with
                         | Success, Success | Info, Info
                         | Warning, Warning | Error, Error => [text]
                         | _, _ => []
                         end
                     | _ => []
                     end) evs.

(** URL and timeout of every call of a run, in order. *)
Definition sent (run : flow unit * world) : list (string * option Z) :=
  map (fun r => (url r, timeout r)) (requests_in (trace (snd run))).

(** A block that binds no global name. *)
Definition keeps_globals {A} (m : M A) : Prop :=
  forall w, globals (snd (m w)) = globals w.

Definition unbound (fname : string) (w : world) : Prop :=
  existsb (String.eqb fname) (globals w) = false.

(** ** The timeouts of the calls *)

(** A block all of whose events satisfy [P]. *)
Definition adds (P : event -> Prop) {A} (m : M A) : Prop :=
  forall w, exists evs,
    trace (snd (m w)) = (trace w ++ evs)%list /\ Forall P evs.

(** ** The status a poll reports *)

(** The reply is a 200 whose JSON object carries [status]. *)
Definition reports (status : string) (r : reply) : bool :=
  match r with
  | Responds resp =>
      (status_code resp =? 200)
      && match json_body resp with
         | Some (PDict d) =>
             match lookup "status" d with
             | Some (PStr s) => String.eqb s status
             | _ => false
             end
         | _ => false
         end
  | Fails _ => false
  end.

Definition pending (r : reply) : bool :=
  reports "queued" r || reports "processing" r.

(** ** The progress bar over the attempt budget *)

(** The value the bar is set to on a running attempt (app.py:216-217). *)
Definition shown_progress (attempt : nat) : Z :=
  Float.to_int (progress (Z.of_nat attempt)).

(** The estimate the specification gives for a running attempt,
    [min(attempt / maxAttempts * 100, 95)], as an exact rational. *)
Definition documented_estimate (attempt : nat) : Q :=
  let x := (inject_Z (Z.of_nat attempt) / 150 * 100)%Q in
  if Qle_bool x 95 then x else 95%Q.

(** What the bar is given on a running attempt, by the number of the
    attempt: the integer part of the documented estimate, but for attempt
    87, where the doubles give [87 / 150 * 100] just below 58. *)
Definition bar_shown (attempt : nat) : Z :=
  if (attempt =? 87)%nat then 57 else Qfloor (documented_estimate attempt).

(** The values of the bar when [completed] is seen on the [k]-th attempt. *)
Definition bars_until (k : nat) : list Z :=
  (0 :: map shown_progress (seq 0 (k - 1)) ++ [100])%list.

Fixpoint non_decreasing (l : list Z) : bool :=
  match l with
  | x :: (y :: _) as rest => (x <=? y) && non_decreasing rest
  | _ => true
  end.

(** The values the bar can take from attempt [a] on: each running attempt
    adds its estimate or nothing, and 100 can only come last. *)
Inductive bars_from : nat -> list Z -> Prop :=
| bars_none (a : nat) : bars_from a []
| bars_completed (a : nat) : bars_from a [100]
| bars_skip (a : nat) (bars : list Z) :
    bars_from (S a) bars -> bars_from a bars
| bars_step (a : nat) (bars : list Z) :
    (a < 150)%nat -> bars_from (S a) bars ->
    bars_from a (shown_progress a :: bars).

(** How one attempt can end, whatever the service replies: it goes on,
    having shown its estimate or (image loop, status code other than 200)
    nothing; or it leaves the loop without touching the bar; or it leaves
    the loop with the bar at 100, after a reply that reports [completed]. *)
Inductive attempt_outcome (a : Z) (w : world) (out : flow control * world)
    : Prop :=
| goes_on (evs : list event) :
    fst out = Done Next ->
    snd out = after 1 evs w ->
    List.length (requests_in evs) = 1%nat ->
    progress_shown evs = [Float.to_int (progress a)] \/ progress_shown evs = [] ->
    attempt_outcome a w out
| leaves (evs : list event) :
    fst out <> Done Next ->
    trace (snd out) = (trace w ++ evs)%list ->
    List.length (requests_in evs) = 1%nat ->
    progress_shown evs = [] ->
    attempt_outcome a w out
| leaves_completed (evs : list event) :
    fst out <> Done Next ->
    trace (snd out) = (trace w ++ evs)%list ->
    List.length (requests_in evs) = 2%nat ->
    progress_shown evs = [100] ->
    reports "completed" (service w (calls w)) = true ->
    attempt_outcome a w out.

(** ** The shape of a result payload

    What [GET /result/{id}] is documented to return, any field being
    allowed to be absent: an object whose [media_info] is an object and
    whose [findings] is a list of objects; in a finding, [type] is a
    string, [location] an object whose [start] and [end] are numbers and
    whose [frames] is a list, and [metrics] an object.  The values of
    [media_info] and of [metrics] are what a metric can show: null, a
    boolean, a number or a string.  An integer [start] or [end] is one a
    float can hold, as its display with two decimals needs.  [severity]
    and [explanation] may be any value. *)

Definition absent_or (shape : value -> bool) (key : string)
    (d : list (string * value)) : bool :=
  match lookup key d with
  | Some v => shape v
  | None => true
  end.

Definition is_number (v : value) : bool :=
  match v with
  | PInt z => Float.fits z
  | PFloat _ => true
  | _ => false
  end.

(** A value [st.metric] takes. *)
Definition is_scalar (v : value) : bool :=
  match v with
  | PList _ | PDict _ => false
  | _ => true
  end.

(** An object all of whose values [st.metric] takes. *)
Definition metrics_shape (v : value) : bool :=
  match v with
  | PDict items => forallb (fun item => is_scalar (snd item)) items
  | _ => false
  end.

Definition is_str (v : value) : bool :=
  match v with PStr _ => true | _ => false end.

Definition is_list (v : value) : bool :=
  match v with PList _ => true | _ => false end.

Definition is_dict (v : value) : bool :=
  match v with PDict _ => true | _ => false end.

Definition location_shape (v : value) : bool :=
  match v with
  | PDict l =>
      absent_or is_number "start" l && absent_or is_number "end" l
      && absent_or is_list "frames" l
  | _ => false
  end.

Definition finding_shape (v : value) : bool :=
  match v with
  | PDict f =>
      absent_or is_str "type" f && absent_or location_shape "location" f
      && absent_or metrics_shape "metrics" f
  | _ => false
  end.

Definition findings_shape (v : value) : bool :=
  match v with
  | PList fs => forallb finding_shape fs
  | _ => false
  end.

Definition result_shape (v : value) : bool :=
  match v with
  | PDict d =>
      absent_or metrics_shape "media_info" d
      && absent_or findings_shape "findings" d
  | _ => false
  end.

(** [d.get(key, default)] on a dict. *)
Definition or_default (key : string) (default : value)
    (d : list (string * value)) : value :=
  match lookup key d with
  | Some v => v
  | None => default
  end.

(** The labels of the severity filter and the keyword of each. *)
Definition bucket_keywords : list (string * string) :=
  [("High", "high"); ("Medium", "medium"); ("Low", "low")].

Section Vocabulary.
Context {I : Interp}.
Variable ui : inputs.

Definition status_request (t : option Z) (w : world) : request :=
  {| method := GET;
     url := API_BASE_URL ui ++ "/api/job/" ++ py_str (job_id (session w));
     timeout := t; files := []; data := [] |}.

Definition result_request (t : option Z) (w : world) : request :=
  {| method := GET;
     url := API_BASE_URL ui ++ "/api/result/" ++ py_str (job_id (session w));
     timeout := t; files := []; data := [] |}.

(** What one attempt shows while the job is still running. *)
Definition processing_events (t : option Z) (w : world) (attempt : Z)
    : list event :=
  [Request (status_request t w);
   ProgressBar (Float.to_int (progress attempt));
   StatusText Info
     ("⏳ Processing... (" ++ Text.of_Z (attempt * 2) ++ "s elapsed)");
   Slept 2].

(** What the attempt that sees [completed] shows and sends. *)
Definition completed_events (t : option Z) (w : world) : list event :=
  [Request (status_request t w);
   ProgressBar 100;
   StatusText Success "✅ Analysis complete!";
   Request (result_request t w)].

(** The keyword occurs in the lowered string form of the finding's
    [severity], the empty string standing in for a missing one. *)
Definition in_bucket (keyword : string) (finding : list (string * value))
    : bool :=
  Text.contains keyword
    (Text.lower (py_str (match lookup "severity" finding with
                         | Some sev => sev
                         | None => PStr ""
                         end))).

(** A group is shown when its label is selected and it is not empty. *)
Definition shows (label : string) (group : list value) : bool :=
  existsb (String.eqb label) (severity_filter ui)
  && match group with [] => false | _ => true end.

(** The metric shown for one item of [media_info]. *)
Definition media_metric (entry : Z * (string * value)) : event :=
  let '(idx, (key, v)) := entry in
  Metric (idx mod 4) (host_title (Text.replace "_" " " key)) v.

(** The metric shown for one item of a finding's [metrics]. *)
Definition finding_metric (entry : Z * (string * value)) : event :=
  let '(idx, (key, v)) := entry in
  Metric (idx mod 3) (host_title (Text.replace "_" " " key))
    (match v with
     | PFloat _ => PStr (host_fixed 4 v)
     | _ => v
     end).

End Vocabulary.

(** ** Sample runs *)

Definition sample_inputs : inputs :=
  {| API_BASE_URL := "https://your-api.onrender.com";
     media_type := Video;
     analysis_mode := "standard";
     sampling_mode := "sampled";
     sequence_type := "ordered";
     uploaded_file := None;
     uploaded_files := [];
     analyze_video_pressed := false;
     analyze_images_pressed := false;
     severity_filter := ["High"; "Medium"; "Low"];
     download_pdf_pressed := false |}.

Definition clip : file :=
  {| name := "clip.mp4"; size := 1048576; getvalue := "video-bytes";
     is_image := false |}.

(** A PNG file of one grey pixel. *)
Definition one_pixel_png : string :=
  string_of_list_ascii
    (map ascii_of_nat
       [137; 80; 78; 71; 13; 10; 26; 10; 0; 0; 0; 13; 73; 72; 68; 82;
        0; 0; 0; 1; 0; 0; 0; 1; 8; 0; 0; 0; 0; 58; 126; 155; 85;
        0; 0; 0; 10; 73; 68; 65; 84; 120; 156; 99; 96; 0; 0; 0; 2; 0; 1;
        72; 175; 164; 113; 0; 0; 0; 0; 73; 69; 78; 68; 174; 66; 96; 130]%nat).

Definition frame (n : string) : file :=
  {| name := n; size := 67; getvalue := one_pixel_png; is_image := true |}.

(** An upload with an image's extension whose bytes are no image. *)
Definition not_an_image (n : string) : file :=
  {| name := n; size := 11; getvalue := "image-bytes"; is_image := false |}.

Definition two_frames : list file := [frame "a.png"; frame "b.png"].

(** A video is uploaded and [Analyze Video] is pressed. *)
Definition video_inputs : inputs :=
  {| API_BASE_URL := "https://your-api.onrender.com";
     media_type := Video;
     analysis_mode := "standard";
     sampling_mode := "sampled";
     sequence_type := "ordered";
     uploaded_file := Some clip;
     uploaded_files := [];
     analyze_video_pressed := true;
     analyze_images_pressed := false;
     severity_filter := ["High"; "Medium"; "Low"];
     download_pdf_pressed := false |}.

(** The images [imgs] are uploaded; [Analyze Images] is pressed if the
    button is there. *)
Definition image_inputs (imgs : list file) : inputs :=
  {| API_BASE_URL := "https://your-api.onrender.com";
     media_type := ImageSequence;
     analysis_mode := "standard";
     sampling_mode := "sampled";
     sequence_type := "ordered";
     uploaded_file := None;
     uploaded_files := imgs;
     analyze_video_pressed := false;
     analyze_images_pressed := true;
     severity_filter := ["High"; "Medium"; "Low"];
     download_pdf_pressed := false |}.

(** A 200 whose body is the JSON object [fields]. *)
Definition json_reply (fields : list (string * value)) : reply :=
  Responds {| status_code := 200; json_body := Some (PDict fields);
              json_error := "";
              content := "" |}.

(** A reply with another status code and no JSON body. *)
Definition http_error (code : Z) : reply :=
  Responds {| status_code := code; json_body := None;
              json_error := "Expecting value: line 1 column 1 (char 0)";
              content := "" |}.

Definition healthy : reply := json_reply [("status", PStr "ok")].

Definition accepted : reply := json_reply [("job_id", PStr "abc123")].

Definition corrupt_file : reply :=
  json_reply [("status", PStr "failed"); ("error", PStr "corrupt file")].

(** The service accepts the upload, then answers every status poll with a
    500. *)
Definition status_unavailable (n : nat) : reply :=
  match n with
  | 0%nat => healthy
  | 1%nat => accepted
  | _ => http_error 500
  end.

(** The service accepts the upload and reports [completed] on the first
    poll; the result fetch then gets [result]. *)
Definition completes_then (result : reply) (n : nat) : reply :=
  match n with
  | 0%nat => healthy
  | 1%nat => accepted
  | 2%nat => json_reply [("status", PStr "completed")]
  | _ => result
  end.

(** A session that already holds the job [abc123]. *)
Definition polling_session : session_state :=
  {| job_id := PStr "abc123"; results := PNone; analysis_complete := false |}.

(** A stored result with one high-severity finding. *)
Definition one_high_finding : session_state :=
  {| job_id := PStr "abc123";
     results := PDict [("findings",
                        PList [PDict [("type", PStr "FindingType.FRAME_DROP");
                                      ("severity", PStr "high")]])];
     analysis_complete := true |}.

(** A finding whose [location] is present and null, and a stored result
    that holds it. *)
Definition null_location : value :=
  PDict [("severity", PStr "high"); ("location", PNone)].

Definition null_location_result : session_state :=
  {| job_id := PStr "abc123";
     results := PDict [("findings", PList [null_location])];
     analysis_complete := true |}.

(** ** Vocabulary of the further properties *)

(** The world with the job identifier replaced. *)
Definition with_job (j : value) (w : world) : world :=
  with_session {| job_id := j; results := results (session w);
                  analysis_complete := analysis_complete (session w) |} w.

(** The world with a fetched result stored. *)
Definition with_result (v : value) (w : world) : world :=
  with_session {| job_id := job_id (session w); results := v;
                  analysis_complete := true |} w.

(** The message after an accepted upload (app.py:178, 274). *)
Definition started_notice (job : string) : event :=
  Notice Success
    ("✅ Analysis started! Job ID: " ++ Text.take_chars 8 job ++ "...").




(** A block that leaves the stored result and the completion flag alone
    unless it restarts the run. *)
Definition keeps_result {A} (m : M A) : Prop :=
  forall w,
    fst (m w) = Rerun
    \/ (results (session (snd (m w))) = results (session w)
        /\ analysis_complete (session (snd (m w)))
           = analysis_complete (session w)).

(** The markdown blocks of the page itself: the two headings and the
    warning banner (app.py:84-85, 323-329). *)
Definition page_markdown : list string :=
  ["<div class=" ++ dq ++ "main-header" ++ dq
   ++ ">🎬 Frame Analysis System</div>";
   "<div class=" ++ dq ++ "sub-header" ++ dq
   ++ ">Detect temporal anomalies in videos and image sequences</div>";
   warning_banner].

(** An event other than a finding card or its metrics expander. *)
Definition not_a_finding (e : event) : Prop :=
  match e with
  | Markdown text => In text page_markdown
  | Expander _ => False
  | _ => True
  end.

(** A block that, run while [display_finding] is unbound, shows nothing
    of a finding and leaves the name unbound. *)
Definition shows_no_finding {A} (m : M A) : Prop :=
  forall w,
    unbound "display_finding" w ->
    exists evs,
      trace (snd (m w)) = (trace w ++ evs)%list
      /\ Forall not_a_finding evs
      /\ unbound "display_finding" (snd (m w)).

(** The sum of [f] over the events. *)
Definition total (f : event -> nat) (evs : list event) : nat :=
  list_sum (map f evs).

(** A block whose events weigh at most [c] under [f]. *)
Definition weighs (f : event -> nat) (c : nat) {A} (m : M A) : Prop :=
  forall w, exists evs,
    trace (snd (m w)) = (trace w ++ evs)%list /\ (total f evs <= c)%nat.

(** The seconds one event sleeps. *)
Definition seconds_slept (e : event) : nat :=
  match e with Slept s => Z.to_nat s | _ => 0%nat end.

(** 1 for a POST request, the submission of an upload. *)
Definition is_submission (e : event) : nat :=
  match e with
  | Request r => match method r with POST => 1%nat | GET => 0%nat end
  | _ => 0%nat
  end.

(** The JSON download of the export section (app.py:434-441). *)
Definition json_download (results : value) (job : string) : event :=
  DownloadButton "📄 Download JSON" (JsonDump results)
    ("frame-analysis-" ++ Text.take_chars 8 job ++ ".json") "application/json".

(** The PDF download offered after a successful export (app.py:453-459). *)
Definition pdf_download (resp : response) (job : string) : event :=
  DownloadButton "💾 Save PDF Report" (Bytes (content resp))
    ("frame-analysis-report-" ++ Text.take_chars 8 job ++ ".pdf")
    "application/pdf".

(** An event that offers no download. *)
Definition no_download (e : event) : Prop :=
  match e with DownloadButton _ _ _ _ => False | _ => True end.

(** 1 for a thumbnail of an uploaded image (app.py:246). *)
Definition is_thumbnail (e : event) : nat :=
  match e with ShowImage _ _ => 1%nat | _ => 0%nat end.

Section Calls.
Context {I : Interp}.
Variable ui : inputs.

(** The upload of a video (app.py:162-173). *)
Definition video_submission (f : file) : request :=
  {| method := POST; url := API_BASE_URL ui ++ "/api/analyze/video";
     timeout := Some 60;
     files := [("video", getvalue f)];
     data := [("mode", analysis_mode ui);
              ("sampling_mode", sampling_mode ui)] |}.

(** The upload of an image sequence (app.py:258-269). *)
Definition image_submission : request :=
  {| method := POST; url := API_BASE_URL ui ++ "/api/analyze/images";
     timeout := Some 60;
     files := map (fun img => ("images", getvalue img)) (uploaded_files ui);
     data := [("sequence_type", sequence_type ui);
              ("mode", analysis_mode ui)] |}.

(** The health check of the sidebar (app.py:129). *)
Definition health_request : request :=
  {| method := GET; url := API_BASE_URL ui ++ "/api/health";
     timeout := Some 5; files := []; data := [] |}.

(** The PDF export (app.py:447-450). *)
Definition export_request (w : world) : request :=
  {| method := GET;
     url := API_BASE_URL ui ++ "/api/export/pdf/" ++ py_str (job_id (session w));
     timeout := Some 30; files := []; data := [] |}.

End Calls.

(** The timeout the polls of a run carry: the video loop passes 5 seconds
    (app.py:188, 201), the image loop none (app.py:282-284, 293-295). *)
Definition poll_timeout (ui : inputs) : option Z :=
  match media_type ui with
  | Video => Some 5
  | ImageSequence => None
  end.

(** The calls the script makes, each with the timeout it carries. *)
Inductive call_of {I : Interp} (ui : inputs) : request -> Prop :=
| health_call : call_of ui (health_request ui)
| video_call (f : file) :
    media_type ui = Video -> uploaded_file ui = Some f ->
    call_of ui (video_submission ui f)
| images_call :
    media_type ui = ImageSequence -> call_of ui (image_submission ui)
| status_call (job : string) :
    call_of ui
      {| method := GET; url := API_BASE_URL ui ++ "/api/job/" ++ job;
         timeout := poll_timeout ui; files := []; data := [] |}
| result_call (job : string) :
    call_of ui
      {| method := GET; url := API_BASE_URL ui ++ "/api/result/" ++ job;
         timeout := poll_timeout ui; files := []; data := [] |}
| pdf_call (job : string) :
    call_of ui
      {| method := GET; url := API_BASE_URL ui ++ "/api/export/pdf/" ++ job;
         timeout := Some 30; files := []; data := [] |}.

(** An event that is no call, or one of the calls above. *)
Definition known_call {I : Interp} (ui : inputs) (e : event) : Prop :=
  match e with
  | Request r => call_of ui r
  | _ => True
  end.

(** * Properties *)

(** ** Worlds and traces *)

Lemma emitted_trace {A} (m : M A) (w : world) (evs : list event) :
  trace (snd (m w)) = (trace w ++ evs)%list -> emitted m w = evs.
Proof.
  unfold emitted. intros ->.
  rewrite skipn_app, skipn_all, Nat.sub_diag. reflexivity.
Qed.

Lemma after_after (n1 n2 : nat) (e1 e2 : list event) (w : world) :
  after n2 e2 (after n1 e1 w) = after (n1 + n2) (e1 ++ e2)%list w.
Proof.
  unfold after; cbn. f_equal; [lia | symmetry; apply app_assoc].
Qed.

Lemma shown_after (evs : list event) (w : world) : shown evs w = after 0 evs w.
Proof. unfold shown, after. f_equal. symmetry. apply Nat.add_0_r. Qed.

Lemma called_after (w : world) : called w = after 1 [] w.
Proof.
  unfold called, after. f_equal; [symmetry; apply Nat.add_1_r | symmetry; apply app_nil_r].
Qed.

(** Runs the monad's plumbing and leaves everything else folded. *)
Ltac step :=
  cbv beta iota delta [bind ret emit sleep lift raise get_session].

Ltac settle :=
  rewrite ?shown_after, ?called_after, ?after_after;
  cbn [Nat.add app session globals service calls trace after].

(** ** The status a poll reports *)

Section Polling.
Context {I : Interp}.
Variable ui : inputs.

Lemma pending_inv (r : reply) :
  pending r = true ->
  exists resp d s,
    r = Responds resp /\ status_code resp = 200 /\
    json_body resp = Some (PDict d) /\ lookup "status" d = Some (PStr s) /\
    String.eqb s "completed" = false /\ String.eqb s "failed" = false.
Proof.
  unfold pending, reports. destruct r as [resp|]; [|discriminate].
  destruct (Z.eqb_spec (status_code resp) 200) as [Hc|]; [|discriminate].
  destruct (json_body resp) as [[|b|z|x|s0|l|d]|] eqn:Hj; try discriminate.
  destruct (lookup "status" d) as [[|b|z|x|s|l|d']|] eqn:Hs; try discriminate.
  cbn [andb]. intros H. exists resp, d, s.
  assert (Hq : s = "queued" \/ s = "processing").
  { apply orb_true_iff in H. destruct H as [H|H]; apply String.eqb_eq in H; auto. }
  repeat split; trivial; destruct Hq as [-> | ->]; reflexivity.
Qed.

Lemma on_status_pending (t : option Z) (a : Z) (resp : response) (w : world)
    (d : list (string * value)) (s : string) :
  json_body resp = Some (PDict d) -> lookup "status" d = Some (PStr s) ->
  String.eqb s "completed" = false -> String.eqb s "failed" = false ->
  on_status ui t a resp w
  = (Done Next,
     after 0 [ProgressBar (Float.to_int (progress a));
              StatusText Info
                ("⏳ Processing... (" ++ Text.of_Z (a * 2) ++ "s elapsed)");
              Slept 2] w).
Proof.
  intros Hj Hs Hc Hf.
  unfold on_status, json, py_index. rewrite Hj. step. rewrite Hs. step.
  unfold py_eq_str. rewrite Hc, Hf.
  unfold still_processing. step. settle. reflexivity.
Qed.

Lemma video_attempt_pending (a : Z) (w : world) :
  pending (service w (calls w)) = true ->
  video_attempt ui a w = (Done Next, after 1 (processing_events ui (Some 5) w a) w).
Proof.
  intros H. destruct (pending_inv _ H) as (resp & d & s & Hr & Hc & Hj & Hs & Hn1 & Hn2).
  unfold video_attempt, job_endpoint, requests_get, send. step.
  rewrite Hr, Hc. cbn [Z.eqb Pos.eqb].
  rewrite (on_status_pending _ _ _ _ d s) by assumption.
  settle. reflexivity.
Qed.

Lemma image_attempt_pending (a : Z) (w : world) :
  pending (service w (calls w)) = true ->
  image_attempt ui a w = (Done Next, after 1 (processing_events ui None w a) w).
Proof.
  intros H. destruct (pending_inv _ H) as (resp & d & s & Hr & Hc & Hj & Hs & Hn1 & Hn2).
  unfold image_attempt, job_endpoint, requests_get, send. step.
  rewrite Hr, Hc. cbn [Z.eqb Pos.eqb].
  rewrite (on_status_pending _ _ _ _ d s) by assumption.
  settle. reflexivity.
Qed.

Lemma after_nothing (w : world) : after 0 [] w = w.
Proof.
  destruct w; unfold after; cbn. f_equal; [apply Nat.add_0_r | apply app_nil_r].
Qed.

(** While the service reports a running job the loop goes on: [n] such
    replies take it through [n] attempts. *)
Lemma loop_pending (body : Z -> M control) (t : option Z)
    (Hbody : forall a w, pending (service w (calls w)) = true ->
               body a w = (Done Next, after 1 (processing_events ui t w a) w)) :
  forall (n a : nat) (rest : list Z) (w : world),
    (forall i, (i < n)%nat -> pending (service w (calls w + i)) = true) ->
    for_each (map Z.of_nat (seq a n) ++ rest)%list body w
    = for_each rest body
        (after n (flat_map (fun i => processing_events ui t w (Z.of_nat i))
                           (seq a n)) w).
Proof.
  induction n as [|n IH]; intros a rest w H.
  - cbn [seq map app flat_map]. now rewrite after_nothing.
  - cbn [seq map app flat_map for_each]. unfold bind at 1.
    rewrite Hbody by (rewrite <- (Nat.add_0_r (calls w)); apply H; lia).
    rewrite IH.
    + rewrite after_after. reflexivity.
    + intros i Hi. cbn [service calls after].
      replace (calls w + 1 + i)%nat with (calls w + S i)%nat by lia.
      apply H. lia.
Qed.

(** An attempt that does not say [Next] ends the loop there. *)
Lemma loop_stops {A} (body : A -> M control) (x : A) (xs : list A) (w : world) :
  fst (body x w) <> Done Next ->
  snd (for_each (x :: xs) body w) = snd (body x w)
  /\ (fst (for_each (x :: xs) body w) = Done tt
      \/ fst (for_each (x :: xs) body w) = Rerun
      \/ exists e, fst (for_each (x :: xs) body w) = Raised e).
Proof.
  cbn [for_each]. unfold bind at 1 2 3 4.
  destruct (body x w) as [[[|]|e|] w']; cbn [fst snd]; intros H.
  - now contradiction H.
  - split; [reflexivity | left; reflexivity].
  - split; [reflexivity | right; right; now exists e].
  - split; [reflexivity | right; left; reflexivity].
Qed.

Lemma on_status_failed (t : option Z) (a : Z) (resp : response) (w : world)
    (d : list (string * value)) :
  json_body resp = Some (PDict d) ->
  lookup "status" d = Some (PStr "failed") ->
  on_status ui t a resp w
  = (Done Break,
     after 0 [Notice Error
                ("❌ Analysis failed: "
                 ++ py_str (match lookup "error" d with
                            | Some msg => msg
                            | None => PStr "Unknown error"
                            end))] w).
Proof.
  intros Hj Hs.
  unfold on_status, json, py_index. rewrite Hj. step. rewrite Hs. step.
  unfold py_eq_str. cbn [String.eqb Ascii.eqb Bool.eqb].
  unfold analysis_failed, py_get. step. settle. reflexivity.
Qed.

(** The attempt that sees [completed]: the bar goes to 100, the result is
    requested, and the loop is left whatever the result fetch brings. *)
Lemma on_status_completed (t : option Z) (a : Z) (resp : response) (w : world)
    (d : list (string * value)) :
  json_body resp = Some (PDict d) ->
  lookup "status" d = Some (PStr "completed") ->
  let out := on_status ui t a resp w in
  trace (snd out)
  = (trace w ++ [ProgressBar 100; StatusText Success "✅ Analysis complete!";
                 Request (result_request ui t w)])%list
  /\ calls (snd out) = S (calls w)
  /\ service (snd out) = service w
  /\ globals (snd out) = globals w
  /\ job_id (session (snd out)) = job_id (session w)
  /\ fst out <> Done Next.
Proof.
  intros Hj Hs.
  unfold on_status, json, py_index. rewrite Hj. step. rewrite Hs. step.
  unfold py_eq_str. cbn [String.eqb Ascii.eqb Bool.eqb].
  unfold analysis_completed, job_endpoint, requests_get, send. step.
  cbn [session shown service calls].
  destruct (service w (calls w)) as [r|msg].
  - destruct (status_code r =? 200).
    + unfold json. destruct (json_body r) as [v|].
      * unfold set_results, set_analysis_complete, set_session, rerun. step.
        cbn. rewrite <- !app_assoc. repeat split; discriminate.
      * step. cbn. rewrite <- !app_assoc. repeat split; discriminate.
    + step. cbn. rewrite <- !app_assoc. repeat split; discriminate.
  - cbn. rewrite <- !app_assoc. repeat split; discriminate.
Qed.

Lemma reports_inv (status : string) (r : reply) :
  reports status r = true ->
  exists resp d,
    r = Responds resp /\ status_code resp = 200 /\
    json_body resp = Some (PDict d) /\ lookup "status" d = Some (PStr status).
Proof.
  unfold reports. destruct r as [resp|]; [|discriminate].
  destruct (Z.eqb_spec (status_code resp) 200) as [Hc|]; [|discriminate].
  destruct (json_body resp) as [[|b|z|x|s0|l|d]|] eqn:Hj; try discriminate.
  destruct (lookup "status" d) as [[|b|z|x|s|l|d']|] eqn:Hs; try discriminate.
  cbn [andb]. intros H%String.eqb_eq. subst s. now exists resp, d.
Qed.

Lemma attempt_completed (t : option Z) (a : Z) (w : world) :
  reports "completed" (service w (calls w)) = true ->
  forall body,
    (body = video_attempt ui /\ t = Some 5) \/ (body = image_attempt ui /\ t = None) ->
    trace (snd (body a w)) = (trace w ++ completed_events ui t w)%list
    /\ calls (snd (body a w)) = (calls w + 2)%nat
    /\ fst (body a w) <> Done Next.
Proof.
  intros H body Hb.
  destruct (reports_inv _ _ H) as (resp & d & Hr & Hc & Hj & Hs).
  destruct Hb as [[-> ->] | [-> ->]].
  - unfold video_attempt, job_endpoint, requests_get, send. step.
    rewrite Hr, Hc. cbn [Z.eqb Pos.eqb].
    destruct (on_status_completed (Some 5) a resp
                (called (shown [Request (status_request ui (Some 5) w)] w)) d Hj Hs)
      as (Ht & Hcalls & _ & _ & _ & Hflow).
    cbv zeta in Ht, Hcalls, Hflow.
    unfold status_request in Ht, Hcalls, Hflow.
    rewrite Ht, Hcalls. cbn [trace calls called shown]. split; [|split].
    + rewrite <- app_assoc. reflexivity.
    + lia.
    + exact Hflow.
  - unfold image_attempt, job_endpoint, requests_get, send. step.
    rewrite Hr, Hc. cbn [Z.eqb Pos.eqb].
    destruct (on_status_completed None a resp
                (called (shown [Request (status_request ui None w)] w)) d Hj Hs)
      as (Ht & Hcalls & _ & _ & _ & Hflow).
    cbv zeta in Ht, Hcalls, Hflow.
    unfold status_request in Ht, Hcalls, Hflow.
    rewrite Ht, Hcalls. cbn [trace calls called shown]. split; [|split].
    + rewrite <- app_assoc. reflexivity.
    + lia.
    + exact Hflow.
Qed.

Lemma attempt_failed (t : option Z) (a : Z) (w : world) (resp : response)
    (d : list (string * value)) :
  service w (calls w) = Responds resp -> status_code resp = 200 ->
  json_body resp = Some (PDict d) -> lookup "status" d = Some (PStr "failed") ->
  forall body,
    (body = video_attempt ui /\ t = Some 5) \/ (body = image_attempt ui /\ t = None) ->
    body a w
    = (Done Break,
       after 1 [Request (status_request ui t w);
                Notice Error
                  ("❌ Analysis failed: "
                   ++ py_str (match lookup "error" d with
                              | Some msg => msg
                              | None => PStr "Unknown error"
                              end))] w).
Proof.
  intros Hr Hc Hj Hs body [[-> ->] | [-> ->]].
  - unfold video_attempt, job_endpoint, requests_get, send. step.
    rewrite Hr, Hc. cbn [Z.eqb Pos.eqb].
    rewrite (on_status_failed _ _ _ _ d) by assumption. settle. reflexivity.
  - unfold image_attempt, job_endpoint, requests_get, send. step.
    rewrite Hr, Hc. cbn [Z.eqb Pos.eqb].
    rewrite (on_status_failed _ _ _ _ d) by assumption. settle. reflexivity.
Qed.

Lemma range_split (k : nat) :
  (k < 150)%nat ->
  range max_attempts
  = (map Z.of_nat (seq 0 k)
     ++ Z.of_nat k :: map Z.of_nat (seq (S k) (150 - S k)))%list.
Proof.
  intros Hk. unfold range, max_attempts.
  change (Z.to_nat 150) with 150%nat.
  replace 150%nat with (k + S (150 - S k))%nat at 1 by lia.
  rewrite seq_app, map_app. reflexivity.
Qed.

End Polling.

(** ** The progress estimate over the attempt budget *)

Lemma non_decreasing_sorted (l : list Z) :
  non_decreasing l = true -> Sorted Z.le l.
Proof.
  induction l as [|x [|y l] IH]; intros H.
  - constructor.
  - repeat constructor.
  - cbn in H. apply andb_true_iff in H as [Hxy Hrest].
    constructor; [apply IH; exact Hrest | constructor; lia].
Qed.

Lemma bars_table :
  forallb (fun k => non_decreasing (bars_until k)
                    && forallb (fun p => p <=? 95)
                               (0 :: map shown_progress (seq 0 (k - 1))))
          (seq 1 150) = true.
Proof. vm_compute. reflexivity. Qed.

Lemma budget_table :
  forallb (fun p => negb (p =? 100)) (map shown_progress (seq 0 150)) = true.
Proof. vm_compute. reflexivity. Qed.

Section Loops.
Context {I : Interp}.
Variable ui : inputs.

Lemma processing_requests (t : option Z) (w : world) (n a : nat) :
  List.length (requests_in
                 (flat_map (fun i => processing_events ui t w (Z.of_nat i))
                           (seq a n))) = n.
Proof.
  revert a. induction n as [|n IH]; intros a; [reflexivity|].
  cbn [seq flat_map]. unfold requests_in in *. rewrite flat_map_app, length_app, IH.
  reflexivity.
Qed.

Lemma processing_bars (t : option Z) (w : world) (n a : nat) :
  progress_shown
    (flat_map (fun i => processing_events ui t w (Z.of_nat i)) (seq a n))
  = map shown_progress (seq a n).
Proof.
  revert a. induction n as [|n IH]; intros a; [reflexivity|].
  cbn [seq flat_map map]. unfold progress_shown in *. rewrite flat_map_app, IH.
  reflexivity.
Qed.

(** The loop over a service that keeps reporting a running job. *)
Lemma poll_exhausted (body : Z -> M control) (t : option Z) (w : world) :
  (body = video_attempt ui /\ t = Some 5) \/ (body = image_attempt ui /\ t = None) ->
  (forall i, (i < 150)%nat -> pending (service w (calls w + i)) = true) ->
  poll body w
  = (Done tt,
     after 150
       ([ProgressBar 0; Placeholder]
        ++ flat_map (fun i => processing_events ui t w (Z.of_nat i)) (seq 0 150))
       w).
Proof.
  intros Hb H. unfold poll. step.
  replace (range max_attempts) with (map Z.of_nat (seq 0 150) ++ [])%list
    by (rewrite app_nil_r; reflexivity).
  rewrite (loop_pending ui body t).
  - cbn [for_each]. step. settle. reflexivity.
  - intros a w0 Hp. destruct Hb as [[-> ->] | [-> ->]].
    + now apply video_attempt_pending.
    + now apply image_attempt_pending.
  - exact H.
Qed.

(** The loop when the [k]-th attempt is the first to see [completed]. *)
Lemma poll_completed (body : Z -> M control) (t : option Z) (w : world)
    (k : nat) :
  (body = video_attempt ui /\ t = Some 5) \/ (body = image_attempt ui /\ t = None) ->
  (1 <= k <= 150)%nat ->
  (forall i, (i < k - 1)%nat -> pending (service w (calls w + i)) = true) ->
  reports "completed" (service w (calls w + (k - 1))) = true ->
  emitted (poll body) w
  = ([ProgressBar 0; Placeholder]
     ++ flat_map (fun i => processing_events ui t w (Z.of_nat i)) (seq 0 (k - 1))
     ++ completed_events ui t w)%list.
Proof.
  intros Hb Hk Hp Hc. apply emitted_trace. unfold poll. step.
  rewrite (range_split (k - 1)) by lia.
  rewrite (loop_pending ui body t).
  - settle.
    match goal with
    | |- context [for_each (?x :: ?xs) body ?w1] =>
        destruct (loop_stops body x xs w1) as [-> _];
        [ apply (attempt_completed ui t); [exact Hc | exact Hb]
        | destruct (attempt_completed ui t x w1 Hc body Hb) as (-> & _ & _) ]
    end.
    cbn [trace after]. rewrite <- !app_assoc. reflexivity.
  - intros a w0 Hp0. destruct Hb as [[-> ->] | [-> ->]].
    + now apply video_attempt_pending.
    + now apply image_attempt_pending.
  - exact Hp.
Qed.

End Loops.

(** ** Polling: the attempt budget *)

(** C5.  When every one of the 150 status polls reports [queued] or
    [processing], the video loop and the image loop both run through: each
    makes exactly 150 status requests and then ends, and neither ever sets
    the progress bar to 100. *)
Theorem poll_budget_exhausted {I : Interp} (ui : inputs) (w : world) :
  (forall i, (i < 150)%nat -> pending (service w (calls w + i)) = true) ->
  (fst (video_poll ui w) = Done tt
   /\ List.length (requests_in (emitted (video_poll ui) w)) = 150%nat
   /\ ~ In 100 (progress_shown (emitted (video_poll ui) w)))
  /\ (fst (image_poll ui w) = Done tt
      /\ List.length (requests_in (emitted (image_poll ui) w)) = 150%nat
      /\ ~ In 100 (progress_shown (emitted (image_poll ui) w))).
Proof.
  intros H.
  assert (G : forall body t,
             (body = video_attempt ui /\ t = Some 5)
             \/ (body = image_attempt ui /\ t = None) ->
             fst (poll body w) = Done tt
             /\ List.length (requests_in (emitted (poll body) w)) = 150%nat
             /\ ~ In 100 (progress_shown (emitted (poll body) w))).
  { intros body t Hb.
    pose proof (poll_exhausted ui body t w Hb H) as E.
    rewrite (emitted_trace (poll body) w _ (f_equal (fun r => trace (snd r)) E)).
    rewrite E. split; [reflexivity|]. split.
    - cbn [app requests_in flat_map].
      exact (processing_requests ui t w 150 0).
    - change (progress_shown ([ProgressBar 0; Placeholder] ++ ?l))
        with (0 :: progress_shown l).
      rewrite processing_bars. intros [Hin|Hin]; [discriminate|].
      pose proof budget_table as T. rewrite forallb_forall in T.
      specialize (T _ Hin). discriminate. }
  split; [apply (G _ (Some 5)) | apply (G _ None)]; auto.
Qed.

Lemma poll_budget_exhausted_witness :
  let w := start (Some polling_session)
                 (fun _ => json_reply [("status", PStr "processing")]) in
  (fst (video_poll sample_inputs w) = Done tt
   /\ List.length (requests_in (emitted (video_poll sample_inputs) w)) = 150%nat
   /\ ~ In 100 (progress_shown (emitted (video_poll sample_inputs) w)))
  /\ (fst (image_poll sample_inputs w) = Done tt
      /\ List.length (requests_in (emitted (image_poll sample_inputs) w)) = 150%nat
      /\ ~ In 100 (progress_shown (emitted (image_poll sample_inputs) w))).
Proof.
  apply (poll_budget_exhausted sample_inputs). intros i _. reflexivity.
Defined.

(** ** Polling: progress up to completion *)

(** What both loops show up to the poll that reports [completed], with
    the bar at the value [int(progress)] computes. *)
Lemma poll_until_completed {I : Interp} (ui : inputs) (w : world)
    (k : nat) :
  (1 <= k <= 150)%nat ->
  (forall i, (i < k - 1)%nat -> pending (service w (calls w + i)) = true) ->
  reports "completed" (service w (calls w + (k - 1))) = true ->
  let running t :=
    flat_map (fun a =>
                [Request (status_request ui t w);
                 ProgressBar (Float.to_int (progress (Z.of_nat a)));
                 StatusText Info
                   ("⏳ Processing... (" ++ Text.of_Z (Z.of_nat a * 2)
                    ++ "s elapsed)");
                 Slept 2])
             (seq 0 (k - 1)) in
  let finish t :=
    [Request (status_request ui t w); ProgressBar 100;
     StatusText Success "✅ Analysis complete!";
     Request (result_request ui t w)] in
  emitted (video_poll ui) w
  = ([ProgressBar 0; Placeholder] ++ running (Some 5) ++ finish (Some 5))%list
  /\ emitted (image_poll ui) w
     = ([ProgressBar 0; Placeholder] ++ running None ++ finish None)%list
  /\ progress_shown (emitted (video_poll ui) w) = bars_until k
  /\ progress_shown (emitted (image_poll ui) w) = bars_until k
  /\ Sorted Z.le (bars_until k)
  /\ Forall (fun p => p <= 95) (removelast (bars_until k)).
Proof.
  intros Hk Hp Hc running finish.
  assert (V := poll_completed ui (video_attempt ui) (Some 5) w k
                 (or_introl (conj eq_refl eq_refl)) Hk Hp Hc).
  assert (P := poll_completed ui (image_attempt ui) None w k
                 (or_intror (conj eq_refl eq_refl)) Hk Hp Hc).
  fold (video_poll ui) in V. fold (image_poll ui) in P.
  assert (B : forall t,
             progress_shown
               ([ProgressBar 0; Placeholder]
                ++ flat_map (fun i => processing_events ui t w (Z.of_nat i))
                            (seq 0 (k - 1))
                ++ completed_events ui t w) = bars_until k).
  { intros t. unfold progress_shown. rewrite !flat_map_app.
    fold (progress_shown
            (flat_map (fun i => processing_events ui t w (Z.of_nat i))
                      (seq 0 (k - 1)))).
    rewrite processing_bars. reflexivity. }
  pose proof bars_table as T. rewrite forallb_forall in T.
  specialize (T k). rewrite in_seq in T.
  destruct (proj1 (andb_true_iff _ _) (T ltac:(lia))) as [Hs Hb].
  repeat split.
  - exact V.
  - exact P.
  - rewrite V. apply B.
  - rewrite P. apply B.
  - now apply non_decreasing_sorted.
  - unfold bars_until.
    change (0 :: map shown_progress (seq 0 (k - 1)) ++ [100])%list
      with ((0 :: map shown_progress (seq 0 (k - 1))) ++ [100])%list.
    rewrite removelast_last. apply Forall_forall. intros p Hin.
    rewrite forallb_forall in Hb. specialize (Hb p Hin). lia.
Qed.

(** The value computed for the bar is [bar_shown], attempt by attempt. *)
Lemma bar_table :
  forallb (fun a => shown_progress a =? bar_shown a) (seq 0 150) = true.
Proof. vm_compute. reflexivity. Qed.

Lemma shown_progress_is_bar_shown (a : nat) :
  (a < 150)%nat -> shown_progress a = bar_shown a.
Proof.
  intros H. pose proof bar_table as T. rewrite forallb_forall in T.
  apply Z.eqb_eq. apply T. apply in_seq. lia.
Qed.

Lemma flat_map_ext_in {A B} (f g : A -> list B) (l : list A) :
  (forall a, In a l -> f a = g a) -> flat_map f l = flat_map g l.
Proof.
  induction l as [|a l IH]; intros H; [reflexivity|].
  cbn [flat_map]. rewrite (H a) by (left; reflexivity).
  rewrite IH by (intros b Hb; apply H; right; exact Hb). reflexivity.
Qed.

(** C6, as the code has it.  When the [k]-th status poll ([k <= 150]) is
    the first to report [completed] and the polls before it report
    [queued] or [processing], both loops show the same thing: the bar
    starts at 0; the attempt numbered [a] (counted from 0) sets it to
    [bar_shown a], the integer part of [min(a / 150 * 100, 95)] but for 57
    at attempt 87, and shows [a * 2] seconds elapsed; the [k]-th attempt
    sets it to 100 and requests the result.  The values of the bar never
    decrease, and 100 is the last of them, the earlier ones being at most
    95. *)
Theorem progress_until_completed {I : Interp} (ui : inputs) (w : world)
    (k : nat) :
  (1 <= k <= 150)%nat ->
  (forall i, (i < k - 1)%nat -> pending (service w (calls w + i)) = true) ->
  reports "completed" (service w (calls w + (k - 1))) = true ->
  let running t :=
    flat_map (fun a =>
                [Request (status_request ui t w);
                 ProgressBar (bar_shown a);
                 StatusText Info
                   ("⏳ Processing... (" ++ Text.of_Z (Z.of_nat a * 2)
                    ++ "s elapsed)");
                 Slept 2])
             (seq 0 (k - 1)) in
  let finish t :=
    [Request (status_request ui t w); ProgressBar 100;
     StatusText Success "✅ Analysis complete!";
     Request (result_request ui t w)] in
  let bars := (0 :: map bar_shown (seq 0 (k - 1)) ++ [100])%list in
  emitted (video_poll ui) w
  = ([ProgressBar 0; Placeholder] ++ running (Some 5) ++ finish (Some 5))%list
  /\ emitted (image_poll ui) w
     = ([ProgressBar 0; Placeholder] ++ running None ++ finish None)%list
  /\ progress_shown (emitted (video_poll ui) w) = bars
  /\ progress_shown (emitted (image_poll ui) w) = bars
  /\ Sorted Z.le bars
  /\ Forall (fun p => p <= 95) (removelast bars).
Proof.
  intros Hk Hp Hc running finish bars.
  destruct (poll_until_completed ui w k Hk Hp Hc)
    as (V & P & BV & BP & S & F).
  assert (B : bars_until k = bars).
  { unfold bars_until, bars. f_equal. f_equal. apply map_ext_in.
    intros a Ha. apply in_seq in Ha. apply shown_progress_is_bar_shown. lia. }
  assert (R : forall t,
             flat_map (fun a =>
                         [Request (status_request ui t w);
                          ProgressBar (Float.to_int (progress (Z.of_nat a)));
                          StatusText Info
                            ("⏳ Processing... (" ++ Text.of_Z (Z.of_nat a * 2)
                             ++ "s elapsed)");
                          Slept 2])
                      (seq 0 (k - 1))
             = running t).
  { intros t. apply flat_map_ext_in. intros a Ha. apply in_seq in Ha.
    fold (shown_progress a).
    rewrite shown_progress_is_bar_shown by lia. reflexivity. }
  rewrite B in BV, BP, S, F. rewrite R in V. rewrite R in P.
  repeat split; assumption.
Qed.

(** 149 polls that report [processing], then [completed]: every attempt
    of the budget but the last shows its value. *)
Lemma progress_until_completed_witness :
  let w := start (Some polling_session)
             (fun n => if (n <? 149)%nat
                       then json_reply [("status", PStr "processing")]
                       else if (n =? 149)%nat
                            then json_reply [("status", PStr "completed")]
                            else json_reply [("findings", PList [])]) in
  let bars :=
    [0; 0; 0; 1; 2; 2; 3; 4; 4; 5; 6; 6; 7; 8; 8; 9; 10; 10; 11; 12; 12;
     13; 14; 14; 15; 16; 16; 17; 18; 18; 19; 20; 20; 21; 22; 22; 23; 24;
     24; 25; 26; 26; 27; 28; 28; 29; 30; 30; 31; 32; 32; 33; 34; 34; 35;
     36; 36; 37; 38; 38; 39; 40; 40; 41; 42; 42; 43; 44; 44; 45; 46; 46;
     47; 48; 48; 49; 50; 50; 51; 52; 52; 53; 54; 54; 55; 56; 56; 57; 57;
     58; 59; 60; 60; 61; 62; 62; 63; 64; 64; 65; 66; 66; 67; 68; 68; 69;
     70; 70; 71; 72; 72; 73; 74; 74; 75; 76; 76; 77; 78; 78; 79; 80; 80;
     81; 82; 82; 83; 84; 84; 85; 86; 86; 87; 88; 88; 89; 90; 90; 91; 92;
     92; 93; 94; 94; 95; 95; 95; 95; 95; 95; 100] in
  progress_shown (emitted (video_poll sample_inputs) w) = bars
  /\ progress_shown (emitted (image_poll sample_inputs) w) = bars.
Proof.
  intros w bars.
  assert (H : forall i, (i < 150 - 1)%nat ->
                pending (service w (calls w + i)) = true).
  { intros i Hi. cbn [w start service calls Nat.add].
    destruct (Nat.ltb_spec i 149); [reflexivity | lia]. }
  destruct (progress_until_completed sample_inputs w 150 ltac:(lia) H eq_refl)
    as (_ & _ & V & P & _).
  split; [exact V | exact P].
Defined.

(** The claim as stated fails on the first attempt that has a fraction:
    at attempt 1 the documented estimate is 2/3 and the bar is given 0,
    the script passing the estimate through [int()] (app.py:217, 309). *)
Lemma estimate_is_shown_truncated :
  let w := start (Some polling_session)
             (fun n => match n with
                       | 0%nat | 1%nat => json_reply [("status", PStr "processing")]
                       | 2%nat => json_reply [("status", PStr "completed")]
                       | _ => json_reply [("findings", PList [])]
                       end) in
  let poll := status_request sample_inputs (Some 5) w in
  emitted (video_poll sample_inputs) w
  = [ProgressBar 0; Placeholder;
     Request poll; ProgressBar 0;
     StatusText Info "⏳ Processing... (0s elapsed)"; Slept 2;
     Request poll; ProgressBar 0;
     StatusText Info "⏳ Processing... (2s elapsed)"; Slept 2;
     Request poll; ProgressBar 100;
     StatusText Success "✅ Analysis complete!";
     Request (result_request sample_inputs (Some 5) w)]
  /\ (documented_estimate 1 == 2 # 3)%Q
  /\ ~ (inject_Z 0 == documented_estimate 1)%Q.
Proof.
  intros w poll. split; [vm_compute; reflexivity|].
  split; [reflexivity|]. intros H. vm_compute in H. discriminate.
Qed.

(** ** Polling: a failed job *)

(** C10, as the code has it.  When the first status poll reports [failed]
    with an error message, both loops stop after that one request: no
    further poll, no result fetch, and one error notice whose text is
    [❌ Analysis failed: ] followed by the server's message. *)
Theorem failed_on_first_poll {I : Interp} (ui : inputs) (w : world)
    (resp : response) (d : list (string * value)) (msg : string) :
  service w (calls w) = Responds resp ->
  status_code resp = 200 ->
  json_body resp = Some (PDict d) ->
  lookup "status" d = Some (PStr "failed") ->
  lookup "error" d = Some (PStr msg) ->
  video_poll ui w
  = (Done tt,
     after 1 [ProgressBar 0; Placeholder;
              Request (status_request ui (Some 5) w);
              Notice Error ("❌ Analysis failed: " ++ msg)] w)
  /\ image_poll ui w
     = (Done tt,
        after 1 [ProgressBar 0; Placeholder;
                 Request (status_request ui None w);
                 Notice Error ("❌ Analysis failed: " ++ msg)] w).
Proof.
  intros Hr Hc Hj Hs He.
  assert (G : forall body t,
             (body = video_attempt ui /\ t = Some 5)
             \/ (body = image_attempt ui /\ t = None) ->
             poll body w
             = (Done tt,
                after 1 [ProgressBar 0; Placeholder;
                         Request (status_request ui t w);
                         Notice Error ("❌ Analysis failed: " ++ msg)] w)).
  { intros body t Hb. unfold poll. step.
    change (range max_attempts) with (0 :: map Z.of_nat (seq 1 149)).
    cbn [for_each]. step.
    rewrite (attempt_failed ui t 0 _ resp d) by assumption.
    rewrite He. settle. reflexivity. }
  split; [apply (G _ (Some 5)) | apply (G _ None)]; auto.
Qed.

Lemma failed_on_first_poll_witness :
  let w := start (Some polling_session) (fun _ => corrupt_file) in
  notices Error (emitted (video_poll sample_inputs) w)
  = ["❌ Analysis failed: corrupt file"]
  /\ notices Error (emitted (image_poll sample_inputs) w)
     = ["❌ Analysis failed: corrupt file"].
Proof.
  intros w.
  destruct (failed_on_first_poll sample_inputs w _ _ "corrupt file"
              eq_refl eq_refl eq_refl eq_refl eq_refl) as [V P].
  unfold emitted. rewrite V, P. split; reflexivity.
Defined.

(** The message shown is not the server's message alone. *)
Lemma failure_message_is_prefixed :
  let w := start (Some polling_session) (fun _ => corrupt_file) in
  notices Error (emitted (video_poll sample_inputs) w) <> ["corrupt file"]
  /\ notices Error (emitted (image_poll sample_inputs) w) <> ["corrupt file"].
Proof. split; vm_compute; discriminate. Qed.

(** ** Polling on any sequence of replies *)

Lemma estimate_table :
  forallb (fun a => (0 <=? shown_progress a) && (shown_progress a <=? 95)
                    && (shown_progress a <=? shown_progress (S a)))
          (seq 0 149) = true
  /\ shown_progress 149 = 95.
Proof. split; vm_compute; reflexivity. Qed.

Lemma estimate_bounds (a : nat) :
  (a < 150)%nat -> 0 <= shown_progress a <= 95.
Proof.
  intros H. destruct estimate_table as [T L].
  destruct (Nat.eq_dec a 149) as [->|Hne]; [rewrite L; lia|].
  rewrite forallb_forall in T. specialize (T a). rewrite in_seq in T.
  specialize (T ltac:(lia)). lia.
Qed.

Lemma estimate_step (a : nat) :
  (S a < 150)%nat -> shown_progress a <= shown_progress (S a).
Proof.
  intros H. destruct estimate_table as [T _].
  rewrite forallb_forall in T. specialize (T a). rewrite in_seq in T.
  specialize (T ltac:(lia)). lia.
Qed.

Lemma estimate_monotone (a b : nat) :
  (a <= b)%nat -> (b < 150)%nat -> shown_progress a <= shown_progress b.
Proof.
  induction 1 as [|b Hab IH]; intros Hb; [lia|].
  pose proof (estimate_step b Hb). specialize (IH ltac:(lia)). lia.
Qed.

Lemma bars_from_sorted (a : nat) (bars : list Z) :
  bars_from a bars ->
  Sorted Z.le bars
  /\ Forall (fun p => p = 100 \/ exists j, (a <= j < 150)%nat
                                           /\ p = shown_progress j) bars.
Proof.
  induction 1 as [a|a|a bars _ [IHs IHf]|a bars Ha _ [IHs IHf]].
  - split; constructor.
  - split; repeat constructor.
  - split; [exact IHs|]. eapply Forall_impl; [|exact IHf].
    intros p [->|(j & Hj & ->)]; [now left|right; exists j; split; [lia|reflexivity]].
  - split.
    + constructor; [exact IHs|]. destruct bars as [|p bars]; constructor.
      apply Forall_inv in IHf. destruct IHf as [->|(j & Hj & ->)].
      * pose proof (estimate_bounds a Ha). lia.
      * apply estimate_monotone; lia.
    + constructor; [right; exists a; split; [lia|reflexivity]|].
      eapply Forall_impl; [|exact IHf].
      intros p [->|(j & Hj & ->)]; [now left|right; exists j; split; [lia|reflexivity]].
Qed.

Lemma bars_from_hundred (a : nat) (bars : list Z) :
  bars_from a bars -> Forall (fun p => 0 <= p <= 100) bars.
Proof.
  intros H. apply bars_from_sorted in H as [_ H].
  eapply Forall_impl; [|exact H].
  intros p [->|(j & Hj & ->)]; [lia|].
  pose proof (estimate_bounds j ltac:(lia)). lia.
Qed.

Section AnyReplies.
Context {I : Interp}.
Variable ui : inputs.

Lemma completed_status (resp : response) (v st : value) :
  status_code resp = 200 -> json_body resp = Some v ->
  py_index v "status" = Ok st -> py_eq_str st "completed" = true ->
  exists d, json_body resp = Some (PDict d)
            /\ lookup "status" d = Some (PStr "completed").
Proof.
  intros Hc Hj Hi He. destruct v as [|b|z|x|s|l|d]; try discriminate.
  cbn [py_index] in Hi. destruct (lookup "status" d) as [st'|] eqn:Hs; [|discriminate].
  injection Hi as ->. destruct st as [|b|z|x|s|l|d']; try discriminate.
  cbn [py_eq_str] in He. apply String.eqb_eq in He as ->. now exists d.
Qed.

Lemma attempt_any (t : option Z) (body : Z -> M control) (a : Z) (w : world) :
  (body = video_attempt ui /\ t = Some 5) \/ (body = image_attempt ui /\ t = None) ->
  attempt_outcome a w (body a w).
Proof.
  intros Hb.
  assert (E : body a w
              = match service w (calls w) with
                | Responds resp =>
                    if status_code resp =? 200
                    then on_status ui t a resp
                           (after 1 [Request (status_request ui t w)] w)
                    else match t with
                         | Some _ =>
                             (Done Break,
                              after 1 [Request (status_request ui t w);
                                       Notice Error "Failed to check status"] w)
                         | None =>
                             (Done Next,
                              after 1 [Request (status_request ui t w)] w)
                         end
                | Fails msg =>
                    (Raised (RequestException msg),
                     after 1 [Request (status_request ui t w)] w)
                end).
  { destruct Hb as [[-> ->] | [-> ->]].
    - unfold video_attempt, job_endpoint, requests_get, send. step.
      destruct (service w (calls w)) as [resp|msg]; [|settle; reflexivity].
      destruct (status_code resp =? 200); settle; [reflexivity|].
      step. settle. reflexivity.
    - unfold image_attempt, job_endpoint, requests_get, send. step.
      destruct (service w (calls w)) as [resp|msg]; [|settle; reflexivity].
      destruct (status_code resp =? 200); settle; [reflexivity|].
      step. settle. reflexivity. }
  rewrite E. clear E.
  destruct (service w (calls w)) as [resp|msg] eqn:Hr.
  2:{ eapply leaves; cbn [fst snd trace after]; try reflexivity. discriminate. }
  destruct (Z.eqb_spec (status_code resp) 200) as [Hc|Hc].
  2:{ destruct Hb as [[_ ->] | [_ ->]].
      - eapply leaves; cbn [fst snd trace after]; try reflexivity. discriminate.
      - eapply goes_on; cbn [fst snd]; try reflexivity. right. reflexivity. }
  set (w1 := after 1 [Request (status_request ui t w)] w).
  unfold on_status, json.
  destruct (json_body resp) as [v|] eqn:Hj.
  2:{ step. eapply leaves with (evs := [Request (status_request ui t w)]);
        cbn [fst snd trace after w1]; try reflexivity. discriminate. }
  step. destruct (py_index v "status") as [st|e] eqn:Hi.
  2:{ step. eapply leaves with (evs := [Request (status_request ui t w)]);
        cbn [fst snd trace after w1]; try reflexivity. discriminate. }
  step. destruct (py_eq_str st "completed") eqn:Hcompleted.
  - destruct (completed_status resp v st Hc Hj Hi Hcompleted) as (d & Hj' & Hs).
    pose proof (on_status_completed ui t a resp w1 d Hj' Hs) as H.
    cbv zeta in H. unfold on_status, json in H. rewrite Hj in H.
    cbv beta iota delta [bind ret lift] in H. rewrite Hi in H.
    cbv beta iota delta [bind ret lift] in H. rewrite Hcompleted in H.
    destruct H as (Ht & _ & _ & _ & _ & Hflow).
    eapply leaves_completed
      with (evs := [Request (status_request ui t w); ProgressBar 100;
                    StatusText Success "✅ Analysis complete!";
                    Request (result_request ui t w)]).
    + exact Hflow.
    + rewrite Ht. cbn [trace after w1]. rewrite <- app_assoc. reflexivity.
    + reflexivity.
    + reflexivity.
    + unfold reports. rewrite Hr, Hj', Hs. rewrite Hc. reflexivity.
  - destruct (py_eq_str st "failed").
    + unfold analysis_failed.
      destruct v as [|b|z|x|s|l|d]; try discriminate. unfold py_get. step.
      eapply leaves; cbn [fst snd trace after shown w1]; try reflexivity.
      * discriminate.
      * rewrite <- app_assoc. reflexivity.
      * reflexivity.
      * reflexivity.
    + unfold still_processing. step. unfold w1. settle.
      eapply goes_on; cbn [fst snd]; try reflexivity. left. reflexivity.
Qed.

Lemma progress_shown_app (e1 e2 : list event) :
  progress_shown (e1 ++ e2) = (progress_shown e1 ++ progress_shown e2)%list.
Proof. unfold progress_shown. apply flat_map_app. Qed.

Lemma requests_in_app (e1 e2 : list event) :
  requests_in (e1 ++ e2) = (requests_in e1 ++ requests_in e2)%list.
Proof. unfold requests_in. apply flat_map_app. Qed.

(** The loop from attempt [a] on, over any replies. *)
Lemma loop_any (t : option Z) (body : Z -> M control) :
  (body = video_attempt ui /\ t = Some 5) \/ (body = image_attempt ui /\ t = None) ->
  forall (n a : nat) (w : world),
    (a + n <= 150)%nat ->
    exists evs,
      trace (snd (for_each (map Z.of_nat (seq a n)) body w))
      = (trace w ++ evs)%list
      /\ (List.length (requests_in evs) <= n + 1)%nat
      /\ bars_from a (progress_shown evs)
      /\ (In 100 (progress_shown evs) ->
          exists i, (i < n)%nat
                    /\ reports "completed" (service w (calls w + i)) = true).
Proof.
  intros Hb. induction n as [|n IH]; intros a w Hn.
  - exists []. cbn. rewrite app_nil_r. repeat split; try lia; try constructor.
  - cbn [seq map].
    destruct (attempt_any t body (Z.of_nat a) w Hb)
      as [evs Hflow Hsnd Hreq Hbar | evs Hflow Htrace Hreq Hbar
          | evs Hflow Htrace Hreq Hbar Hrep].
    + cbn [for_each]. unfold bind at 1.
      destruct (body (Z.of_nat a) w) as [o w1]. cbn [fst snd] in Hflow, Hsnd.
      subst o w1.
      destruct (IH (S a) (after 1 evs w) ltac:(lia))
        as (evs' & Ht & Hr & Hbars & Hdone).
      exists (evs ++ evs')%list. rewrite Ht. cbn [trace after].
      rewrite app_assoc, requests_in_app, progress_shown_app, length_app.
      split; [reflexivity|]. split; [lia|]. split.
      * destruct Hbar as [-> | ->].
        -- cbn [app]. apply bars_step; [lia | exact Hbars].
        -- cbn [app]. apply bars_skip. exact Hbars.
      * intros Hin. apply in_app_or in Hin as [Hin|Hin].
        -- exfalso. destruct Hbar as [Hbar | Hbar]; rewrite Hbar in Hin.
           ++ destruct Hin as [Hin|[]].
              pose proof (estimate_bounds a ltac:(lia)) as B.
              unfold shown_progress in B. lia.
           ++ destruct Hin.
        -- destruct (Hdone Hin) as (i & Hi & Hrep). exists (S i).
           split; [lia|]. cbn [service calls after] in Hrep.
           replace (calls w + S i)%nat with (calls w + 1 + i)%nat by lia.
           exact Hrep.
    + destruct (loop_stops body (Z.of_nat a) (map Z.of_nat (seq (S a) n)) w Hflow)
        as [-> _].
      exists evs. rewrite Htrace, Hreq, Hbar.
      split; [reflexivity|]. split; [lia|]. split; [constructor|intros []].
    + destruct (loop_stops body (Z.of_nat a) (map Z.of_nat (seq (S a) n)) w Hflow)
        as [-> _].
      exists evs. rewrite Htrace, Hreq, Hbar.
      split; [reflexivity|]. split; [lia|]. split; [constructor|].
      intros _. exists 0%nat. split; [lia|]. now rewrite Nat.add_0_r.
Qed.

End AnyReplies.

(** X1.  Whatever the service replies, either loop ends within 150 status
    polls (and at most one result fetch), the values of its progress bar
    never decrease and stay within 0..100, and the bar shows 100 only when
    one of the polls has reported [completed]. *)
Theorem poll_on_any_replies {I : Interp} (ui : inputs) (w : world)
    (loop : M unit) :
  loop = video_poll ui \/ loop = image_poll ui ->
  (List.length (requests_in (emitted loop w)) <= 151)%nat
  /\ Sorted Z.le (progress_shown (emitted loop w))
  /\ Forall (fun p => 0 <= p <= 100) (progress_shown (emitted loop w))
  /\ (In 100 (progress_shown (emitted loop w)) ->
      exists i, (i < 150)%nat
                /\ reports "completed" (service w (calls w + i)) = true).
Proof.
  intros Hl.
  assert (G : exists t body,
             loop = poll body
             /\ ((body = video_attempt ui /\ t = Some 5)
                 \/ (body = image_attempt ui /\ t = None))).
  { destruct Hl as [-> | ->].
    - exists (Some 5), (video_attempt ui). auto.
    - exists None, (image_attempt ui). auto. }
  destruct G as (t & body & -> & Hb).
  destruct (loop_any ui t body Hb 150 0
              (after 0 [ProgressBar 0; Placeholder] w) ltac:(lia))
    as (evs & Ht & Hr & Hbars & Hdone).
  assert (E : emitted (poll body) w = ([ProgressBar 0; Placeholder] ++ evs)%list).
  { apply emitted_trace. unfold poll. step. settle.
    change (range max_attempts) with (map Z.of_nat (seq 0 150)).
    rewrite Ht. cbn [trace after]. rewrite <- app_assoc. reflexivity. }
  rewrite E.
  change (progress_shown ([ProgressBar 0; Placeholder] ++ evs))
    with (0 :: progress_shown evs).
  change (requests_in ([ProgressBar 0; Placeholder] ++ evs))
    with (requests_in evs).
  pose proof (bars_from_sorted 0 _ Hbars) as [Hs _].
  pose proof (bars_from_hundred 0 _ Hbars) as Hh.
  split; [lia|]. split; [|split].
  - constructor; [exact Hs|].
    destruct (progress_shown evs) as [|p ps]; constructor.
    apply Forall_inv in Hh. lia.
  - constructor; [lia | exact Hh].
  - intros [Hin|Hin]; [discriminate|].
    destruct (Hdone Hin) as (i & Hi & Hrep). exists i. split; [exact Hi|].
    cbn [service calls after] in Hrep.
    replace (calls w + i)%nat with (calls w + 0 + i)%nat by lia. exact Hrep.
Qed.

(** ** Timeouts of the calls *)

Section Adds.
Variable P : event -> Prop.

Lemma adds_ret {A} (a : A) : adds P (ret a).
Proof. intros w. exists []. cbn. now rewrite app_nil_r. Qed.

Lemma adds_raise {A} (e : exn) : adds P (@raise A e).
Proof. intros w. exists []. cbn. now rewrite app_nil_r. Qed.

Lemma adds_rerun {A} : adds P (@rerun A).
Proof. intros w. exists []. cbn. now rewrite app_nil_r. Qed.

Lemma adds_lift {A} (r : res A) : adds P (lift r).
Proof. destruct r; [apply adds_ret | apply adds_raise]. Qed.

Lemma adds_get_session : adds P get_session.
Proof. intros w. exists []. cbn. now rewrite app_nil_r. Qed.

Lemma adds_set_session (s : session_state) : adds P (set_session s).
Proof. intros w. exists []. cbn. now rewrite app_nil_r. Qed.

Lemma adds_define (fname : string) : adds P (define fname).
Proof. intros w. exists []. cbn. now rewrite app_nil_r. Qed.

Lemma adds_emit (e : event) : P e -> adds P (emit e).
Proof. intros H w. exists [e]. cbn. split; [reflexivity | now constructor]. Qed.

Lemma adds_send (r : request) : P (Request r) -> adds P (send r).
Proof.
  intros H w. exists [Request r]. unfold send.
  destruct (service w (calls w)); cbn; (split; [reflexivity | now constructor]).
Qed.

Lemma adds_json (r : response) : adds P (json r).
Proof. unfold json. destruct (json_body r); [apply adds_ret | apply adds_raise]. Qed.

Lemma adds_bind {A B} (m : M A) (k : A -> M B) :
  adds P m -> (forall a, adds P (k a)) -> adds P (bind m k).
Proof.
  intros Hm Hk w. unfold bind. destruct (Hm w) as (e1 & H1 & F1).
  destruct (m w) as [[a|e|] w']; cbn [snd] in *; eauto.
  destruct (Hk a w') as (e2 & H2 & F2). exists (e1 ++ e2)%list.
  rewrite H2, H1, app_assoc. split; [reflexivity | now apply Forall_app].
Qed.

Lemma adds_try {A} (m : M A) (h : exn -> M A) :
  adds P m -> (forall e, adds P (h e)) -> adds P (try_except m h).
Proof.
  intros Hm Hh w. unfold try_except. destruct (Hm w) as (e1 & H1 & F1).
  destruct (m w) as [[a|e|] w']; cbn [snd] in *; eauto.
  destruct (Hh e w') as (e2 & H2 & F2). exists (e1 ++ e2)%list.
  rewrite H2, H1, app_assoc. split; [reflexivity | now apply Forall_app].
Qed.

Lemma adds_for_each {A} (xs : list A) (body : A -> M control) :
  (forall x, adds P (body x)) -> adds P (for_each xs body).
Proof.
  intros Hb. induction xs as [|x xs IH]; [apply adds_ret|].
  cbn [for_each]. apply adds_bind; [apply Hb|].
  intros [|]; [exact IH | apply adds_ret].
Qed.

Lemma adds_call (fname : string) (body : M unit) :
  adds P body -> adds P (call fname body).
Proof.
  intros H w. unfold call. destruct (existsb _ _); [apply H|].
  exists []. cbn. now rewrite app_nil_r.
Qed.

End Adds.

Lemma adds_job_endpoint {I : Interp} (ui : inputs) (P : event -> Prop)
    {B} (path : string) (k : string -> M B) :
  (forall job, adds P (k (API_BASE_URL ui ++ path ++ job))) ->
  adds P (bind (job_endpoint ui path) k).
Proof.
  intros H w. unfold job_endpoint, bind, get_session, ret. apply H.
Qed.

Lemma poll_call {I : Interp} (ui : inputs) (m : media) (job : string) :
  media_type ui = m ->
  let t := match m with Video => Some 5 | ImageSequence => None end in
  call_of ui {| method := GET; url := API_BASE_URL ui ++ "/api/job/" ++ job;
                timeout := t; files := []; data := [] |}
  /\ call_of ui {| method := GET;
                   url := API_BASE_URL ui ++ "/api/result/" ++ job;
                   timeout := t; files := []; data := [] |}.
Proof.
  intros H t. subst t. rewrite <- H. split; constructor.
Qed.

Ltac calling :=
  first
    [ solve [ constructor; assumption ]
    | match goal with
      | H : media_type _ = _ |- _ =>
          first [ exact (proj1 (poll_call _ _ _ H))
                | exact (proj2 (poll_call _ _ _ H)) ]
      end
    | match goal with
      | H : uploaded_files _ = _ |- _ =>
          rewrite <- H; solve [ constructor; assumption ]
      end ].

Ltac adding :=
  repeat first
    [ apply adds_ret | apply adds_raise | apply adds_rerun | apply adds_lift
    | apply adds_get_session | apply adds_set_session | apply adds_define
    | apply adds_json
    | apply adds_emit; [exact Logic.I]
    | apply adds_send; cbn [known_call]; calling
    | apply adds_for_each; intros ?
    | apply adds_job_endpoint; intros ?
    | apply adds_bind; [|intros ?]
    | apply adds_try; [|intros ?]
    | apply adds_call
    | match goal with
      | |- adds _ (if ?c then _ else _) => destruct c eqn:?
      | |- adds _ (match ?x with _ => _ end) => destruct x eqn:?
      end ].

(** Every call of a run is one of [call_of]. *)
Lemma script_adds_calls {I : Interp} (ui : inputs) :
  adds (known_call ui) (script ui).
Proof.
  unfold script, page_top, sidebar, api_status, upload_tab, video_upload,
    image_upload, analyze_video, analyze_images, analysis_started, video_poll,
    image_poll, poll, video_attempt, image_attempt, on_status,
    analysis_completed, analysis_failed, still_processing, set_job_id,
    set_results, set_analysis_complete, requests_get, requests_post, sleep,
    results_tab, results_body, media_information, timeline_overview,
    findings_list, show_group, display_finding, show_metric, export_results,
    export_name, st_image, st_metric.
  adding.
Qed.

(** X2.  Whatever the inputs and the replies, every call of a run is one of
    these, with exactly this timeout: the health check with 5 seconds; the
    upload of the video or of the images, as the media type has it, with
    60; a status poll or a result fetch with 5 in a video run and with no
    timeout in an image-sequence run; the PDF export with 30. *)
Theorem calls_of_a_run {I : Interp} (ui : inputs)
    (stored : option session_state) (svc : nat -> reply) :
  Forall (call_of ui) (requests_in (trace (snd (run_script ui stored svc)))).
Proof.
  destruct (script_adds_calls ui (start stored svc)) as (evs & Ht & F).
  unfold run_script. rewrite Ht. cbn [trace start app]. clear Ht.
  induction F as [|e evs He _ IH]; [constructor|].
  destruct e; cbn [requests_in flat_map app]; try exact IH.
  constructor; [exact He | exact IH].
Qed.

(** C2 at an image-sequence run: the status poll and the result fetch of
    the image loop are sent without a timeout. *)
Lemma image_polls_carry_no_timeout :
  sent (run_script (image_inputs two_frames) None
          (completes_then (json_reply [("findings", PList [])])))
  = [("https://your-api.onrender.com/api/health", Some 5);
     ("https://your-api.onrender.com/api/analyze/images", Some 60);
     ("https://your-api.onrender.com/api/job/abc123", None);
     ("https://your-api.onrender.com/api/result/abc123", None)].
Proof. vm_compute. reflexivity. Qed.

(** The video loop, on the same replies, bounds both by 5 seconds. *)
Lemma video_polls_carry_timeouts :
  sent (run_script video_inputs None
          (completes_then (json_reply [("findings", PList [])])))
  = [("https://your-api.onrender.com/api/health", Some 5);
     ("https://your-api.onrender.com/api/analyze/video", Some 60);
     ("https://your-api.onrender.com/api/job/abc123", Some 5);
     ("https://your-api.onrender.com/api/result/abc123", Some 5)].
Proof. vm_compute. reflexivity. Qed.

(** ** A status poll that fails *)

(** X3.  The video loop stops at a status code other than 200 and says so. *)
Lemma video_poll_stops_on_http_error {I : Interp} (ui : inputs) (w : world)
    (resp : response) :
  service w (calls w) = Responds resp ->
  status_code resp <> 200 ->
  video_poll ui w
  = (Done tt,
     after 1 [ProgressBar 0; Placeholder;
              Request (status_request ui (Some 5) w);
              Notice Error "Failed to check status"] w).
Proof.
  intros Hr Hc. unfold video_poll, poll. step.
  change (range max_attempts) with (0 :: map Z.of_nat (seq 1 149)).
  cbn [for_each]. unfold video_attempt at 1, job_endpoint, requests_get, send.
  step. cbn [service calls shown session]. rewrite Hr.
  destruct (Z.eqb_spec (status_code resp) 200) as [E|_]; [contradiction|].
  step. settle. reflexivity.
Qed.

(** A connection failure or a timeout on a status poll leaves either loop
    by the exception; the [except] around it reports it. *)
Lemma poll_raises_on_transport_failure {I : Interp} (ui : inputs) (w : world)
    (msg : string) :
  service w (calls w) = Fails msg ->
  video_poll ui w
  = (Raised (RequestException msg),
     after 1 [ProgressBar 0; Placeholder;
              Request (status_request ui (Some 5) w)] w)
  /\ image_poll ui w
     = (Raised (RequestException msg),
        after 1 [ProgressBar 0; Placeholder;
                 Request (status_request ui None w)] w).
Proof.
  intros Hr. split.
  - unfold video_poll, poll. step.
    change (range max_attempts) with (0 :: map Z.of_nat (seq 1 149)).
    cbn [for_each]. unfold video_attempt at 1, job_endpoint, requests_get, send.
    step. cbn [service calls shown session]. rewrite Hr. settle. reflexivity.
  - unfold image_poll, poll. step.
    change (range max_attempts) with (0 :: map Z.of_nat (seq 1 149)).
    cbn [for_each]. unfold image_attempt at 1, job_endpoint, requests_get, send.
    step. cbn [service calls shown session]. rewrite Hr. settle. reflexivity.
Qed.

(** C3 at an image-sequence run: every status poll gets a 500; the image
    loop polls 150 times all the same and reports nothing. *)
Lemma image_poll_ignores_http_error :
  let run := run_script (image_inputs two_frames) None status_unavailable in
  fst run = Done tt
  /\ List.length
       (filter (fun r => String.eqb (fst r)
                           "https://your-api.onrender.com/api/job/abc123")
               (sent run)) = 150%nat
  /\ notices Error (trace (snd run)) = []
  /\ notices Warning (trace (snd run)) = [].
Proof. vm_compute. repeat split. Qed.

(** The video loop on the same replies: one poll, then the failure notice. *)
Lemma video_poll_reports_http_error :
  let run := run_script video_inputs None status_unavailable in
  List.length
    (filter (fun r => String.eqb (fst r)
                        "https://your-api.onrender.com/api/job/abc123")
            (sent run)) = 1%nat
  /\ notices Error (trace (snd run)) = ["Failed to check status"].
Proof. vm_compute. repeat split. Qed.

(** ** A result fetch that fails *)

(** C4 at a run whose result fetch gets a 500 after [completed]: the bar
    is at 100, the completion message is up, no error is shown, and no
    result is stored; the video side and the image side alike. *)
Lemma failed_result_fetch_is_silent :
  let video := run_script video_inputs None (completes_then (http_error 500)) in
  let image := run_script (image_inputs two_frames) None
                 (completes_then (http_error 500)) in
  (fst video = Done tt
   /\ In (ProgressBar 100) (trace (snd video))
   /\ In (StatusText Success "✅ Analysis complete!") (trace (snd video))
   /\ notices Error (trace (snd video)) = []
   /\ notices Warning (trace (snd video)) = []
   /\ results (session (snd video)) = PNone)
  /\ (fst image = Done tt
      /\ In (ProgressBar 100) (trace (snd image))
      /\ In (StatusText Success "✅ Analysis complete!") (trace (snd image))
      /\ notices Error (trace (snd image)) = []
      /\ notices Warning (trace (snd image)) = []
      /\ results (session (snd image)) = PNone).
Proof.
  vm_compute. repeat split; auto 30.
Qed.

(** ** Too few images *)



(** With nothing uploaded there is no submission: the block below the
    uploader is skipped, warning included. *)
Lemma no_images_no_warning :
  let ui := image_inputs [] in
  (List.length (uploaded_files ui) < 2)%nat
  /\ notices Warning (trace (snd (run_script ui None status_unavailable))) = []
  /\ requests_in (emitted (upload_tab ui) (start None status_unavailable)) = [].
Proof. vm_compute. repeat split. lia. Qed.

(** A single upload that is no image: the run stops in the thumbnail,
    before the number of images is checked; nothing is submitted. *)
Lemma undecodable_upload_stops_the_run :
  let run := run_script (image_inputs [not_an_image "a.png"]) None
               status_unavailable in
  fst run = Raised UnidentifiedImageError
  /\ notices Warning (trace (snd run)) = []
  /\ sent run = [("https://your-api.onrender.com/api/health", Some 5)].
Proof. vm_compute. repeat split. Qed.

(** ** Severity buckets *)

Section Buckets.
Context {I : Interp}.

Lemma select_dicts (keyword : string) (fs : list (list (string * value))) :
  select keyword (map PDict fs)
  = Ok (map PDict (filter (in_bucket keyword) fs)).
Proof.
  unfold select. induction fs as [|f fs IH]; [reflexivity|].
  cbn [map res_filter filter]. unfold severity_has at 1, py_get.
  cbn [res_bind]. rewrite IH. cbn [res_bind].
  fold (in_bucket keyword f). destruct (in_bucket keyword f); reflexivity.
Qed.

Lemma severity_counts_dicts (fs : list (list (string * value))) :
  severity_counts (map PDict fs)
  = Ok (Z.of_nat (List.length (filter (in_bucket "high") fs)),
        Z.of_nat (List.length (filter (in_bucket "medium") fs)),
        Z.of_nat (List.length (filter (in_bucket "low") fs))).
Proof.
  unfold severity_counts. rewrite !select_dicts. cbn [res_bind].
  rewrite !length_map. reflexivity.
Qed.

End Buckets.

(** C8.  For a findings sequence [fs] and each keyword: the group the
    findings list displays and the count the overview shows are both taken
    from the findings whose lowered severity string contains the keyword,
    in their order, each keyword on its own.  A finding with severity
    [HIGH confidence] is in the High bucket only; one with severity
    [high-low] is in the High and in the Low bucket. *)
Theorem severity_buckets {I : Interp} (ui : inputs)
    (fs : list (list (string * value))) :
  (forall keyword,
      select keyword (map PDict fs)
      = Ok (map PDict (filter (in_bucket keyword) fs)))
  /\ (forall keyword f,
        In (PDict f) (map PDict (filter (in_bucket keyword) fs))
        <-> In f fs /\ Text.contains keyword
                         (Text.lower
                            (py_str (match lookup "severity" f with
                                     | Some sev => sev
                                     | None => PStr ""
                                     end))) = true)
  /\ severity_counts (map PDict fs)
     = Ok (Z.of_nat (List.length (filter (in_bucket "high") fs)),
           Z.of_nat (List.length (filter (in_bucket "medium") fs)),
           Z.of_nat (List.length (filter (in_bucket "low") fs)))
  /\ (forall w,
        findings_list ui (PList (map PDict fs)) (map PDict fs) w
        = (emit (Header ("🔍 Findings ("
                         ++ Text.of_Z (Z.of_nat (List.length fs)) ++ ")")) ;;
           show_group ui "High" "🔴 High Severity Findings" "high"
             (map PDict (filter (in_bucket "high") fs)) ;;
           show_group ui "Medium" "🟠 Medium Severity Findings" "medium"
             (map PDict (filter (in_bucket "medium") fs)) ;;
           show_group ui "Low" "🟡 Low Severity Findings" "low"
             (map PDict (filter (in_bucket "low") fs))) w)
  /\ (in_bucket "high" [("severity", PStr "HIGH confidence")] = true
      /\ in_bucket "medium" [("severity", PStr "HIGH confidence")] = false
      /\ in_bucket "low" [("severity", PStr "HIGH confidence")] = false)
  /\ (in_bucket "high" [("severity", PStr "high-low")] = true
      /\ in_bucket "low" [("severity", PStr "high-low")] = true).
Proof.
  split; [intros; apply select_dicts|].
  split.
  { intros keyword f. rewrite in_map_iff. split.
    - intros (f' & [= ->] & Hin). now apply filter_In in Hin.
    - intros H. exists f. split; [reflexivity|]. now apply filter_In. }
  split; [apply severity_counts_dicts|].
  split.
  { intros w. unfold findings_list, py_len. rewrite !select_dicts.
    rewrite length_map. reflexivity. }
  split; repeat split; reflexivity.
Qed.

(** ** What the blocks before the results tab leave alone *)

Lemma kg_ret {A} (a : A) : keeps_globals (ret a).
Proof. intros w. reflexivity. Qed.

Lemma kg_raise {A} (e : exn) : keeps_globals (@raise A e).
Proof. intros w. reflexivity. Qed.

Lemma kg_rerun {A} : keeps_globals (@rerun A).
Proof. intros w. reflexivity. Qed.

Lemma kg_lift {A} (r : res A) : keeps_globals (lift r).
Proof. destruct r; intros w; reflexivity. Qed.

Lemma kg_emit (e : event) : keeps_globals (emit e).
Proof. intros w. reflexivity. Qed.

Lemma kg_get_session : keeps_globals get_session.
Proof. intros w. reflexivity. Qed.

Lemma kg_set_session (s : session_state) : keeps_globals (set_session s).
Proof. intros w. reflexivity. Qed.

Lemma kg_send (r : request) : keeps_globals (send r).
Proof. intros w. unfold send. destruct (service w (calls w)); reflexivity. Qed.

Lemma kg_json (r : response) : keeps_globals (json r).
Proof. unfold json. destruct (json_body r); [apply kg_ret | apply kg_raise]. Qed.

Lemma kg_bind {A B} (m : M A) (k : A -> M B) :
  keeps_globals m -> (forall a, keeps_globals (k a)) -> keeps_globals (bind m k).
Proof.
  intros Hm Hk w. unfold bind. specialize (Hm w).
  destruct (m w) as [[a|e|] w']; cbn [snd] in *; [|assumption|assumption].
  rewrite Hk. exact Hm.
Qed.

Lemma kg_try {A} (m : M A) (h : exn -> M A) :
  keeps_globals m -> (forall e, keeps_globals (h e)) ->
  keeps_globals (try_except m h).
Proof.
  intros Hm Hh w. unfold try_except. specialize (Hm w).
  destruct (m w) as [[a|e|] w']; cbn [snd] in *; [assumption| |assumption].
  rewrite Hh. exact Hm.
Qed.

Lemma kg_for_each {A} (xs : list A) (body : A -> M control) :
  (forall x, keeps_globals (body x)) -> keeps_globals (for_each xs body).
Proof.
  intros Hb. induction xs as [|x xs IH]; [apply kg_ret|].
  cbn [for_each]. apply kg_bind; [apply Hb|].
  intros [|]; [exact IH | apply kg_ret].
Qed.

Ltac keeps :=
  repeat first
    [ apply kg_ret | apply kg_raise | apply kg_rerun | apply kg_lift
    | apply kg_emit | apply kg_get_session | apply kg_set_session
    | apply kg_send | apply kg_json
    | apply kg_for_each; intros ?
    | apply kg_bind; [|intros ?]
    | apply kg_try; [|intros ?]
    | match goal with
      | |- keeps_globals (if ?c then _ else _) => destruct c
      | |- keeps_globals (match ?x with _ => _ end) => destruct x
      end ].

Lemma page_top_keeps_globals {I : Interp} (ui : inputs) :
  keeps_globals (page_top ui).
Proof.
  unfold page_top, sidebar, api_status, upload_tab, video_upload, image_upload,
    analyze_video, analyze_images, analysis_started, video_poll, image_poll,
    poll, video_attempt, image_attempt, on_status, analysis_completed,
    analysis_failed, still_processing, job_endpoint, set_job_id, set_results,
    set_analysis_complete, requests_get, requests_post, sleep, st_image.
  keeps.
Qed.

(** ** The results tab *)

Section Results.
Context {I : Interp}.
Variable ui : inputs.

Lemma for_each_emits {A} (g : A -> event) (body : A -> M control)
    (xs : list A) :
  (forall x w, In x xs -> body x w = (Done Next, after 0 [g x] w)) ->
  forall w, for_each xs body w = (Done tt, after 0 (map g xs) w).
Proof.
  induction xs as [|x xs IH]; intros Hb w.
  - cbn [for_each map]. now rewrite after_nothing.
  - cbn [for_each map]. unfold bind.
    rewrite Hb by (left; reflexivity).
    rewrite IH by (intros y w' Hy; apply Hb; right; exact Hy).
    rewrite after_after. reflexivity.
Qed.

Lemma st_metric_shows (column : Z) (label : string) (v : value) (w : world) :
  is_scalar v = true ->
  st_metric column label v w = (Done tt, after 0 [Metric column label v] w).
Proof.
  destruct v; try discriminate; intros _; unfold st_metric; step; settle;
    reflexivity.
Qed.

Lemma enumerated_item {A} (idx : Z) (x : A) (xs : list A) :
  In (idx, x) (enumerate xs) -> In x xs.
Proof. unfold enumerate. apply in_combine_r. Qed.

Lemma media_information_runs (d : list (string * value)) (w : world) :
  absent_or metrics_shape "media_info" d = true ->
  exists items,
    or_default "media_info" (PDict []) d = PDict items
    /\ media_information (PDict d) w
       = (Done tt,
          after 0 ([Header "📊 Media Information"; Columns 4]
                   ++ map media_metric (enumerate items)) w).
Proof.
  unfold absent_or, or_default, media_information, py_get.
  destruct (lookup "media_info" d) as [[|b|z|x|s|l|items]|]; try discriminate;
    cbn [metrics_shape]; intros Hv.
  - exists items. split; [reflexivity|]. step. unfold py_items. step.
    rewrite (for_each_emits media_metric).
    + settle. reflexivity.
    + intros [idx [key v]] w0 Hin. apply enumerated_item in Hin.
      rewrite forallb_forall in Hv. specialize (Hv _ Hin).
      unfold bind. rewrite st_metric_shows by exact Hv. reflexivity.
  - exists []. split; [reflexivity|]. step. unfold py_items. step.
    cbn [enumerate List.length combine range map for_each]. step. settle. reflexivity.
Qed.

Lemma timeline_entry_runs (f : value) :
  finding_shape f = true -> exists entry, timeline_entry f = Ok entry.
Proof.
  destruct f as [|b|z|x|s|l|f]; try discriminate. cbn [finding_shape].
  intros H. apply andb_true_iff in H as [H _]. apply andb_true_iff in H as [_ Hl].
  unfold timeline_entry, severity_has, py_get at 1. cbn [res_bind].
  match goal with |- context [Text.contains "high" ?s] =>
    destruct (Text.contains "high" s) end.
  - cbn [res_bind py_get]. unfold absent_or in Hl.
    destruct (lookup "location" f) as [[|b|z|x|s|l|loc]|]; try discriminate;
      cbn [py_get res_bind]; eauto.
  - unfold py_get at 1. cbn [res_bind py_get]. unfold absent_or in Hl.
    destruct (lookup "location" f) as [[|b|z|x|s|l|loc]|]; try discriminate;
      cbn [py_get res_bind]; eauto.
Qed.

Lemma timeline_runs (fs : list value) :
  forallb finding_shape fs = true ->
  exists entries, res_map timeline_entry fs = Ok entries.
Proof.
  induction fs as [|f fs IH]; intros H; [now exists []|].
  cbn [forallb] in H. apply andb_true_iff in H as [Hf Hfs].
  destruct (timeline_entry_runs f Hf) as [e He].
  destruct (IH Hfs) as [es Hes].
  exists (e :: es). cbn [res_map]. rewrite He. cbn [res_bind]. rewrite Hes.
  reflexivity.
Qed.

Lemma shaped_findings_are_dicts (fs : list value) :
  forallb finding_shape fs = true -> exists ds, fs = map PDict ds.
Proof.
  induction fs as [|f fs IH]; intros H; [now exists []|].
  cbn [forallb] in H. apply andb_true_iff in H as [Hf Hfs].
  destruct (IH Hfs) as [ds ->].
  destruct f as [|b|z|x|s|l|f]; try discriminate.
  now exists (f :: ds).
Qed.

Lemma timeline_overview_runs (fs : list (list (string * value))) (w : world) :
  forallb finding_shape (map PDict fs) = true ->
  timeline_overview (map PDict fs) w
  = (Done tt,
     after 0 [Header "📈 Timeline Overview";
              Written "**Anomaly Distribution:**";
              Columns 3;
              Metric 0 "🔴 High Severity"
                (PInt (Z.of_nat (List.length (filter (in_bucket "high") fs))));
              Metric 1 "🟠 Medium Severity"
                (PInt (Z.of_nat (List.length (filter (in_bucket "medium") fs))));
              Metric 2 "🟡 Low Severity"
                (PInt (Z.of_nat (List.length (filter (in_bucket "low") fs))));
              Divider] w).
Proof.
  intros H. destruct (timeline_runs _ H) as [entries He].
  unfold timeline_overview. rewrite He, severity_counts_dicts.
  step. settle. reflexivity.
Qed.

Lemma show_group_skipped (label title severity : string) (group : list value)
    (w : world) :
  shows ui label group = false ->
  show_group ui label title severity group w = (Done tt, w).
Proof. unfold shows, show_group. intros ->. reflexivity. Qed.

(** A shown group puts up its title and raises on its first finding when
    [display_finding] is not bound. *)
Lemma show_group_unbound (label title severity : string) (group : list value)
    (w : world) :
  shows ui label group = true ->
  existsb (String.eqb "display_finding") (globals w) = false ->
  show_group ui label title severity group w
  = (Raised (NameError "display_finding"), after 0 [Subheader title] w).
Proof.
  unfold shows, show_group. intros Hs Hg.
  destruct group as [|f group]; [rewrite andb_false_r in Hs; discriminate|].
  rewrite Hs. step. cbn [for_each]. step. unfold call. cbn [globals shown]. rewrite Hg.
  settle. reflexivity.
Qed.

Lemma findings_list_unbound (fs : list (list (string * value))) (w : world) :
  shows ui "High" (map PDict (filter (in_bucket "high") fs))
  || shows ui "Medium" (map PDict (filter (in_bucket "medium") fs))
  || shows ui "Low" (map PDict (filter (in_bucket "low") fs)) = true ->
  unbound "display_finding" w ->
  exists title,
    findings_list ui (PList (map PDict fs)) (map PDict fs) w
    = (Raised (NameError "display_finding"),
       after 0 [Header ("🔍 Findings ("
                        ++ Text.of_Z (Z.of_nat (List.length fs)) ++ ")");
                Subheader title] w).
Proof.
  intros Hs Hg. unfold findings_list, py_len. rewrite !select_dicts, length_map.
  step.
  destruct (shows ui "High" (map PDict (filter (in_bucket "high") fs))) eqn:Hh.
  { eexists. rewrite show_group_unbound by assumption. settle. reflexivity. }
  rewrite show_group_skipped by assumption.
  destruct (shows ui "Medium" (map PDict (filter (in_bucket "medium") fs))) eqn:Hm.
  { eexists. rewrite show_group_unbound by assumption. settle. reflexivity. }
  rewrite show_group_skipped by assumption.
  cbn [orb] in Hs.
  eexists. rewrite show_group_unbound by assumption. settle. reflexivity.
Qed.

Lemma shows_member (label keyword : string) (fs : list (list (string * value)))
    (f : list (string * value)) :
  In label (severity_filter ui) -> In f fs -> in_bucket keyword f = true ->
  shows ui label (map PDict (filter (in_bucket keyword) fs)) = true.
Proof.
  intros Hl Hf Hb. unfold shows. apply andb_true_iff. split.
  - apply existsb_exists. exists label. split; [exact Hl | apply String.eqb_refl].
  - assert (Hin : In f (filter (in_bucket keyword) fs)) by now apply filter_In.
    destruct (filter (in_bucket keyword) fs); [destruct Hin | reflexivity].
Qed.

(** The results tab on a payload of the documented shape, some selected
    bucket holding a finding, [display_finding] not yet bound. *)
Lemma results_tab_unbound (d : list (string * value))
    (fs : list (list (string * value))) (w : world) :
  results (session w) = PDict d ->
  result_shape (PDict d) = true ->
  lookup "findings" d = Some (PList (map PDict fs)) ->
  shows ui "High" (map PDict (filter (in_bucket "high") fs))
  || shows ui "Medium" (map PDict (filter (in_bucket "medium") fs))
  || shows ui "Low" (map PDict (filter (in_bucket "low") fs)) = true ->
  unbound "display_finding" w ->
  exists evs,
    results_tab ui w
    = (Raised (NameError "display_finding"),
       after 0 (Markdown warning_banner :: evs) w)
    /\ Forall (fun e => forall text, e <> Markdown text) evs.
Proof.
  intros Hr Hshape Hf Hs Hg.
  cbn [result_shape] in Hshape. apply andb_true_iff in Hshape as [Hmi Hfs].
  unfold absent_or in Hfs. rewrite Hf in Hfs. cbn [findings_shape] in Hfs.
  assert (Hne : fs <> []).
  { intros ->. unfold shows in Hs. cbn in Hs. rewrite !andb_false_r in Hs.
    discriminate. }
  assert (Ht : truthy (PDict d) = true).
  { destruct d; [discriminate Hf | reflexivity]. }
  assert (Ht' : truthy (PList (map PDict fs)) = true).
  { destruct fs; [contradiction | reflexivity]. }
  destruct (media_information_runs d (shown [Markdown warning_banner] w) Hmi)
    as (items & _ & Hmedia).
  unfold results_tab, results_body. step. rewrite Hr, Ht. step. rewrite Hmedia. step.
  unfold py_get. rewrite Hf. step. rewrite Ht'. unfold py_iter. step.
  rewrite timeline_overview_runs by assumption. settle.
  match goal with
  | |- context [findings_list ui _ _ ?w0] =>
      destruct (findings_list_unbound fs w0 Hs Hg) as (title & ->)
  end.
  settle. eexists. split; [reflexivity|].
  constructor; [discriminate|]. constructor; [discriminate|].
  rewrite <- app_assoc. rewrite Forall_app. split.
  - apply Forall_forall. intros e Hin.
    apply in_map_iff in Hin as ([idx [k v]] & <- & _). discriminate.
  - cbn [app]. repeat (constructor; [discriminate|]). constructor.
Qed.

End Results.

(** ** The findings list is never rendered *)

Lemma results_head_keeps_globals {I : Interp} (r : value) (fs : list value) :
  keeps_globals (media_information r) /\ keeps_globals (timeline_overview fs).
Proof.
  unfold media_information, timeline_overview, st_metric. split; keeps.
Qed.

(** A bucket can only be computed over findings that are all objects. *)
Lemma select_dicts_only {I : Interp} (keyword : string) (fs group : list value) :
  select keyword fs = Ok group -> exists ds, fs = map PDict ds.
Proof.
  unfold select. revert group. induction fs as [|f fs IH]; intros group H.
  - now exists [].
  - cbn [res_filter] in H. unfold severity_has at 1, py_get in H.
    destruct f as [|b|z|x|s|l|fd]; try discriminate. cbn [res_bind] in H.
    destruct (res_filter (severity_has keyword) fs) as [g|e] eqn:E;
      [|discriminate].
    destruct (IH g eq_refl) as [ds ->]. now exists (fd :: ds).
Qed.

(** C1.  Take any run of the script that gets as far as the findings list:
    the upload tab ends, the session holds a fetched result [r], the media
    information is shown, the findings of [r] are not empty, and the
    timeline overview is shown.  If the severity filter selects a bucket
    that contains a finding, the run ends there by raising [NameError] for
    [display_finding], which the script binds only after the tab; the
    findings list shows its heading and the title of one group, and no
    finding. *)
Theorem findings_display_raises_name_error {I : Interp} (ui : inputs)
    (stored : option session_state) (svc : nat -> reply)
    (w1 w2 w3 : world) (r findings : value) (fs group : list value)
    (label keyword : string) :
  page_top ui (start stored svc) = (Done tt, w1) ->
  results (session w1) = r ->
  truthy r = true ->
  media_information r (shown [Markdown warning_banner] w1) = (Done tt, w2) ->
  py_get r "findings" (PList []) = Ok findings ->
  truthy findings = true ->
  py_iter findings = Ok fs ->
  timeline_overview fs (shown [Divider] w2) = (Done tt, w3) ->
  In (label, keyword) bucket_keywords ->
  In label (severity_filter ui) ->
  select keyword fs = Ok group ->
  group <> [] ->
  fst (run_script ui stored svc) = Raised (NameError "display_finding")
  /\ exists title,
       findings_list ui findings fs w3
       = (Raised (NameError "display_finding"),
          after 0 [Header ("🔍 Findings ("
                           ++ Text.of_Z (Z.of_nat (List.length fs)) ++ ")");
                   Subheader title] w3).
Proof.
  intros Hpage Hr Ht Hmedia Hget Htf Hiter Htime Hk Hl Hsel Hne.
  assert (Hg : unbound "display_finding" w3).
  { unfold unbound.
    replace (globals w3)
      with (globals (snd (timeline_overview fs (shown [Divider] w2))))
      by (rewrite Htime; reflexivity).
    rewrite (proj2 (results_head_keeps_globals r fs)). cbn [globals shown].
    replace (globals w2)
      with (globals (snd (media_information r (shown [Markdown warning_banner] w1))))
      by (rewrite Hmedia; reflexivity).
    rewrite (proj1 (results_head_keeps_globals r fs)). cbn [globals shown].
    replace (globals w1) with (globals (snd (page_top ui (start stored svc))))
      by (rewrite Hpage; reflexivity).
    rewrite page_top_keeps_globals. reflexivity. }
  destruct (select_dicts_only keyword fs group Hsel) as [ds ->].
  rewrite select_dicts in Hsel. injection Hsel as <-.
  assert (Hfind : findings = PList (map PDict ds)).
  { destruct ds as [|fd ds]; [contradiction Hne; reflexivity|].
    destruct findings as [|b|z|x|s|l|d]; try discriminate.
    - cbn [py_iter] in Hiter. injection Hiter as Hiter.
      destruct (Text.chars s); discriminate.
    - cbn [py_iter] in Hiter. now injection Hiter as ->.
    - cbn [py_iter] in Hiter. injection Hiter as Hiter.
      destruct d; discriminate. }
  subst findings.
  assert (Hs : shows ui "High" (map PDict (filter (in_bucket "high") ds))
               || shows ui "Medium" (map PDict (filter (in_bucket "medium") ds))
               || shows ui "Low" (map PDict (filter (in_bucket "low") ds)) = true).
  { assert (Hshow : shows ui label (map PDict (filter (in_bucket keyword) ds)) = true).
    { unfold shows. apply andb_true_iff. split.
      - apply existsb_exists. exists label. split; [exact Hl | apply String.eqb_refl].
      - destruct (filter (in_bucket keyword) ds); [contradiction Hne; reflexivity | reflexivity]. }
    unfold bucket_keywords in Hk.
    destruct Hk as [[= <- <-] | [[= <- <-] | [[= <- <-] | []]]];
      rewrite Hshow; rewrite ?orb_true_r; reflexivity. }
  destruct (findings_list_unbound ui ds w3 Hs Hg) as (title & Hlist).
  rewrite length_map. split; [|exists title; exact Hlist].
  unfold run_script, script. unfold bind at 1. rewrite Hpage.
  unfold bind at 1. unfold results_tab, results_body. step. rewrite Hr, Ht. step.
  rewrite Hmedia. step. rewrite Hget. step. rewrite Htf, Hiter. step.
  rewrite Htime. rewrite Hlist. reflexivity.
Qed.

Lemma findings_display_raises_name_error_witness :
  fst (run_script sample_inputs (Some one_high_finding) (fun _ => healthy))
  = Raised (NameError "display_finding").
Proof.
  pose (w1 := snd (page_top sample_inputs
                     (start (Some one_high_finding) (fun _ => healthy)))).
  pose (w2 := snd (media_information (results one_high_finding)
                     (shown [Markdown warning_banner] w1))).
  pose (fs := [PDict [("type", PStr "FindingType.FRAME_DROP");
                      ("severity", PStr "high")]]).
  pose (w3 := snd (timeline_overview fs (shown [Divider] w2))).
  refine (proj1 (findings_display_raises_name_error sample_inputs
                   (Some one_high_finding) (fun _ => healthy) w1 w2 w3
                   (results one_high_finding) (PList fs) fs fs "High" "high"
                   eq_refl eq_refl eq_refl eq_refl eq_refl eq_refl eq_refl
                   eq_refl _ _ eq_refl _)).
  - cbn. auto.
  - cbn. auto.
  - discriminate.
Defined.

(** ** Defaults for missing fields *)

Section Defaults.
Context {I : Interp}.

Lemma format_fixed_number (digits : nat) (v : value) :
  is_number v = true -> format_fixed digits v = Ok (host_fixed digits v).
Proof.
  destruct v; try discriminate; [|reflexivity].
  cbn [is_number format_fixed]. intros ->. reflexivity.
Qed.

Lemma format_location_runs (location : value) :
  location_shape location = true ->
  exists loc_str, format_location location = Ok loc_str.
Proof.
  destruct location as [|b|z|x|s|l|loc]; try discriminate.
  cbn [location_shape]. unfold absent_or. intros H.
  apply andb_true_iff in H as [H Hframes]. apply andb_true_iff in H as [Hstart Hend].
  unfold format_location, py_in, py_index.
  destruct (lookup "start" loc) as [start|]; cbn [res_bind andb].
  - destruct (lookup "end" loc) as [end_|]; cbn [res_bind andb].
    + rewrite !format_fixed_number by assumption. cbn [res_bind]. eauto.
    + destruct (lookup "frames" loc) as [[|b|z|x|s|frames|fd]|];
        try discriminate; cbn [res_bind py_slice_to py_iter py_len]; eauto.
  - destruct (lookup "frames" loc) as [[|b|z|x|s|frames|fd]|];
      try discriminate; cbn [res_bind py_slice_to py_iter py_len]; eauto.
Qed.

(** [display_finding] on a finding of the documented shape: it runs
    through and shows one card, then the metrics if there are any; the
    card carries the default of each field the finding lacks. *)
Lemma display_finding_runs (fd : list (string * value)) (severity : string)
    (w : world) :
  finding_shape (PDict fd) = true ->
  exists finding_type loc_str metrics,
    display_finding (PDict fd) severity w
    = (Done tt,
       after 0 (Markdown (finding_card severity finding_type loc_str
                            (py_str (or_default "explanation" (PStr "") fd)))
                :: metrics) w)
    /\ (lookup "type" fd = None -> finding_type = "Unknown")
    /\ (lookup "location" fd = None -> loc_str = "N/A")
    /\ (lookup "metrics" fd = None -> metrics = []).
Proof.
  cbn [finding_shape]. unfold absent_or. intros H.
  apply andb_true_iff in H as [H Hmetrics]. apply andb_true_iff in H as [Htype Hloc].
  assert (Ht : exists t, or_default "type" (PStr "Unknown") fd = PStr t
                         /\ (lookup "type" fd = None -> t = "Unknown")).
  { unfold or_default. destruct (lookup "type" fd) as [[|b|z|x|t|l|d]|];
      try discriminate; eexists; split; try reflexivity; try discriminate; auto. }
  destruct Ht as (t & Ht & Ht0).
  assert (Hl : exists loc_str,
             format_location (or_default "location" (PDict []) fd) = Ok loc_str
             /\ (lookup "location" fd = None -> loc_str = "N/A")).
  { unfold or_default. destruct (lookup "location" fd) as [loc|].
    - destruct (format_location_runs loc Hloc) as [s Hs]. exists s.
      split; [exact Hs | discriminate].
    - exists "N/A". split; reflexivity. }
  destruct Hl as (loc_str & Hl & Hl0).
  assert (Hm : exists items, or_default "metrics" (PDict []) fd = PDict items
                             /\ forallb (fun item => is_scalar (snd item)) items
                                = true
                             /\ (lookup "metrics" fd = None -> items = [])).
  { unfold or_default. destruct (lookup "metrics" fd) as [[|b|z|x|s|l|items]|];
      try discriminate; eexists; (split; [reflexivity|]);
      (split; [first [exact Hmetrics | reflexivity]|]);
      try discriminate; auto. }
  destruct Hm as (items & Hm & Hv & Hm0).
  exists (Text.replace "_" " " (Text.replace "FindingType." "" t)), loc_str,
    (match items with
     | [] => []
     | _ => [Expander "📊 View Metrics"; Columns 3]
            ++ map finding_metric (enumerate items)
     end)%list.
  split; [|split; [|split]].
  - unfold display_finding. unfold py_get.
    fold (or_default "type" (PStr "Unknown") fd).
    fold (or_default "location" (PDict []) fd).
    fold (or_default "explanation" (PStr "") fd).
    fold (or_default "metrics" (PDict []) fd).
    rewrite Ht, Hm. step. cbn [py_replace]. step. rewrite Hl. step.
    cbn [py_str truthy]. destruct items as [|item items].
    + step. settle. reflexivity.
    + step. unfold py_items. step.
      rewrite (for_each_emits finding_metric).
      * settle. reflexivity.
      * intros [idx [key v]] w0 Hin. apply enumerated_item in Hin.
        rewrite forallb_forall in Hv. specialize (Hv _ Hin). cbn [snd] in Hv.
        unfold show_metric, bind. rewrite st_metric_shows; [reflexivity|].
        destruct v; try discriminate; reflexivity.
  - intros H. rewrite (Ht0 H). reflexivity.
  - exact Hl0.
  - intros H. rewrite (Hm0 H). reflexivity.
Qed.

End Defaults.

(** Values outside that shape: a list among the media information makes
    [st.metric] raise, and an integer [start] beyond the doubles makes the
    two-decimal format raise. *)
Lemma unshowable_values_raise :
  fst (media_information
         (PDict [("media_info",
                  PDict [("resolution", PList [PInt 1920; PInt 1080])])])
         (start None (fun _ => healthy)))
  = Raised (TypeError
              ("'[1920, 1080]' is of type <class 'list'>, which is not an accepted type."
               ++ " value only accepts: int, float, str, or None."
               ++ " Please convert the value to an accepted type."))
  /\ format_location (PDict [("start", PInt (2 ^ 1024)); ("end", PInt 1)])
     = Err (OverflowError "int too large to convert to float")
  /\ result_shape
       (PDict [("media_info",
                PDict [("resolution", PList [PInt 1920; PInt 1080])])])
     = false.
Proof. vm_compute. repeat split. Qed.

(** C9, as the code has it.  For a result payload of the documented shape
    (any field may be absent; see [result_shape]) nothing in the
    normalization raises: the media information, the timeline entries, the
    three buckets and [display_finding] on each finding all run through.
    The defaults are the documented ones: without [media_info] no metric
    is shown; without [findings] the body of the results tab reports that
    no anomalies were found; a finding
    without [severity] is matched as the empty string, and its card shows
    [Unknown] for a missing [type], [N/A] for a missing [location], the
    empty text for a missing [explanation] and no metrics for missing
    [metrics]. *)
Theorem missing_fields_get_defaults {I : Interp} (ui : inputs)
    (d : list (string * value)) (w : world) :
  result_shape (PDict d) = true ->
  (exists items,
      media_information (PDict d) w
      = (Done tt,
         after 0 ([Header "📊 Media Information"; Columns 4]
                  ++ map media_metric (enumerate items)) w)
      /\ (lookup "media_info" d = None -> items = []))
  /\ (lookup "findings" d = None ->
      exists evs,
        results_body ui (PDict d) w
        = (Done tt,
           after 0 (evs ++ [Notice Success
                              "✅ No anomalies detected - media appears consistent"])
                 w))
  /\ (forall fs,
        lookup "findings" d = Some (PList fs) ->
        (exists entries, res_map timeline_entry fs = Ok entries)
        /\ (forall keyword, exists group, select keyword fs = Ok group)
        /\ (forall f,
              In f fs ->
              exists fd,
                f = PDict fd
                /\ (lookup "severity" fd = None ->
                    forall keyword,
                      severity_has keyword f = Ok (Text.contains keyword ""))
                /\ (forall severity w',
                      exists finding_type loc_str explanation metrics,
                        display_finding f severity w'
                        = (Done tt,
                           after 0 (Markdown (finding_card severity finding_type
                                                loc_str explanation)
                                    :: metrics) w')
                        /\ (lookup "type" fd = None -> finding_type = "Unknown")
                        /\ (lookup "location" fd = None -> loc_str = "N/A")
                        /\ (lookup "explanation" fd = None -> explanation = "")
                        /\ (lookup "metrics" fd = None -> metrics = [])))).
Proof.
  intros Hshape. cbn [result_shape] in Hshape.
  apply andb_true_iff in Hshape as [Hmi Hfs].
  assert (Hmedia : forall w0,
             exists items,
               media_information (PDict d) w0
               = (Done tt,
                  after 0 ([Header "📊 Media Information"; Columns 4]
                           ++ map media_metric (enumerate items)) w0)
               /\ (lookup "media_info" d = None -> items = [])).
  { intros w0. destruct (media_information_runs d w0 Hmi) as (items & Hd & Hrun).
    exists items. split; [exact Hrun|]. intros Hnone.
    unfold or_default in Hd. rewrite Hnone in Hd. now injection Hd. }
  split; [apply Hmedia|]. split.
  - intros Hnone.
    destruct (Hmedia (shown [Markdown warning_banner] w)) as (items & Hrun & _).
    unfold results_body. step. rewrite Hrun. step. unfold py_get.
    rewrite Hnone. step. cbn [truthy]. step. settle.
    exists ([Markdown warning_banner; Header "📊 Media Information"; Columns 4]
            ++ map media_metric (enumerate items) ++ [Divider])%list.
    rewrite <- !app_assoc. reflexivity.
  - intros fs Hf. unfold absent_or in Hfs. rewrite Hf in Hfs.
    cbn [findings_shape] in Hfs.
    split; [now apply timeline_runs|]. split.
    + intros keyword. destruct (shaped_findings_are_dicts fs Hfs) as [ds ->].
      rewrite select_dicts. eauto.
    + intros f Hin. rewrite forallb_forall in Hfs. specialize (Hfs f Hin).
      destruct f as [|b|z|x|s|l|fd]; try discriminate.
      exists fd. split; [reflexivity|]. split.
      * intros Hnone keyword. unfold severity_has, py_get. rewrite Hnone.
        reflexivity.
      * intros severity w'.
        destruct (display_finding_runs fd severity w' Hfs)
          as (ft & loc & ms & Hrun & Ht & Hl & Hm).
        exists ft, loc, (py_str (or_default "explanation" (PStr "") fd)), ms.
        repeat split; try assumption.
        intros Hnone. unfold or_default. rewrite Hnone. reflexivity.
Qed.

(** A finding with every field missing. *)
Lemma missing_fields_get_defaults_witness :
  emitted (display_finding (PDict []) "low") (start None (fun _ => healthy))
  = [Markdown (finding_card "low" "Unknown" "N/A" "")].
Proof.
  destruct (missing_fields_get_defaults sample_inputs
              [("findings", PList [PDict []])]
              (start None (fun _ => healthy)) eq_refl) as (_ & _ & H).
  destruct (H [PDict []] eq_refl) as (_ & _ & Hf).
  destruct (Hf (PDict []) (or_introl eq_refl)) as (fd & Hfd & _ & Hshow).
  injection Hfd as <-.
  destruct (Hshow "low" (start None (fun _ => healthy)))
    as (ft & loc & ex & ms & Hrun & Ht & Hl & He & Hm).
  apply emitted_trace. rewrite Hrun.
  rewrite (Ht eq_refl), (Hl eq_refl), (He eq_refl), (Hm eq_refl). reflexivity.
Defined.

(** On it the timeline loop raises, [display_finding] itself would raise,
    and so the run of the script ends with an [AttributeError]. *)
Lemma null_location_raises :
  timeline_entry null_location = Err (AttributeError "NoneType" "get")
  /\ fst (display_finding null_location "high" (start None (fun _ => healthy)))
     = Raised (TypeError "argument of type 'NoneType' is not iterable")
  /\ fst (run_script sample_inputs (Some null_location_result)
            (fun _ => healthy))
     = Raised (AttributeError "NoneType" "get").
Proof. vm_compute. repeat split. Qed.

(** * Further properties *)

(** ** Submitting and polling, end to end *)

Section Submission.
Context {I : Interp}.
Variable ui : inputs.

Lemma world_eq (w1 w2 : world) :
  session w1 = session w2 -> globals w1 = globals w2 ->
  service w1 = service w2 -> calls w1 = calls w2 -> trace w1 = trace w2 ->
  w1 = w2.
Proof. destruct w1, w2; cbn; intros; subst; reflexivity. Qed.

Lemma with_session_after (s : session_state) (n : nat) (evs : list event)
    (w : world) :
  after n evs (with_session s w) = with_session s (after n evs w).
Proof. reflexivity. Qed.

(** The completed branch when the result fetch brings a 200 with a JSON
    body: the result is stored and the run restarts. *)
Lemma on_status_stores (t : option Z) (a : Z) (resp result : response)
    (w : world) (d : list (string * value)) (v : value) :
  json_body resp = Some (PDict d) ->
  lookup "status" d = Some (PStr "completed") ->
  service w (calls w) = Responds result ->
  status_code result = 200 -> json_body result = Some v ->
  on_status ui t a resp w
  = (Rerun,
     with_result v
       (after 1 [ProgressBar 100; StatusText Success "✅ Analysis complete!";
                 Request (result_request ui t w)] w)).
Proof.
  intros Hj Hs Hr Hc Hv.
  unfold on_status, json, py_index. rewrite Hj. step. rewrite Hs. step.
  unfold py_eq_str. cbn [String.eqb Ascii.eqb Bool.eqb].
  unfold analysis_completed, job_endpoint, requests_get, send. step.
  cbn [session shown service calls]. rewrite Hr, Hc. cbn [Z.eqb Pos.eqb].
  unfold json. rewrite Hv.
  unfold set_results, set_analysis_complete, set_session, rerun. step.
  f_equal. apply world_eq; cbn; try reflexivity; [lia|].
  rewrite <- !app_assoc. reflexivity.
Qed.

End Submission.

(** X4.  When a status poll reports [completed] and the result fetch that
    follows brings a 200 with a JSON body, either loop stores that body as
    the session's result, marks the analysis complete, keeps the job
    identifier and restarts the run. *)
Theorem completed_result_is_stored {I : Interp} (ui : inputs) (w : world)
    (result : response) (v : value) :
  reports "completed" (service w (calls w)) = true ->
  service w (S (calls w)) = Responds result ->
  status_code result = 200 ->
  json_body result = Some v ->
  video_poll ui w
  = (Rerun,
     with_result v
       (after 2 ([ProgressBar 0; Placeholder]
                 ++ completed_events ui (Some 5) w) w))
  /\ image_poll ui w
     = (Rerun,
        with_result v
          (after 2 ([ProgressBar 0; Placeholder]
                    ++ completed_events ui None w) w)).
Proof.
  intros Hrep Hr Hc Hv.
  destruct (reports_inv _ _ Hrep) as (resp & d & Hr0 & Hc0 & Hj & Hs).
  split.
  - unfold video_poll, poll. step.
    change (range max_attempts) with (0 :: map Z.of_nat (seq 1 149)).
    cbn [for_each]. unfold video_attempt at 1, job_endpoint, requests_get, send.
    step. cbn [service calls shown session]. rewrite Hr0, Hc0.
    cbn [Z.eqb Pos.eqb].
    rewrite (on_status_stores ui (Some 5) 0 resp result _ d v Hj Hs); trivial.
    f_equal. apply world_eq; cbn; try reflexivity; [lia|].
    rewrite <- !app_assoc. reflexivity.
  - unfold image_poll, poll. step.
    change (range max_attempts) with (0 :: map Z.of_nat (seq 1 149)).
    cbn [for_each]. unfold image_attempt at 1, job_endpoint, requests_get, send.
    step. cbn [service calls shown session]. rewrite Hr0, Hc0.
    cbn [Z.eqb Pos.eqb].
    rewrite (on_status_stores ui None 0 resp result _ d v Hj Hs); trivial.
    f_equal. apply world_eq; cbn; try reflexivity; [lia|].
    rewrite <- !app_assoc. reflexivity.
Qed.

Lemma completed_result_is_stored_witness :
  let w := start (Some polling_session)
             (fun n => match n with
                       | 0%nat => json_reply [("status", PStr "completed")]
                       | _ => json_reply [("findings", PList [])]
                       end) in
  session (snd (video_poll sample_inputs w))
  = {| job_id := PStr "abc123"; results := PDict [("findings", PList [])];
       analysis_complete := true |}
  /\ fst (image_poll sample_inputs w) = Rerun.
Proof.
  intros w.
  destruct (completed_result_is_stored sample_inputs w _ _
              eq_refl eq_refl eq_refl eq_refl) as [V P].
  rewrite V, P. split; reflexivity.
Defined.

Ltac same_world :=
  f_equal; apply world_eq; cbn; try reflexivity; try lia;
  rewrite <- ?app_assoc; try reflexivity.

Section Handlers.
Context {I : Interp}.
Variable ui : inputs.

Lemma analysis_started_runs (d : list (string * value)) (job : string)
    (w : world) :
  lookup "job_id" d = Some (PStr job) ->
  analysis_started (PDict d) w
  = (Done tt, with_job (PStr job) (after 0 [started_notice job] w)).
Proof.
  intros H. unfold analysis_started, py_index. rewrite H. step.
  unfold set_job_id, set_session. step. cbn [py_slice_to py_str]. step.
  same_world.
Qed.

End Handlers.

(** X5.  An upload the service answers with a status code other than 200 is
    reported with that code; nothing is polled and the session keeps the
    job identifier and the result it had. *)
Theorem rejected_upload_is_reported {I : Interp} (ui : inputs) (f : file)
    (w : world) (resp : response) :
  service w (calls w) = Responds resp ->
  status_code resp <> 200 ->
  analyze_video ui f w
  = (Done tt,
     after 1 [Spinner "Uploading and analyzing...";
              Request (video_submission ui f);
              Notice Error
                ("Upload failed: " ++ Text.of_Z (status_code resp))] w)
  /\ analyze_images ui w
     = (Done tt,
        after 1 [Spinner "Uploading and analyzing...";
                 Request (image_submission ui);
                 Notice Error
                   ("Upload failed: " ++ Text.of_Z (status_code resp))] w).
Proof.
  intros Hr Hc. split.
  - unfold analyze_video, try_except, requests_post, send. step.
    cbn [service calls shown]. rewrite Hr.
    destruct (Z.eqb_spec (status_code resp) 200) as [E|_]; [contradiction|].
    step. same_world.
  - unfold analyze_images, try_except, requests_post, send. step.
    cbn [service calls shown]. rewrite Hr.
    destruct (Z.eqb_spec (status_code resp) 200) as [E|_]; [contradiction|].
    step. same_world.
Qed.

Lemma rejected_upload_is_reported_witness :
  notices Error
    (emitted (analyze_video sample_inputs clip)
             (start None (fun _ => http_error 413)))
  = ["Upload failed: 413"].
Proof.
  destruct (rejected_upload_is_reported sample_inputs clip
              (start None (fun _ => http_error 413)) _ eq_refl
              ltac:(discriminate)) as [V _].
  unfold emitted. rewrite V. reflexivity.
Defined.

(** X6.  An accepted upload whose JSON object has no [job_id] ends in the
    handler's error message [Error: 'job_id']: nothing is polled and the
    session is left as it was. *)
Theorem upload_without_job_id {I : Interp} (ui : inputs) (f : file)
    (w : world) (resp : response) (d : list (string * value)) :
  service w (calls w) = Responds resp ->
  status_code resp = 200 ->
  json_body resp = Some (PDict d) ->
  lookup "job_id" d = None ->
  analyze_video ui f w
  = (Done tt,
     after 1 [Spinner "Uploading and analyzing...";
              Request (video_submission ui f);
              Notice Error "Error: 'job_id'"] w)
  /\ analyze_images ui w
     = (Done tt,
        after 1 [Spinner "Uploading and analyzing...";
                 Request (image_submission ui);
                 Notice Error "Error: 'job_id'"] w).
Proof.
  intros Hr Hc Hj Hd. split.
  - unfold analyze_video, try_except, requests_post, send. step.
    cbn [service calls shown]. rewrite Hr, Hc. cbn [Z.eqb Pos.eqb].
    unfold json. rewrite Hj. step. unfold analysis_started, py_index.
    rewrite Hd. step. same_world.
  - unfold analyze_images, try_except, requests_post, send. step.
    cbn [service calls shown]. rewrite Hr, Hc. cbn [Z.eqb Pos.eqb].
    unfold json. rewrite Hj. step. unfold analysis_started, py_index.
    rewrite Hd. step. same_world.
Qed.

Lemma upload_without_job_id_witness :
  let w := start (Some polling_session) (fun _ => json_reply [("id", PInt 7)]) in
  notices Error (emitted (analyze_video sample_inputs clip) w)
  = ["Error: 'job_id'"]
  /\ session (snd (analyze_video sample_inputs clip w)) = polling_session.
Proof.
  intros w.
  destruct (upload_without_job_id sample_inputs clip w _ _
              eq_refl eq_refl eq_refl eq_refl) as [V _].
  unfold emitted. rewrite V. split; reflexivity.
Defined.

(** X7.  An accepted upload whose [job_id] is a number: the identifier is
    stored in the session before the message that slices it raises, so
    the session holds the new identifier although nothing is polled; the
    handler shows [Error: 'int' object is not subscriptable]. *)
Theorem numeric_job_id_is_stored {I : Interp} (ui : inputs) (f : file)
    (w : world) (resp : response) (d : list (string * value)) (n : Z) :
  service w (calls w) = Responds resp ->
  status_code resp = 200 ->
  json_body resp = Some (PDict d) ->
  lookup "job_id" d = Some (PInt n) ->
  analyze_video ui f w
  = (Done tt,
     with_job (PInt n)
       (after 1 [Spinner "Uploading and analyzing...";
                 Request (video_submission ui f);
                 Notice Error "Error: 'int' object is not subscriptable"] w)).
Proof.
  intros Hr Hc Hj Hd.
  unfold analyze_video, try_except, requests_post, send. step.
  cbn [service calls shown]. rewrite Hr, Hc. cbn [Z.eqb Pos.eqb].
  unfold json. rewrite Hj. step. unfold analysis_started, py_index.
  rewrite Hd. step. unfold set_job_id, set_session. step.
  cbn [py_slice_to]. step. same_world.
Qed.

Lemma numeric_job_id_is_stored_witness :
  let w := start (Some polling_session) (fun _ => json_reply [("job_id", PInt 42)]) in
  job_id (session (snd (analyze_video sample_inputs clip w))) = PInt 42
  /\ requests_in (emitted (analyze_video sample_inputs clip) w)
     = [video_submission sample_inputs clip].
Proof.
  intros w.
  pose proof (numeric_job_id_is_stored sample_inputs clip w _ _ 42
                eq_refl eq_refl eq_refl eq_refl) as V.
  unfold emitted. rewrite V. split; reflexivity.
Defined.

(** X8.  After an accepted upload, a status poll that fails in transport
    (connection failure, timeout) ends the analysis with the handler's
    message [Error: ] followed by the exception's text; the new job
    identifier stays in the session. *)
Theorem poll_failure_is_reported {I : Interp} (ui : inputs) (f : file)
    (w : world) (resp : response) (d : list (string * value))
    (job msg : string) :
  service w (calls w) = Responds resp ->
  status_code resp = 200 ->
  json_body resp = Some (PDict d) ->
  lookup "job_id" d = Some (PStr job) ->
  service w (S (calls w)) = Fails msg ->
  analyze_video ui f w
  = (Done tt,
     with_job (PStr job)
       (after 2 [Spinner "Uploading and analyzing...";
                 Request (video_submission ui f);
                 started_notice job;
                 ProgressBar 0; Placeholder;
                 Request {| method := GET;
                            url := API_BASE_URL ui ++ "/api/job/" ++ job;
                            timeout := Some 5; files := []; data := [] |};
                 Notice Error ("Error: " ++ msg)] w))
  /\ analyze_images ui w
     = (Done tt,
        with_job (PStr job)
          (after 2 [Spinner "Uploading and analyzing...";
                    Request (image_submission ui);
                    started_notice job;
                    ProgressBar 0; Placeholder;
                    Request {| method := GET;
                               url := API_BASE_URL ui ++ "/api/job/" ++ job;
                               timeout := None; files := []; data := [] |};
                    Notice Error ("Error: " ++ msg)] w)).
Proof.
  intros Hr Hc Hj Hd Hf. split.
  - unfold analyze_video, try_except, requests_post, send. step.
    cbn [service calls shown]. rewrite Hr, Hc. cbn [Z.eqb Pos.eqb].
    unfold json. rewrite Hj. step.
    rewrite (analysis_started_runs d job) by exact Hd.
    match goal with
    | |- context [video_poll ui ?w0] =>
        destruct (poll_raises_on_transport_failure ui w0 msg) as [-> _];
        [cbn [service calls with_job with_session after called shown];
         rewrite Nat.add_0_r; exact Hf|]
    end.
    step. same_world.
  - unfold analyze_images, try_except, requests_post, send. step.
    cbn [service calls shown]. rewrite Hr, Hc. cbn [Z.eqb Pos.eqb].
    unfold json. rewrite Hj. step.
    rewrite (analysis_started_runs d job) by exact Hd.
    match goal with
    | |- context [image_poll ui ?w0] =>
        destruct (poll_raises_on_transport_failure ui w0 msg) as [_ ->];
        [cbn [service calls with_job with_session after called shown];
         rewrite Nat.add_0_r; exact Hf|]
    end.
    step. same_world.
Qed.

Lemma poll_failure_is_reported_witness :
  let w := start None
             (fun n => match n with
                       | 0%nat => accepted
                       | _ => Fails "Connection refused"
                       end) in
  notices Error (emitted (analyze_video sample_inputs clip) w)
  = ["Error: Connection refused"]
  /\ job_id (session (snd (analyze_images (image_inputs two_frames) w)))
     = PStr "abc123".
Proof.
  intros w.
  destruct (poll_failure_is_reported sample_inputs clip w _ _ "abc123"
              "Connection refused" eq_refl eq_refl eq_refl eq_refl eq_refl)
    as [V _].
  destruct (poll_failure_is_reported (image_inputs two_frames) clip w _ _
              "abc123" "Connection refused" eq_refl eq_refl eq_refl eq_refl
              eq_refl) as [_ P].
  unfold emitted. rewrite V, P. split; reflexivity.
Defined.

(** ** What no run does *)

Section Safe.






End Safe.


Section Thumbnails.
Context {I : Interp}.
Variable ui : inputs.






End Thumbnails.



Section Result.
Context {I : Interp}.
Variable ui : inputs.

Lemma kr_ret {A} (a : A) : keeps_result (ret a).
Proof. intros w. right. split; reflexivity. Qed.

Lemma kr_raise {A} (e : exn) : keeps_result (@raise A e).
Proof. intros w. right. split; reflexivity. Qed.

Lemma kr_lift {A} (r : res A) : keeps_result (lift r).
Proof. destruct r; [apply kr_ret | apply kr_raise]. Qed.

Lemma kr_emit (e : event) : keeps_result (emit e).
Proof. intros w. right. split; reflexivity. Qed.

Lemma kr_get_session : keeps_result get_session.
Proof. intros w. right. split; reflexivity. Qed.

Lemma kr_define (fname : string) : keeps_result (define fname).
Proof. intros w. right. split; reflexivity. Qed.

Lemma kr_send (r : request) : keeps_result (send r).
Proof.
  intros w. right. unfold send. destruct (service w (calls w)); split; reflexivity.
Qed.

Lemma kr_json (r : response) : keeps_result (json r).
Proof. unfold json. destruct (json_body r); [apply kr_ret | apply kr_raise]. Qed.

Lemma kr_set_job_id (j : value) : keeps_result (set_job_id j).
Proof. intros w. right. split; reflexivity. Qed.

Lemma kr_bind {A B} (m : M A) (k : A -> M B) :
  keeps_result m -> (forall a, keeps_result (k a)) -> keeps_result (bind m k).
Proof.
  intros Hm Hk w. unfold bind. specialize (Hm w).
  destruct (m w) as [[a|e|] w']; cbn [fst snd] in *;
    [|destruct Hm as [Hm|Hm]; [discriminate | now right]|now left].
  destruct Hm as [Hm|[Hr Hc]]; [discriminate|].
  destruct (Hk a w') as [H|[Hr' Hc']]; [now left|].
  right. split; congruence.
Qed.

Lemma kr_try {A} (m : M A) (h : exn -> M A) :
  keeps_result m -> (forall e, keeps_result (h e)) ->
  keeps_result (try_except m h).
Proof.
  intros Hm Hh w. unfold try_except. specialize (Hm w).
  destruct (m w) as [[a|e|] w']; cbn [fst snd] in *; [exact Hm| |now left].
  destruct Hm as [Hm|[Hr Hc]]; [discriminate|].
  destruct (Hh e w') as [H|[Hr' Hc']]; [now left|].
  right. split; congruence.
Qed.

Lemma kr_for_each {A} (xs : list A) (body : A -> M control) :
  (forall x, keeps_result (body x)) -> keeps_result (for_each xs body).
Proof.
  intros Hb. induction xs as [|x xs IH]; [apply kr_ret|].
  cbn [for_each]. apply kr_bind; [apply Hb|].
  intros [|]; [exact IH | apply kr_ret].
Qed.

Lemma kr_call (fname : string) (body : M unit) :
  keeps_result body -> keeps_result (call fname body).
Proof.
  intros H w. unfold call. destruct (existsb _ _); [apply H|].
  right. split; reflexivity.
Qed.

(** The result is written only on the way to [st.rerun()]. *)
Lemma kr_analysis_completed (t : option Z) :
  keeps_result (analysis_completed ui t).
Proof.
  intros w. unfold analysis_completed, job_endpoint, requests_get, send. step.
  cbn [service calls shown].
  destruct (service w (calls w)) as [r|msg]; [|right; split; reflexivity].
  destruct (status_code r =? 200); [|right; split; reflexivity].
  unfold json. destruct (json_body r) as [v|]; [|right; split; reflexivity].
  left. reflexivity.
Qed.

End Result.

Ltac keeping :=
  repeat first
    [ apply kr_ret | apply kr_raise | apply kr_lift | apply kr_emit
    | apply kr_get_session | apply kr_define | apply kr_send | apply kr_json
    | apply kr_set_job_id | apply kr_analysis_completed
    | apply kr_call
    | apply kr_for_each; intros ?
    | apply kr_bind; [|intros ?]
    | apply kr_try; [|intros ?]
    | match goal with
      | |- keeps_result (if ?c then _ else _) => destruct c
      | |- keeps_result (match ?x with _ => _ end) => destruct x
      end ].

(** X10.  In every run of the script the stored result and the completion flag
    are either left exactly as the run found them, or the run ends by
    restarting ([st.rerun()]) right after a result fetch succeeded: no
    failed or unfinished analysis overwrites an earlier result. *)
Theorem result_survives_unless_rerun {I : Interp} (ui : inputs)
    (stored : session_state) (svc : nat -> reply) :
  let run := run_script ui (Some stored) svc in
  fst run = Rerun
  \/ (results (session (snd run)) = results stored
      /\ analysis_complete (session (snd run)) = analysis_complete stored).
Proof.
  assert (H : keeps_result (script ui)).
  { unfold script, page_top, sidebar, api_status, upload_tab, video_upload,
      image_upload, analyze_video, analyze_images, analysis_started,
      video_poll, image_poll, poll, video_attempt, image_attempt, on_status,
      analysis_failed, still_processing, job_endpoint, requests_get,
      requests_post, sleep, results_tab, results_body, media_information,
      timeline_overview,
      findings_list, show_group, display_finding, show_metric, export_results,
      export_name,
    st_image, st_metric.
    keeping. }
  exact (H (start (Some stored) svc)).
Qed.

Section Quiet.

Lemma snf_nothing {A} (m : M A) :
  (forall w, snd (m w) = w) -> shows_no_finding m.
Proof.
  intros H w Hu. exists []. rewrite H, app_nil_r. repeat split; trivial.
Qed.

Lemma snf_ret {A} (a : A) : shows_no_finding (ret a).
Proof. now apply snf_nothing. Qed.

Lemma snf_raise {A} (e : exn) : shows_no_finding (@raise A e).
Proof. now apply snf_nothing. Qed.

Lemma snf_rerun {A} : shows_no_finding (@rerun A).
Proof. now apply snf_nothing. Qed.

Lemma snf_lift {A} (r : res A) : shows_no_finding (lift r).
Proof. destruct r; [apply snf_ret | apply snf_raise]. Qed.

Lemma snf_get_session : shows_no_finding get_session.
Proof. now apply snf_nothing. Qed.

Lemma snf_json (r : response) : shows_no_finding (json r).
Proof. unfold json. destruct (json_body r); [apply snf_ret | apply snf_raise]. Qed.

Lemma snf_set_session (s : session_state) : shows_no_finding (set_session s).
Proof. intros w Hu. exists []. cbn. rewrite app_nil_r. repeat split; trivial. Qed.

Lemma snf_emit (e : event) : not_a_finding e -> shows_no_finding (emit e).
Proof.
  intros H w Hu. exists [e]. cbn. repeat split; trivial. now constructor.
Qed.

Lemma snf_send (r : request) : shows_no_finding (send r).
Proof.
  intros w Hu. exists [Request r]. unfold send.
  destruct (service w (calls w)); cbn; repeat split; trivial;
    now repeat constructor.
Qed.

(** Calling [display_finding] while it is unbound raises at once, whatever
    its body would do. *)
Lemma snf_call (body : M unit) : shows_no_finding (call "display_finding" body).
Proof.
  intros w Hu. exists []. unfold call. unfold unbound in Hu. rewrite Hu.
  cbn. rewrite app_nil_r. repeat split; trivial.
Qed.

Lemma snf_bind {A B} (m : M A) (k : A -> M B) :
  shows_no_finding m -> (forall a, shows_no_finding (k a)) ->
  shows_no_finding (bind m k).
Proof.
  intros Hm Hk w Hu. unfold bind. destruct (Hm w Hu) as (e1 & H1 & F1 & U1).
  destruct (m w) as [[a|e|] w']; cbn [snd] in *; eauto.
  destruct (Hk a w' U1) as (e2 & H2 & F2 & U2). exists (e1 ++ e2)%list.
  rewrite H2, H1, app_assoc. repeat split; trivial. now apply Forall_app.
Qed.

Lemma snf_try {A} (m : M A) (h : exn -> M A) :
  shows_no_finding m -> (forall e, shows_no_finding (h e)) ->
  shows_no_finding (try_except m h).
Proof.
  intros Hm Hh w Hu. unfold try_except. destruct (Hm w Hu) as (e1 & H1 & F1 & U1).
  destruct (m w) as [[a|e|] w']; cbn [snd] in *; eauto.
  destruct (Hh e w' U1) as (e2 & H2 & F2 & U2). exists (e1 ++ e2)%list.
  rewrite H2, H1, app_assoc. repeat split; trivial. now apply Forall_app.
Qed.

Lemma snf_for_each {A} (xs : list A) (body : A -> M control) :
  (forall x, shows_no_finding (body x)) -> shows_no_finding (for_each xs body).
Proof.
  intros Hb. induction xs as [|x xs IH]; [apply snf_ret|].
  cbn [for_each]. apply snf_bind; [apply Hb|].
  intros [|]; [exact IH | apply snf_ret].
Qed.

End Quiet.

Ltac quietly :=
  repeat first
    [ apply snf_ret | apply snf_raise | apply snf_rerun | apply snf_lift
    | apply snf_get_session | apply snf_set_session | apply snf_json
    | apply snf_send | apply snf_call
    | apply snf_emit; cbn [not_a_finding page_markdown In];
      solve [ exact Logic.I | auto ]
    | apply snf_for_each; intros ?
    | apply snf_bind; [|intros ?]
    | apply snf_try; [|intros ?]
    | match goal with
      | |- shows_no_finding (if ?c then _ else _) => destruct c
      | |- shows_no_finding (match ?x with _ => _ end) => destruct x
      end ].

Lemma tabs_show_no_finding {I : Interp} (ui : inputs) :
  shows_no_finding (page_top ui ;; results_tab ui).
Proof.
  unfold page_top, sidebar, api_status, upload_tab, video_upload,
    image_upload, analyze_video, analyze_images, analysis_started,
    video_poll, image_poll, poll, video_attempt, image_attempt, on_status,
    analysis_completed, analysis_failed, still_processing, job_endpoint,
    set_job_id, set_results, set_analysis_complete, requests_get,
    requests_post, sleep, results_tab, results_body, media_information,
    timeline_overview,
    findings_list, show_group, export_results, export_name,
    st_image, st_metric.
  quietly.
Qed.

(** A finding card is none of the page's own markdown blocks. *)
Lemma card_is_not_page_markdown (severity finding_type loc_str explanation : string) :
  ~ In (finding_card severity finding_type loc_str explanation) page_markdown.
Proof.
  unfold page_markdown, finding_card, warning_banner.
  intros [H|[H|[H|[]]]]; cbn in H; discriminate.
Qed.

(** X11.  No run of the script ever shows a finding: whatever the inputs, the
    stored session and the replies, the trace holds no finding card and no
    metrics expander, because [display_finding] is bound only after the
    last place that calls it. *)
Theorem no_finding_is_ever_shown {I : Interp} (ui : inputs)
    (stored : option session_state) (svc : nat -> reply) :
  let shown_events := trace (snd (run_script ui stored svc)) in
  (forall severity finding_type loc_str explanation,
      ~ In (Markdown (finding_card severity finding_type loc_str explanation))
           shown_events)
  /\ (forall label, ~ In (Expander label) shown_events).
Proof.
  assert (F : Forall not_a_finding (trace (snd (run_script ui stored svc)))).
  { unfold run_script, script.
    destruct (tabs_show_no_finding ui (start stored svc) eq_refl)
      as (evs & Ht & Fe & _).
    assert (E : forall w,
               (page_top ui ;; results_tab ui ;; define "display_finding" ;;
                emit Divider ;;
                emit (Caption "🎬 Frame Analysis System | Powered by Advanced Computer Vision")) w
               = ((page_top ui ;; results_tab ui) ;; define "display_finding" ;;
                  emit Divider ;;
                  emit (Caption "🎬 Frame Analysis System | Powered by Advanced Computer Vision")) w).
    { intros w. unfold bind. destruct (page_top ui w) as [[[]|e|] w1]; trivial. }
    rewrite E. unfold bind at 1.
    destruct ((page_top ui ;; results_tab ui) (start stored svc)) as [[[]|e|] w1];
      cbn [snd] in Ht; cbn [snd trace define emit bind shown];
      rewrite ?Ht; cbn [trace start app]; trivial.
    rewrite !Forall_app. repeat split; trivial; repeat constructor. }
  rewrite Forall_forall in F. split.
  - intros severity finding_type loc_str explanation Hin.
    apply F in Hin. cbn [not_a_finding] in Hin.
    exact (card_is_not_page_markdown _ _ _ _ Hin).
  - intros label Hin. apply F in Hin. exact Hin.
Qed.

(** ** What a run costs *)

Section Weights.
Variable f : event -> nat.

Lemma total_app (e1 e2 : list event) :
  total f (e1 ++ e2) = (total f e1 + total f e2)%nat.
Proof. unfold total. now rewrite map_app, list_sum_app. Qed.

Lemma weighs_le (c c' : nat) {A} (m : M A) :
  (c <= c')%nat -> weighs f c m -> weighs f c' m.
Proof.
  intros Hc H w. destruct (H w) as (evs & Ht & Hw). exists evs. split; [exact Ht|lia].
Qed.

Lemma weighs_zero (c : nat) {A} (m : M A) :
  adds (fun e => f e = 0%nat) m -> weighs f c m.
Proof.
  intros H w. destruct (H w) as (evs & Ht & F). exists evs. split; [exact Ht|].
  assert (total f evs = 0%nat); [|lia].
  clear Ht. induction F as [|e evs He _ IH]; [reflexivity|].
  change (total f (e :: evs)) with (f e + total f evs)%nat.
  cbv beta in He. lia.
Qed.

Lemma weighs_emit (c : nat) (e : event) :
  (f e <= c)%nat -> weighs f c (emit e).
Proof.
  intros H w. exists [e]. split; [reflexivity|]. unfold total. cbn. lia.
Qed.

Lemma weighs_send (c : nat) (r : request) :
  (f (Request r) <= c)%nat -> weighs f c (send r).
Proof.
  intros H w. exists [Request r]. unfold send.
  destruct (service w (calls w)); (split; [reflexivity|]); unfold total; cbn; lia.
Qed.

Lemma weighs_bind (c1 c2 : nat) {A B} (m : M A) (k : A -> M B) :
  weighs f c1 m -> (forall a, weighs f c2 (k a)) ->
  weighs f (c1 + c2) (bind m k).
Proof.
  intros Hm Hk w. unfold bind. destruct (Hm w) as (e1 & H1 & W1).
  destruct (m w) as [[a|e|] w']; cbn [snd] in *;
    try (exists e1; split; [exact H1|lia]).
  destruct (Hk a w') as (e2 & H2 & W2). exists (e1 ++ e2)%list.
  rewrite H2, H1, app_assoc, total_app. split; [reflexivity|lia].
Qed.

Lemma weighs_try (c : nat) {A} (m : M A) (h : exn -> M A) :
  weighs f c m -> (forall e, weighs f 0 (h e)) -> weighs f c (try_except m h).
Proof.
  intros Hm Hh w. unfold try_except. destruct (Hm w) as (e1 & H1 & W1).
  destruct (m w) as [[a|e|] w']; cbn [snd] in *;
    try (exists e1; split; [exact H1|lia]).
  destruct (Hh e w') as (e2 & H2 & W2). exists (e1 ++ e2)%list.
  rewrite H2, H1, app_assoc, total_app. split; [reflexivity|lia].
Qed.

Lemma weighs_for_each (c : nat) {A} (xs : list A) (body : A -> M control) :
  (forall x, weighs f c (body x)) ->
  weighs f (List.length xs * c) (for_each xs body).
Proof.
  intros Hb. induction xs as [|x xs IH].
  - intros w. exists []. cbn. rewrite app_nil_r. split; [reflexivity|].
    unfold total. cbn. lia.
  - cbn [for_each List.length]. replace (S (List.length xs) * c)%nat
      with (c + List.length xs * c)%nat by lia.
    apply weighs_bind; [apply Hb|]. intros [|]; [exact IH|].
    intros w. exists []. cbn. rewrite app_nil_r. split; [reflexivity|].
    unfold total. cbn. lia.
Qed.

End Weights.

(** Proves [adds P m] where [tac] settles [P] on each event. *)
Ltac adds_by tac :=
  repeat first
    [ apply adds_ret | apply adds_raise | apply adds_rerun | apply adds_lift
    | apply adds_get_session | apply adds_set_session | apply adds_define
    | apply adds_json
    | apply adds_emit; [cbv beta; tac]
    | apply adds_send; [cbv beta; tac]
    | apply adds_for_each; intros ?
    | apply adds_bind; [|intros ?]
    | apply adds_try; [|intros ?]
    | apply adds_call
    | match goal with
      | |- adds _ (if ?c then _ else _) => destruct c
      | |- adds _ (match ?x with _ => _ end) => destruct x
      end ].

Ltac free := apply weighs_zero; solve [adds_by ltac:(reflexivity)].

Ltac unfold_script :=
  unfold script, page_top, sidebar, api_status, upload_tab, video_upload,
    image_upload, analyze_video, analyze_images, analysis_started,
    video_poll, image_poll, poll, video_attempt, image_attempt, on_status,
    analysis_completed, analysis_failed, still_processing, job_endpoint,
    set_job_id, set_results, set_analysis_complete, requests_get,
    requests_post, sleep, results_tab, results_body, media_information,
    timeline_overview,
    findings_list, show_group, display_finding, show_metric, export_results,
    export_name,
    st_image, st_metric.

Section Costs.
Context {I : Interp}.
Variable ui : inputs.

Lemma attempt_sleeps (a : Z) :
  weighs seconds_slept 2 (video_attempt ui a)
  /\ weighs seconds_slept 2 (image_attempt ui a).
Proof.
  assert (S : forall t resp, weighs seconds_slept 2 (on_status ui t a resp)).
  { intros t resp. unfold on_status.
    apply (weighs_bind _ 0 2); [free|]. intros v.
    apply (weighs_bind _ 0 2); [free|]. intros st.
    destruct (py_eq_str st "completed").
    { unfold analysis_completed, job_endpoint, requests_get, set_results,
        set_analysis_complete. free. }
    apply (weighs_bind _ 0 2); [free|]. intros st'.
    destruct (py_eq_str st' "failed").
    { unfold analysis_failed. free. }
    unfold still_processing, sleep.
    apply (weighs_bind _ 0 2); [free|]. intros _.
    apply (weighs_bind _ 0 2); [free|]. intros _.
    apply (weighs_bind _ 2 0); [|intros _; free].
    apply weighs_emit. cbn. lia. }
  split.
  - unfold video_attempt, job_endpoint, requests_get.
    apply (weighs_bind _ 0 2); [free|]. intros u.
    apply (weighs_bind _ 0 2); [free|]. intros r.
    destruct (status_code r =? 200); [apply S | free].
  - unfold image_attempt, job_endpoint, requests_get.
    apply (weighs_bind _ 0 2); [free|]. intros u.
    apply (weighs_bind _ 0 2); [free|]. intros r.
    destruct (status_code r =? 200); [apply S | free].
Qed.

Lemma poll_sleeps :
  weighs seconds_slept 300 (video_poll ui)
  /\ weighs seconds_slept 300 (image_poll ui).
Proof.
  split; unfold video_poll, image_poll, poll;
    (apply (weighs_bind _ 0 300); [free|]; intros _;
     apply (weighs_bind _ 0 300); [free|]; intros _;
     change 300%nat with (List.length (range max_attempts) * 2)%nat;
     apply weighs_for_each; intros a; apply attempt_sleeps).
Qed.

Lemma script_sleeps : weighs seconds_slept 300 (script ui).
Proof.
  unfold script.
  apply (weighs_bind _ 300 0);
    [|intros _; unfold_script; free].
  unfold page_top.
  apply (weighs_bind _ 0 300); [free|]. intros _.
  apply (weighs_bind _ 0 300); [free|]. intros _.
  apply (weighs_bind _ 0 300); [unfold sidebar, api_status, requests_get; free|].
  intros _. unfold upload_tab.
  apply (weighs_bind _ 0 300); [free|]. intros _.
  destruct (media_type ui).
  - unfold video_upload. destruct (uploaded_file ui) as [file|]; [|free].
    apply (weighs_bind _ 0 300); [free|]. intros _.
    apply (weighs_bind _ 0 300); [free|]. intros _.
    apply (weighs_bind _ 0 300); [free|]. intros _.
    apply (weighs_bind _ 0 300); [free|]. intros _.
    destruct (analyze_video_pressed ui); [|free].
    unfold analyze_video.
    apply (weighs_bind _ 0 300); [free|]. intros _.
    apply weighs_try; [|intros e; free].
    apply (weighs_bind _ 0 300); [unfold requests_post; free|]. intros r.
    destruct (status_code r =? 200); [|free].
    apply (weighs_bind _ 0 300); [free|]. intros v.
    apply (weighs_bind _ 0 300); [unfold analysis_started, set_job_id; free|].
    intros _. cbv beta. exact (proj1 poll_sleeps).
  - unfold image_upload, st_image. destruct (uploaded_files ui) as [|img imgs]; [free|].
    apply (weighs_bind _ 0 300); [free|]. intros _.
    apply (weighs_bind _ 0 300); [free|]. intros _.
    apply (weighs_bind _ 0 300); [free|]. intros _.
    apply (weighs_bind _ 0 300); [free|]. intros _.
    match goal with |- weighs _ _ (if ?c then _ else _) => destruct c end; [free|].
    apply (weighs_bind _ 0 300); [free|]. intros _.
    destruct (analyze_images_pressed ui); [|free].
    unfold analyze_images.
    apply (weighs_bind _ 0 300); [free|]. intros _.
    apply weighs_try; [|intros e; free].
    apply (weighs_bind _ 0 300); [unfold requests_post; free|]. intros r.
    destruct (status_code r =? 200); [|free].
    apply (weighs_bind _ 0 300); [free|]. intros v.
    apply (weighs_bind _ 0 300); [unfold analysis_started, set_job_id; free|].
    intros _. cbv beta. exact (proj2 poll_sleeps).
Qed.

End Costs.

(** X12.  Whatever the service replies, a run of the script sleeps at most 300
    seconds in all (150 attempts of 2 seconds). *)
Theorem run_sleeps_at_most_300_seconds {I : Interp} (ui : inputs)
    (stored : option session_state) (svc : nat -> reply) :
  (total seconds_slept (trace (snd (run_script ui stored svc))) <= 300)%nat.
Proof.
  destruct (script_sleeps ui (start stored svc)) as (evs & Ht & Hw).
  unfold run_script. rewrite Ht. exact Hw.
Qed.

(** ** The health check *)

(** X13.  The health check of the sidebar sends one request, with a timeout of 5
    seconds, and never raises: it shows [API Online] exactly when the
    service answered 200, [API Error] exactly when it answered another
    status code, and [API Offline] exactly when the call failed. *)
Theorem health_check_outcome {I : Interp} (ui : inputs) (w : world) :
  fst (api_status ui w) = Done tt
  /\ requests_in (emitted (api_status ui) w) = [health_request ui]
  /\ (notices Success (emitted (api_status ui) w) = ["✅ API Online"]
      <-> exists resp, service w (calls w) = Responds resp
                       /\ status_code resp = 200)
  /\ (notices Error (emitted (api_status ui) w) = ["❌ API Error"]
      <-> exists resp, service w (calls w) = Responds resp
                       /\ status_code resp <> 200)
  /\ (notices Error (emitted (api_status ui) w) = ["❌ API Offline"]
      <-> exists msg, service w (calls w) = Fails msg).
Proof.
  assert (R : exists n,
             api_status ui w
             = (Done tt, after 1 [Subheader "🔌 API Status";
                                  Request (health_request ui); n] w)
             /\ n = match service w (calls w) with
                    | Responds resp =>
                        if status_code resp =? 200
                        then Notice Success "✅ API Online"
                        else Notice Error "❌ API Error"
                    | Fails _ => Notice Error "❌ API Offline"
                    end).
  { unfold api_status, try_except, requests_get, send. step.
    cbn [service calls shown].
    destruct (service w (calls w)) as [resp|msg].
    - destruct (status_code resp =? 200); eexists; (split; [|reflexivity]);
        step; same_world.
    - eexists. split; [|reflexivity]. step. same_world. }
  destruct R as (n & Hrun & Hn).
  assert (E : emitted (api_status ui) w
              = [Subheader "🔌 API Status"; Request (health_request ui); n]).
  { apply emitted_trace. rewrite Hrun. reflexivity. }
  rewrite E, Hrun. clear E Hrun.
  destruct (service w (calls w)) as [resp|msg].
  - destruct (Z.eqb_spec (status_code resp) 200) as [H|H]; subst n;
      cbn [fst requests_in notices flat_map app];
      (split; [reflexivity|]); (split; [reflexivity|]).
    + repeat split; try discriminate; eauto.
      * intros (r & Hr & Hc). injection Hr as <-. contradiction.
      * intros (m & Hm). discriminate.
    + repeat split; try discriminate; eauto.
      * intros (r & Hr & Hc). injection Hr as <-. contradiction.
      * intros (m & Hm). discriminate.
  - subst n; cbn [fst requests_in notices flat_map app].
    split; [reflexivity|]. split; [reflexivity|].
    repeat split; try discriminate; eauto.
    + intros (r & Hr & _). discriminate.
    + intros (r & Hr & _). discriminate.
Qed.

(** ** The results tab without findings to show *)

Section ExportTab.
Context {I : Interp}.
Variable ui : inputs.

Lemma export_name_runs (stem ext job : string) (w : world) :
  job_id (session w) = PStr job ->
  export_name stem ext w = (Done (stem ++ Text.take_chars 8 job ++ ext), w).
Proof.
  intros H. unfold export_name. step. rewrite H. reflexivity.
Qed.

Lemma findings_list_skipped (fs : list (list (string * value))) (w : world) :
  shows ui "High" (map PDict (filter (in_bucket "high") fs))
  || shows ui "Medium" (map PDict (filter (in_bucket "medium") fs))
  || shows ui "Low" (map PDict (filter (in_bucket "low") fs)) = false ->
  findings_list ui (PList (map PDict fs)) (map PDict fs) w
  = (Done tt,
     after 0 [Header ("🔍 Findings ("
                      ++ Text.of_Z (Z.of_nat (List.length fs)) ++ ")")] w).
Proof.
  intros Hs. apply orb_false_iff in Hs as [Hs Hl].
  apply orb_false_iff in Hs as [Hh Hm].
  unfold findings_list, py_len. rewrite !select_dicts, length_map. step.
  rewrite !(show_group_skipped ui) by assumption. settle. reflexivity.
Qed.

Lemma notices_app (l : level) (e1 e2 : list event) :
  notices l (e1 ++ e2) = (notices l e1 ++ notices l e2)%list.
Proof. apply flat_map_app. Qed.

Lemma metrics_are_quiet (items : list (Z * (string * value))) :
  requests_in (map media_metric items) = []
  /\ (forall l, notices l (map media_metric items) = [])
  /\ Forall no_download (map media_metric items).
Proof.
  induction items as [|[idx [k v]] items (IH1 & IH2 & IH3)];
    [repeat split; constructor|].
  split; [exact IH1|]. split; [exact IH2|].
  constructor; [exact Logic.I | exact IH3].
Qed.

(** The results tab on a payload of the documented shape whose findings
    fall in no selected group: the tab gets to the export section. *)
Lemma results_tab_reaches_export (d : list (string * value))
    (fs : list (list (string * value))) (w : world) :
  results (session w) = PDict d ->
  result_shape (PDict d) = true ->
  lookup "findings" d = Some (PList (map PDict fs)) ->
  fs <> [] ->
  shows ui "High" (map PDict (filter (in_bucket "high") fs))
  || shows ui "Medium" (map PDict (filter (in_bucket "medium") fs))
  || shows ui "Low" (map PDict (filter (in_bucket "low") fs)) = false ->
  exists evs,
    results_tab ui w = export_results ui (PDict d) (after 0 evs w)
    /\ requests_in evs = []
    /\ Forall no_download evs
    /\ In (Header ("🔍 Findings ("
                   ++ Text.of_Z (Z.of_nat (List.length fs)) ++ ")")) evs.
Proof.
  intros Hr Hshape Hf Hne Hs.
  cbn [result_shape] in Hshape. apply andb_true_iff in Hshape as [Hmi Hfs].
  unfold absent_or in Hfs. rewrite Hf in Hfs. cbn [findings_shape] in Hfs.
  assert (Ht : truthy (PDict d) = true).
  { destruct d; [discriminate Hf | reflexivity]. }
  assert (Ht' : truthy (PList (map PDict fs)) = true).
  { destruct fs; [contradiction | reflexivity]. }
  destruct (media_information_runs d (shown [Markdown warning_banner] w) Hmi)
    as (items & _ & Hmedia).
  unfold results_tab, results_body. step. rewrite Hr, Ht. step. rewrite Hmedia. step.
  unfold py_get. rewrite Hf. step. rewrite Ht'. unfold py_iter. step.
  rewrite timeline_overview_runs by assumption. settle.
  rewrite findings_list_skipped by assumption. settle.
  eexists. split; [reflexivity|].
  destruct (metrics_are_quiet (enumerate items)) as (Q1 & N & Q2).
  split.
  - unfold requests_in in *. cbn [app flat_map].
    rewrite !flat_map_app, Q1. reflexivity.
  - split.
    + repeat (constructor; [exact Logic.I|]).
      apply Forall_app. split; [|repeat constructor].
      apply Forall_app. split; [exact Q2 | repeat constructor].
    + do 3 right. apply in_or_app. right. left. reflexivity.
Qed.

Lemma export_offers_json (r : value) (job : string) (w : world) :
  job_id (session w) = PStr job ->
  download_pdf_pressed ui = false ->
  export_results ui r w
  = (Done tt,
     after 0 [Header "💾 Export Results"; Columns 2; json_download r job;
              Button "📑 Download PDF"] w).
Proof.
  intros Hj Hp. unfold export_results. step.
  rewrite (export_name_runs _ _ job) by exact Hj. step. rewrite Hp.
  settle. reflexivity.
Qed.

End ExportTab.

(** X14.  A stored result without findings (the key missing, an empty list
    or any other falsy value), whose media information, if any, is an
    object of values a metric can show, is reported as consistent and
    nothing can be exported: the tab sends no request and offers no
    download, whether the PDF button is pressed or not. *)
Theorem clean_result_offers_no_export {I : Interp} (ui : inputs) (w : world)
    (d : list (string * value)) :
  results (session w) = PDict d ->
  d <> [] ->
  absent_or metrics_shape "media_info" d = true ->
  truthy (or_default "findings" (PList []) d) = false ->
  fst (results_tab ui w) = Done tt
  /\ notices Success (emitted (results_tab ui) w)
     = ["✅ No anomalies detected - media appears consistent"]
  /\ requests_in (emitted (results_tab ui) w) = []
  /\ Forall no_download (emitted (results_tab ui) w).
Proof.
  intros Hr Hne Hmi Hf.
  assert (Ht : truthy (PDict d) = true).
  { destruct d; [contradiction | reflexivity]. }
  destruct (media_information_runs d (shown [Markdown warning_banner] w) Hmi)
    as (items & _ & Hmedia).
  assert (Hrun : results_tab ui w
                 = (Done tt,
                    after 0 ([Markdown warning_banner;
                              Header "📊 Media Information"; Columns 4]
                             ++ map media_metric (enumerate items)
                             ++ [Divider;
                                 Notice Success
                                   "✅ No anomalies detected - media appears consistent"])
                          w)).
  { unfold results_tab, results_body. step. rewrite Hr, Ht. step. rewrite Hmedia. step.
    unfold or_default in Hf. unfold py_get.
    destruct (lookup "findings" d) as [v|]; step; rewrite Hf; settle;
      same_world. }
  assert (E : emitted (results_tab ui) w
              = ([Markdown warning_banner;
                  Header "📊 Media Information"; Columns 4]
                 ++ map media_metric (enumerate items)
                 ++ [Divider;
                     Notice Success
                       "✅ No anomalies detected - media appears consistent"])%list).
  { apply emitted_trace. rewrite Hrun. reflexivity. }
  rewrite E, Hrun. clear E Hrun.
  destruct (metrics_are_quiet (enumerate items)) as (Q1 & N & Q2).
  split; [reflexivity|].
  split; [|split].
  - rewrite !notices_app, N. reflexivity.
  - rewrite !requests_in_app, Q1. reflexivity.
  - apply Forall_app. split; [repeat constructor|].
    apply Forall_app. split; [exact Q2 | repeat constructor].
Qed.

Lemma clean_result_offers_no_export_witness :
  let w := start (Some {| job_id := PStr "abc123";
                          results := PDict [("findings", PNone)];
                          analysis_complete := true |})
             (fun _ => healthy) in
  notices Success (emitted (results_tab sample_inputs) w)
  = ["✅ No anomalies detected - media appears consistent"]
  /\ requests_in (emitted (results_tab sample_inputs) w) = [].
Proof.
  intros w.
  destruct (clean_result_offers_no_export sample_inputs w
              [("findings", PNone)] eq_refl ltac:(discriminate) eq_refl
              eq_refl) as (_ & N & Q & _).
  split; [exact N | exact Q].
Defined.

(** X15.  In a stored result of the documented shape ([result_shape], the
    values of the media information being ones a metric can show),
    findings that fall in no selected group (the filter leaves their
    groups out, or their severity holds none of the three keywords) are
    counted but not rendered, and only then does the tab get to the export
    section: it ends normally, sends no request unless the PDF button is
    pressed, and offers the stored result as JSON under a file name made of
    the first 8 characters of the session's job identifier. *)
Theorem unshown_findings_reach_export {I : Interp} (ui : inputs) (w : world)
    (d : list (string * value)) (fs : list (list (string * value)))
    (job : string) :
  results (session w) = PDict d ->
  result_shape (PDict d) = true ->
  lookup "findings" d = Some (PList (map PDict fs)) ->
  fs <> [] ->
  shows ui "High" (map PDict (filter (in_bucket "high") fs))
  || shows ui "Medium" (map PDict (filter (in_bucket "medium") fs))
  || shows ui "Low" (map PDict (filter (in_bucket "low") fs)) = false ->
  job_id (session w) = PStr job ->
  download_pdf_pressed ui = false ->
  fst (results_tab ui w) = Done tt
  /\ requests_in (emitted (results_tab ui) w) = []
  /\ In (json_download (PDict d) job) (emitted (results_tab ui) w)
  /\ In (Header ("🔍 Findings ("
                 ++ Text.of_Z (Z.of_nat (List.length fs)) ++ ")"))
        (emitted (results_tab ui) w).
Proof.
  intros Hr Hshape Hf Hne Hs Hj Hp.
  destruct (results_tab_reaches_export ui d fs w Hr Hshape Hf Hne Hs)
    as (evs & Hrun & Q & _ & Hh).
  rewrite export_offers_json with (job := job) in Hrun by assumption.
  rewrite after_after in Hrun.
  assert (E : emitted (results_tab ui) w
              = (evs ++ [Header "💾 Export Results"; Columns 2;
                         json_download (PDict d) job;
                         Button "📑 Download PDF"])%list).
  { apply emitted_trace. rewrite Hrun. reflexivity. }
  rewrite E, Hrun. split; [reflexivity|]. split; [|split].
  - rewrite requests_in_app, Q. reflexivity.
  - apply in_or_app. right. cbn. auto.
  - apply in_or_app. left. exact Hh.
Qed.

Lemma unshown_findings_reach_export_witness :
  let stored := {| job_id := PStr "abc123-def456";
                   results := PDict [("findings",
                                      PList [PDict [("severity",
                                                     PStr "critical")]])];
                   analysis_complete := true |} in
  let w := start (Some stored) (fun _ => healthy) in
  fst (results_tab sample_inputs w) = Done tt
  /\ In (DownloadButton "📄 Download JSON" (JsonDump (results stored))
           "frame-analysis-abc123-d.json" "application/json")
        (emitted (results_tab sample_inputs) w).
Proof.
  intros stored w.
  destruct (unshown_findings_reach_export sample_inputs w
              [("findings", PList [PDict [("severity", PStr "critical")]])]
              [[("severity", PStr "critical")]] "abc123-def456"
              eq_refl eq_refl eq_refl ltac:(discriminate) eq_refl eq_refl
              eq_refl) as (D & _ & J & _).
  split; [exact D | exact J].
Defined.

Section ExportOutcomes.
Context {I : Interp}.
Variable ui : inputs.

Lemma export_asks_for_pdf (r : value) (job : string) (w : world) :
  job_id (session w) = PStr job ->
  download_pdf_pressed ui = true ->
  exists e,
    export_results ui r w
    = (Done tt,
       after 1 [Header "💾 Export Results"; Columns 2; json_download r job;
                Button "📑 Download PDF"; Request (export_request ui w); e] w)
    /\ e = match service w (calls w) with
           | Responds resp =>
               if status_code resp =? 200 then pdf_download resp job
               else Notice Error "PDF generation failed"
           | Fails msg => Notice Error ("Error downloading PDF: " ++ msg)
           end.
Proof.
  intros Hj Hp. unfold export_results. step.
  rewrite (export_name_runs _ _ job) by exact Hj. step. rewrite Hp.
  unfold try_except, job_endpoint, requests_get, send. step.
  cbn [service calls shown session].
  destruct (service w (calls w)) as [resp|msg].
  - destruct (status_code resp =? 200); eexists; (split; [|reflexivity]).
    + step. rewrite (export_name_runs _ _ job) by exact Hj. step. same_world.
    + step. same_world.
  - eexists. split; [|reflexivity]. step. same_world.
Qed.

End ExportOutcomes.

(** X16.  The PDF export, when its button is pressed in a session whose job
    identifier is a string: one request for the job's PDF with a timeout
    of 30 seconds, after the JSON download has been offered.  A 200 offers
    the body as [frame-analysis-report-<first 8 characters>.pdf]; another
    status code shows [PDF generation failed]; a failed call shows
    [Error downloading PDF:] and the exception's text.  The export never
    raises. *)
Theorem pdf_export_outcome {I : Interp} (ui : inputs) (r : value)
    (job : string) (w : world) :
  job_id (session w) = PStr job ->
  download_pdf_pressed ui = true ->
  fst (export_results ui r w) = Done tt
  /\ requests_in (emitted (export_results ui r) w) = [export_request ui w]
  /\ In (json_download r job) (emitted (export_results ui r) w)
  /\ (forall resp, service w (calls w) = Responds resp ->
      status_code resp = 200 ->
      last (emitted (export_results ui r) w) Divider = pdf_download resp job)
  /\ (forall resp, service w (calls w) = Responds resp ->
      status_code resp <> 200 ->
      last (emitted (export_results ui r) w) Divider
      = Notice Error "PDF generation failed")
  /\ (forall msg, service w (calls w) = Fails msg ->
      last (emitted (export_results ui r) w) Divider
      = Notice Error ("Error downloading PDF: " ++ msg)).
Proof.
  intros Hj Hp.
  destruct (export_asks_for_pdf ui r job w Hj Hp) as (e & Hrun & He).
  assert (E : emitted (export_results ui r) w
              = [Header "💾 Export Results"; Columns 2; json_download r job;
                 Button "📑 Download PDF"; Request (export_request ui w); e]).
  { apply emitted_trace. rewrite Hrun. reflexivity. }
  rewrite E, Hrun. clear E Hrun.
  split; [reflexivity|].
  split; [destruct e; try reflexivity; destruct (service w (calls w)) as [resp|msg];
          [destruct (status_code resp =? 200)|]; discriminate|].
  split; [cbn; auto|].
  cbn [last]. split; [|split].
  - intros resp Hs Hc. rewrite Hs, Hc in He. exact He.
  - intros resp Hs Hc. rewrite Hs in He.
    destruct (Z.eqb_spec (status_code resp) 200); [contradiction | exact He].
  - intros msg Hs. rewrite Hs in He. exact He.
Qed.

Lemma pdf_export_outcome_witness :
  let ui := {| API_BASE_URL := "https://your-api.onrender.com";
               media_type := Video;
               analysis_mode := "standard";
               sampling_mode := "sampled";
               sequence_type := "ordered";
               uploaded_file := None;
               uploaded_files := [];
               analyze_video_pressed := false;
               analyze_images_pressed := false;
               severity_filter := [];
               download_pdf_pressed := true |} in
  let w := start (Some polling_session) (fun _ => http_error 503) in
  requests_in (emitted (export_results ui (PDict [])) w)
  = [export_request ui w]
  /\ last (emitted (export_results ui (PDict [])) w) Divider
     = Notice Error "PDF generation failed".
Proof.
  intros ui w.
  destruct (pdf_export_outcome ui (PDict []) "abc123" w eq_refl eq_refl)
    as (_ & Q & _ & _ & F & _).
  split; [exact Q | exact (F _ eq_refl ltac:(discriminate))].
Defined.

(** ** A job identifier that is not a string *)

(** X17.  The export section slices the session's job identifier for the file
    name outside any [try]: when the identifier is a number, as an
    accepted upload can leave it, and the stored result has the documented
    shape ([result_shape]) with findings that fall in no selected group,
    the results tab raises [TypeError] after the export header; it sends
    no request and offers no download. *)
Theorem export_raises_on_numeric_job_id {I : Interp} (ui : inputs) (w : world)
    (d : list (string * value)) (fs : list (list (string * value))) (n : Z) :
  results (session w) = PDict d ->
  result_shape (PDict d) = true ->
  lookup "findings" d = Some (PList (map PDict fs)) ->
  fs <> [] ->
  shows ui "High" (map PDict (filter (in_bucket "high") fs))
  || shows ui "Medium" (map PDict (filter (in_bucket "medium") fs))
  || shows ui "Low" (map PDict (filter (in_bucket "low") fs)) = false ->
  job_id (session w) = PInt n ->
  fst (results_tab ui w)
  = Raised (TypeError "'int' object is not subscriptable")
  /\ Forall no_download (emitted (results_tab ui) w)
  /\ requests_in (emitted (results_tab ui) w) = [].
Proof.
  intros Hr Hshape Hf Hne Hs Hj.
  destruct (results_tab_reaches_export ui d fs w Hr Hshape Hf Hne Hs)
    as (evs & Hrun & Q & D & _).
  assert (Hx : export_results ui (PDict d) (after 0 evs w)
               = (Raised (TypeError "'int' object is not subscriptable"),
                  after 0 (evs ++ [Header "💾 Export Results"; Columns 2]) w)).
  { unfold export_results, export_name. step. cbn [session after shown].
    rewrite Hj. cbn [py_slice_to type_name]. step. same_world. }
  rewrite Hx in Hrun.
  assert (E : emitted (results_tab ui) w
              = (evs ++ [Header "💾 Export Results"; Columns 2])%list).
  { apply emitted_trace. rewrite Hrun. reflexivity. }
  rewrite E, Hrun. split; [reflexivity|]. split.
  - apply Forall_app. split; [exact D | repeat constructor].
  - rewrite requests_in_app, Q. reflexivity.
Qed.

Lemma export_raises_on_numeric_job_id_witness :
  let stored := {| job_id := PInt 12345;
                   results := PDict [("findings",
                                      PList [PDict [("severity",
                                                     PStr "critical")]])];
                   analysis_complete := true |} in
  fst (results_tab sample_inputs (start (Some stored) (fun _ => healthy)))
  = Raised (TypeError "'int' object is not subscriptable").
Proof.
  intros stored.
  exact (proj1 (export_raises_on_numeric_job_id sample_inputs
                  (start (Some stored) (fun _ => healthy))
                  [("findings", PList [PDict [("severity", PStr "critical")]])]
                  [[("severity", PStr "critical")]] 12345
                  eq_refl eq_refl eq_refl ltac:(discriminate) eq_refl
                  eq_refl)).
Defined.

(** ** Counting over a whole run *)

Lemma enumerate_length {A} (xs : list A) :
  List.length (enumerate xs) = List.length xs.
Proof.
  unfold enumerate, range. rewrite length_combine, length_map, length_seq.
  rewrite Nat2Z.id. apply Nat.min_id.
Qed.

Section Counts.
Context {I : Interp}.
Variable ui : inputs.

Lemma script_submits_once : weighs is_submission 1 (script ui).
Proof.
  unfold script.
  apply (weighs_bind _ 1 0); [|intros _; unfold_script; free].
  unfold page_top.
  apply (weighs_bind _ 0 1); [free|]. intros _.
  apply (weighs_bind _ 0 1); [free|]. intros _.
  apply (weighs_bind _ 0 1); [unfold sidebar, api_status, requests_get; free|].
  intros _. unfold upload_tab.
  apply (weighs_bind _ 0 1); [free|]. intros _.
  destruct (media_type ui).
  - unfold video_upload. destruct (uploaded_file ui) as [file|]; [|free].
    apply (weighs_bind _ 0 1); [free|]. intros _.
    apply (weighs_bind _ 0 1); [free|]. intros _.
    apply (weighs_bind _ 0 1); [free|]. intros _.
    apply (weighs_bind _ 0 1); [free|]. intros _.
    destruct (analyze_video_pressed ui); [|free].
    unfold analyze_video.
    apply (weighs_bind _ 0 1); [free|]. intros _.
    apply weighs_try; [|intros e; free].
    apply (weighs_bind _ 1 0);
      [unfold requests_post; apply weighs_send; apply le_n|].
    intros r. unfold_script. free.
  - unfold image_upload, st_image. destruct (uploaded_files ui) as [|img imgs]; [free|].
    apply (weighs_bind _ 0 1); [free|]. intros _.
    apply (weighs_bind _ 0 1); [free|]. intros _.
    apply (weighs_bind _ 0 1); [free|]. intros _.
    apply (weighs_bind _ 0 1); [free|]. intros _.
    match goal with |- weighs _ _ (if ?c then _ else _) => destruct c end; [free|].
    apply (weighs_bind _ 0 1); [free|]. intros _.
    destruct (analyze_images_pressed ui); [|free].
    unfold analyze_images.
    apply (weighs_bind _ 0 1); [free|]. intros _.
    apply weighs_try; [|intros e; free].
    apply (weighs_bind _ 1 0);
      [unfold requests_post; apply weighs_send; apply le_n|].
    intros r. unfold_script. free.
Qed.

Lemma script_shows_thumbnails : weighs is_thumbnail 5 (script ui).
Proof.
  unfold script.
  apply (weighs_bind _ 5 0); [|intros _; unfold_script; free].
  unfold page_top.
  apply (weighs_bind _ 0 5); [free|]. intros _.
  apply (weighs_bind _ 0 5); [free|]. intros _.
  apply (weighs_bind _ 0 5); [unfold sidebar, api_status, requests_get; free|].
  intros _. unfold upload_tab.
  apply (weighs_bind _ 0 5); [free|]. intros _.
  destruct (media_type ui); [unfold_script; free|].
  unfold image_upload, st_image. destruct (uploaded_files ui) as [|img imgs]; [free|].
  apply (weighs_bind _ 0 5); [free|]. intros _.
  apply (weighs_bind _ 0 5); [free|]. intros _.
  apply (weighs_bind _ 5 0); [|intros _; unfold_script; free].
  apply weighs_le
    with (c := (List.length (enumerate (firstn 5 (img :: imgs))) * 1)%nat).
  { rewrite enumerate_length, Nat.mul_1_r. apply firstn_le_length. }
  apply weighs_for_each. intros [idx f].
  apply (weighs_bind _ 1 0); [|intros _; free].
  destruct (is_image f); [apply weighs_emit; apply le_n | free].
Qed.

End Counts.

(** X18.  Whatever the inputs and the replies, a run submits at most once: its
    trace holds at most one POST request. *)
Theorem run_submits_at_most_once {I : Interp} (ui : inputs)
    (stored : option session_state) (svc : nat -> reply) :
  (total is_submission (trace (snd (run_script ui stored svc))) <= 1)%nat.
Proof.
  destruct (script_submits_once ui (start stored svc)) as (evs & Ht & Hw).
  unfold run_script. rewrite Ht. exact Hw.
Qed.

(** X19.  However many images are uploaded, a run shows at most 5 thumbnails. *)
Theorem run_shows_at_most_5_thumbnails {I : Interp} (ui : inputs)
    (stored : option session_state) (svc : nat -> reply) :
  (total is_thumbnail (trace (snd (run_script ui stored svc))) <= 5)%nat.
Proof.
  destruct (script_shows_thumbnails ui (start stored svc)) as (evs & Ht & Hw).
  unfold run_script. rewrite Ht. exact Hw.
Qed.

(** ** The loops on any replies, at a run *)

Lemma poll_on_any_replies_witness :
  let w := start (Some polling_session) (fun _ => http_error 500) in
  (List.length (requests_in (emitted (image_poll sample_inputs) w)) <= 151)%nat
  /\ Sorted Z.le (progress_shown (emitted (image_poll sample_inputs) w)).
Proof.
  intros w.
  destruct (poll_on_any_replies sample_inputs w (image_poll sample_inputs)
              (or_intror eq_refl)) as (L & S & _).
  split; [exact L | exact S].
Defined.

Lemma video_poll_stops_on_http_error_witness :
  let w := start (Some polling_session) (fun _ => http_error 500) in
  notices Error (trace (snd (video_poll sample_inputs w)))
  = ["Failed to check status"].
Proof.
  intros w.
  rewrite (video_poll_stops_on_http_error sample_inputs w _ eq_refl
             ltac:(discriminate)).
  reflexivity.
Defined.
